(** * The cross-origin-isolated static file server (wasm/mandelbrot/coep_server.py)

    The program is a twenty-line Python script: a subclass [COEPHandler] of
    the standard library's [http.server.SimpleHTTPRequestHandler] that
    overrides [end_headers], and a main block that parses [--port] and
    [--bind] with [argparse] and runs a [socketserver.TCPServer].

    The script's own code is embedded under its own names ([COEPHandler],
    [main]).  The methods it inherits and calls are embedded from CPython
    3.11 ([Lib/http/server.py], [Lib/socketserver.py], [Lib/posixpath.py],
    [Lib/argparse.py]); each definition names the function it follows.

    Conventions.  A Python [str] or [bytes] is a [string] (the request line
    is decoded as ISO-8859-1, one character per byte).  A handler method is
    a computation in the monad [M]: it reads and updates the handler object
    and either returns or raises.  Method overriding is open recursion
    through a record of the methods reached via [self] ([HandlerClass]).
    The [log_*] methods only write to [sys.stderr] and are left out. *)

From Stdlib Require Import String Ascii List ZArith Bool Lia.
From Stdlib Require Import DecimalString DecimalPos.
Import ListNotations.
Open Scope string_scope.
Open Scope Z_scope.

(** ** Strings *)

Module Str.

Definition CR : ascii := ascii_of_nat 13.
Definition LF : ascii := ascii_of_nat 10.
Definition CRLF : string := String CR (String LF EmptyString).

(** [str(n)] and ["%d" % n]. *)
Definition of_Z (n : Z) : string := NilZero.string_of_int (Z.to_int n).

(** [len(s)]. *)
Definition len (s : string) : Z := Z.of_nat (String.length s).

(** [c.lower()] on the Latin-1 range: A-Z and the accented capitals
    U+00C0..U+00DE except the multiplication sign U+00D7. *)
Definition lower_char (c : ascii) : ascii :=
  let n := nat_of_ascii c in
  if ((65 <=? n) && (n <=? 90))%nat then ascii_of_nat (n + 32)
  else if ((192 <=? n) && (n <=? 222) && negb (n =? 215))%nat
       then ascii_of_nat (n + 32)
  else c.

Fixpoint lower (s : string) : string :=
  match s with
  | EmptyString => EmptyString
  | String c r => String (lower_char c) (lower r)
  end.

(** [b"".join(l)]. *)
Definition join (l : list string) : string := String.concat "" l.

(** [s.startswith(p)]. *)
Definition startswith (s p : string) : bool := String.prefix p s.

(** [s.endswith(p)]. *)
Fixpoint rev_string (s : string) : string :=
  match s with
  | EmptyString => EmptyString
  | String c r => rev_string r ++ String c EmptyString
  end.

Definition endswith (s p : string) : bool :=
  String.prefix (rev_string p) (rev_string s).

(** [sub in s]. *)
Fixpoint contains (s sub : string) : bool :=
  String.prefix sub s ||
  match s with
  | EmptyString => false
  | String _ r => contains r sub
  end.

(** [s.split(sep)] for a one-character separator: every separator cuts, so
    the result is never empty and may hold empty strings. *)
Fixpoint split (sep : ascii) (s : string) : list string :=
  match s with
  | EmptyString => [EmptyString]
  | String c r =>
      if Ascii.eqb c sep then EmptyString :: split sep r
      else match split sep r with
           | [] => [String c EmptyString]
           | w :: ws => String c w :: ws
           end
  end.

(** [s.split(sep, 1)[0]]: the part before the first separator. *)
Fixpoint before (sep : ascii) (s : string) : string :=
  match s with
  | EmptyString => EmptyString
  | String c r => if Ascii.eqb c sep then EmptyString else String c (before sep r)
  end.

(** [s.split(sep, 1)[1]]: the part after the first separator, [None] when
    there is none ([IndexError]). *)
Fixpoint after (sep : ascii) (s : string) : option string :=
  match s with
  | EmptyString => None
  | String c r => if Ascii.eqb c sep then Some r else after sep r
  end.

(** [sep.join(l)]. *)
Definition join_with (sep : string) (l : list string) : string :=
  String.concat sep l.

(** [c.isspace()] on the Latin-1 range. *)
Definition isspace (c : ascii) : bool :=
  let n := nat_of_ascii c in
  (((9 <=? n) && (n <=? 13)) || ((28 <=? n) && (n <=? 32))
   || (n =? 133) || (n =? 160))%nat.

(** [s.split()]: cut at runs of whitespace, no empty strings. *)
Fixpoint words_aux (cur : option string) (s : string) : list string :=
  match s with
  | EmptyString => match cur with Some w => [rev_string w] | None => [] end
  | String c r =>
      if isspace c
      then match cur with
           | Some w => rev_string w :: words_aux None r
           | None => words_aux None r
           end
      else match cur with
           | Some w => words_aux (Some (String c w)) r
           | None => words_aux (Some (String c EmptyString)) r
           end
  end.

Definition words (s : string) : list string := words_aux None s.

(** [s.lstrip(c)] and [s.rstrip(chars)]. *)
Fixpoint lstrip (p : ascii -> bool) (s : string) : string :=
  match s with
  | String c r => if p c then lstrip p r else s
  | EmptyString => EmptyString
  end.

Definition rstrip (p : ascii -> bool) (s : string) : string :=
  rev_string (lstrip p (rev_string s)).

End Str.

(** ** Exceptions and the handler monad *)

Inductive exn : Type :=
| AttributeError (attr : string)
| ValueError
| TypeError (msg : string)
| OverflowError (msg : string)
| OSError (errno : Z) (strerror : string)
| gaierror (errno : Z) (strerror : string)
| KeyboardInterrupt
| SystemExit (code : Z).

Inductive result (A : Type) : Type :=
| Ok (a : A)
| Raise (e : exn).
Arguments Ok {A} a.
Arguments Raise {A} e.

(** [http.HTTPStatus], the members the handler uses. *)
Inductive HTTPStatus : Type :=
| CONTINUE | OK | NO_CONTENT | RESET_CONTENT | MOVED_PERMANENTLY
| NOT_MODIFIED | BAD_REQUEST | NOT_FOUND | REQUEST_URI_TOO_LONG
| REQUEST_HEADER_FIELDS_TOO_LARGE | NOT_IMPLEMENTED
| HTTP_VERSION_NOT_SUPPORTED.

Definition status_value (c : HTTPStatus) : Z :=
  match c with
  | CONTINUE => 100 | OK => 200 | NO_CONTENT => 204 | RESET_CONTENT => 205
  | MOVED_PERMANENTLY => 301 | NOT_MODIFIED => 304 | BAD_REQUEST => 400
  | NOT_FOUND => 404 | REQUEST_URI_TOO_LONG => 414
  | REQUEST_HEADER_FIELDS_TOO_LARGE => 431 | NOT_IMPLEMENTED => 501
  | HTTP_VERSION_NOT_SUPPORTED => 505
  end.

(** [BaseHTTPRequestHandler.responses]: [(phrase, description)]. *)
Definition responses (c : HTTPStatus) : string * string :=
  match c with
  | CONTINUE => ("Continue", "Request received, please continue")
  | OK => ("OK", "Request fulfilled, document follows")
  | NO_CONTENT => ("No Content", "Request fulfilled, nothing follows")
  | RESET_CONTENT => ("Reset Content", "Clear input form for further input")
  | MOVED_PERMANENTLY =>
      ("Moved Permanently", "Object moved permanently -- see URI list")
  | NOT_MODIFIED =>
      ("Not Modified", "Document has not changed since given time")
  | BAD_REQUEST =>
      ("Bad Request", "Bad request syntax or unsupported method")
  | NOT_FOUND => ("Not Found", "Nothing matches the given URI")
  | REQUEST_URI_TOO_LONG => ("Request-URI Too Long", "URI is too long")
  | REQUEST_HEADER_FIELDS_TOO_LARGE =>
      ("Request Header Fields Too Large",
       "The server is unwilling to process the request because its header fields are too large")
  | NOT_IMPLEMENTED =>
      ("Not Implemented", "Server does not support this operation")
  | HTTP_VERSION_NOT_SUPPORTED =>
      ("HTTP Version Not Supported", "Cannot fulfill request")
  end.

(** One [wfile.write(data)] call, labelled by its call site: the header
    block that [flush_headers] writes, or a message body (the explanation
    [send_error] writes, the file or listing [copyfile] copies).  The bytes
    on the wire are the [data] of the writes in order. *)
Inductive write : Type :=
| header_block (data : string)
| message_body (data : string).

Definition write_data (w : write) : string :=
  match w with
  | header_block d => d
  | message_body d => d
  end.

(** The request-handler object: the attributes the methods read and write.
    [_headers_buffer] is [None] while the attribute does not exist
    ([hasattr] is false); [wfile] is the sequence of [wfile.write] calls. *)
Record handler : Type := mkHandler {
  directory : string;
  request_version : string;
  command : option string;
  path : string;
  headers : list (string * string);
  close_connection : bool;
  _headers_buffer : option (list string);
  wfile : list write
}.

Definition M (A : Type) : Type := handler -> result A * handler.

Definition ret {A} (a : A) : M A := fun h => (Ok a, h).
Definition raise {A} (e : exn) : M A := fun h => (Raise e, h).
Definition bind {A B} (m : M A) (k : A -> M B) : M B :=
  fun h => match m h with
           | (Ok a, h') => k a h'
           | (Raise e, h') => (Raise e, h')
           end.
Definition get : M handler := fun h => (Ok h, h).
Definition modify (f : handler -> handler) : M unit := fun h => (Ok tt, f h).

Declare Scope py_scope.
Delimit Scope py_scope with py.
Notation "x <- m ;; k" := (bind m (fun x => k))
  (at level 61, m at next level, right associativity) : py_scope.
Notation "m ;; k" := (bind m (fun _ => k))
  (at level 61, right associativity) : py_scope.
Open Scope py_scope.

Definition set_request_version (v : string) (h : handler) : handler :=
  mkHandler (directory h) v (command h) (path h) (headers h)
            (close_connection h) (_headers_buffer h) (wfile h).
Definition set_command (c : option string) (h : handler) : handler :=
  mkHandler (directory h) (request_version h) c (path h) (headers h)
            (close_connection h) (_headers_buffer h) (wfile h).
Definition set_path (p : string) (h : handler) : handler :=
  mkHandler (directory h) (request_version h) (command h) p (headers h)
            (close_connection h) (_headers_buffer h) (wfile h).
Definition set_headers (hs : list (string * string)) (h : handler) : handler :=
  mkHandler (directory h) (request_version h) (command h) (path h) hs
            (close_connection h) (_headers_buffer h) (wfile h).
Definition set_close_connection (b : bool) (h : handler) : handler :=
  mkHandler (directory h) (request_version h) (command h) (path h) (headers h)
            b (_headers_buffer h) (wfile h).
Definition set_headers_buffer (b : option (list string)) (h : handler) : handler :=
  mkHandler (directory h) (request_version h) (command h) (path h) (headers h)
            (close_connection h) b (wfile h).
Definition wfile_write (data : write) (h : handler) : handler :=
  mkHandler (directory h) (request_version h) (command h) (path h) (headers h)
            (close_connection h) (_headers_buffer h) (wfile h ++ [data])%list.

(** ** Built-ins and the environment *)

Module Py.

Definition is_digit (c : ascii) : bool :=
  let n := nat_of_ascii c in ((48 <=? n) && (n <=? 57))%nat.

Definition digit_value (c : ascii) : Z := Z.of_nat (nat_of_ascii c) - 48.

Definition underscore : ascii := "_"%char.

(** The digits of a decimal literal: single underscores are allowed between
    digits only.  [prev] tells whether the previous character was a digit;
    the result is the value and the number of digits. *)
Fixpoint int_digits (acc : Z) (count : nat) (prev : bool) (s : string)
  : option (Z * nat) :=
  match s with
  | EmptyString => if prev then Some (acc, count) else None
  | String c r =>
      if is_digit c then int_digits (10 * acc + digit_value c) (S count) true r
      else if Ascii.eqb c underscore
           then if prev then int_digits acc count false r else None
      else None
  end.

(** The characters [int] skips around the number: the white space of
    ASCII ([Py_ISSPACE]: tab to carriage return, and the space) and, of the
    other characters, those that are white space for Unicode (U+0085 and
    U+00A0 in this range), which are read as spaces.  The separators
    U+001C..U+001F, white space for [str.split], are not skipped. *)
Definition int_space (c : ascii) : bool :=
  let n := nat_of_ascii c in
  (((9 <=? n) && (n <=? 13)) || (n =? 32) || (n =? 133) || (n =? 160))%nat.

(** [sys.get_int_max_str_digits()]. *)
Definition int_max_str_digits : nat := 4300.

(** [int(s)] for a string: surrounding whitespace, an optional sign, decimal
    digits; [None] stands for [ValueError]. *)
Definition int (s : string) : option Z :=
  let s := Str.rstrip int_space (Str.lstrip int_space s) in
  let '(sign, body) :=
    match s with
    | String "+" r => (1, r)
    | String "-" r => (-1, r)
    | _ => (1, s)
    end in
  match int_digits 0 0 false body with
  | Some (v, n) => if (n <=? int_max_str_digits)%nat then Some (sign * v) else None
  | None => None
  end.

End Py.

(** A node of the file system as the handler sees it: a regular file
    ([content = None] when [open] fails with [OSError]; [mtime] in whole
    seconds, a time that [datetime] can hold) or a directory
    ([entries = None] when [os.listdir] fails with [OSError]).
    Symbolic links are not modelled: a path names the node it spells. *)
Inductive node : Type :=
| File (content : option string) (mtime : Z)
| Dir (entries : option (list string)).

(** What the handler takes from outside the program: the file system, the
    clock and the library functions whose results the program only copies
    into its output. *)
Record Env : Type := mkEnv {
  (** the file system, by path without trailing slash *)
  fs : string -> option node;
  (** [os.getcwd()] *)
  getcwd : string;
  (** [self.version_string()] *)
  version_string : string;
  (** [self.date_time_string(timestamp)], [None] for the current time *)
  date_time_string : option Z -> string;
  (** [repr(s)] *)
  repr : string -> string;
  (** [urllib.parse.unquote] with the fallback of [translate_path] *)
  unquote : string -> string;
  (** [mimetypes.guess_type(path)[0]] *)
  mimetypes_guess_type : string -> option string;
  (** [email.utils.parsedate_to_datetime]: [None] when it raises, else the
      instant as a timestamp (a naive value read as UTC) and the UTC offset
      ([None] when naive) *)
  parsedate_to_datetime : string -> option (Z * option Z);
  (** [(error_message_format % {...}).encode('UTF-8', 'replace')] *)
  error_message : Z -> string -> string -> string;
  (** the page [list_directory] builds from the request path and the
      sorted entries (which it marks as directories or links by looking
      at them, inside the directory), encoded; [None] when [encode] raises
      [UnicodeEncodeError] (a lone surrogate in the path) *)
  listing_page : string -> list string -> option string;
  (** [sys.getfilesystemencoding()] *)
  filesystemencoding : string;
  (** [urllib.parse.urlsplit(url).path] *)
  urlsplit_path : string -> string;
  (** [urlunsplit] of the split URL with ["/"] appended to its path *)
  url_with_slash : string -> string;
  (** the string stands for a path with a lone surrogate, which
      [os.fsencode] refuses with [UnicodeEncodeError] (the characters of
      the model are bytes: they cannot show it) *)
  unencodable : string -> bool
}.

(** One request as the handler reads it from [rfile]: the request line, and
    what [http.client.parse_headers] makes of the lines after it. *)
Inductive parsed_headers : Type :=
| Headers (fields : list (string * string))
| LineTooLong
| TooManyHeaders.

Record request : Type := mkRequest {
  raw_requestline : string;
  request_headers : parsed_headers
}.

(** [message.get(name, "")] and [name in message]: field names compare
    without case. *)
Fixpoint headers_get (hs : list (string * string)) (name : string) : option string :=
  match hs with
  | [] => None
  | (k, v) :: r =>
      if (Str.lower k =? Str.lower name)%string then Some v
      else headers_get r name
  end.

Definition headers_get_default (hs : list (string * string)) (name : string) : string :=
  match headers_get hs name with
  | Some v => v
  | None => ""
  end.

Definition headers_mem (hs : list (string * string)) (name : string) : bool :=
  match headers_get hs name with
  | Some _ => true
  | None => false
  end.

(** ** http.server.BaseHTTPRequestHandler *)

(** The methods of the class that are called through [self] and that a
    subclass of this program overrides. *)
Record HandlerClass : Type := mkClass {
  self_end_headers : M unit
}.

Module BaseHTTPRequestHandler.

Definition protocol_version : string := "HTTP/1.0".
Definition default_request_version : string := "HTTP/0.9".

(** [if not hasattr(self, '_headers_buffer'): self._headers_buffer = []]. *)
Definition buffer_or_new (h : handler) : list string :=
  match _headers_buffer h with
  | Some b => b
  | None => []
  end.

(** [send_response_only(code, message)]. *)
Definition send_response_only (code : HTTPStatus) (message : option string)
  : M unit :=
  h <- get ;;
  if negb (request_version h =? "HTTP/0.9")%string then
    let message := match message with
                   | Some m => m
                   | None => fst (responses code)
                   end in
    let line := protocol_version ++ " " ++ Str.of_Z (status_value code)
                ++ " " ++ message ++ Str.CRLF in
    modify (fun h =>
      set_headers_buffer (Some (buffer_or_new h ++ [line])%list) h)
  else ret tt.

(** [send_header(keyword, value)]. *)
Definition send_header (keyword value : string) : M unit :=
  h <- get ;;
  (if negb (request_version h =? "HTTP/0.9")%string then
     modify (fun h =>
       set_headers_buffer
         (Some (buffer_or_new h
                ++ [keyword ++ ": " ++ value ++ Str.CRLF]%string)%list) h)
   else ret tt) ;;
  if (Str.lower keyword =? "connection")%string then
    if (Str.lower value =? "close")%string then
      modify (set_close_connection true)
    else if (Str.lower value =? "keep-alive")%string then
      modify (set_close_connection false)
    else ret tt
  else ret tt.

(** [flush_headers()]. *)
Definition flush_headers : M unit :=
  h <- get ;;
  match _headers_buffer h with
  | Some b =>
      modify (wfile_write (header_block (Str.join b))) ;;
      modify (set_headers_buffer (Some []))
  | None => ret tt
  end.

(** [end_headers()]: appending to a buffer that does not exist raises. *)
Definition end_headers : M unit :=
  h <- get ;;
  if negb (request_version h =? "HTTP/0.9")%string then
    match _headers_buffer h with
    | Some b =>
        modify (set_headers_buffer (Some (b ++ [Str.CRLF])%list)) ;;
        flush_headers
    | None => raise (AttributeError "_headers_buffer")
    end
  else ret tt.

Section Methods.

Variable env : Env.
Variable cls : HandlerClass.

Definition error_content_type : string := "text/html;charset=utf-8".

(** [send_response(code, message)]. *)
Definition send_response (code : HTTPStatus) (message : option string) : M unit :=
  send_response_only code message ;;
  send_header "Server" (version_string env) ;;
  send_header "Date" (date_time_string env None).

(** [send_error(code, message, explain)]; [self.end_headers()] is the
    method of the handler's class. *)
Definition send_error (code : HTTPStatus) (message explain : option string)
  : M unit :=
  let '(shortmsg, longmsg) := responses code in
  let message := match message with Some m => m | None => shortmsg end in
  let explain := match explain with Some e => e | None => longmsg end in
  send_response code (Some message) ;;
  send_header "Connection" "close" ;;
  body <-
    (if (200 <=? status_value code)
        && negb (status_value code =? status_value NO_CONTENT)
        && negb (status_value code =? status_value RESET_CONTENT)
        && negb (status_value code =? status_value NOT_MODIFIED)
     then
       let body := error_message env (status_value code) message explain in
       send_header "Content-Type" error_content_type ;;
       send_header "Content-Length" (Str.of_Z (Str.len body)) ;;
       ret (Some body)
     else ret None) ;;
  self_end_headers cls ;;
  h <- get ;;
  match body with
  | Some b =>
      if negb (match command h with
               | Some c => (c =? "HEAD")%string
               | None => false
               end)
         && negb (b =? "")%string
      then modify (wfile_write (message_body b))
      else ret tt
  | None => ret tt
  end.

(** [handle_expect_100()]. *)
Definition handle_expect_100 : M bool :=
  send_response_only CONTINUE None ;;
  self_end_headers cls ;;
  ret true.

(** The [try] block of [parse_request] that reads the protocol version:
    [None] when it raises [ValueError] or [IndexError]. *)
Definition version_number (version : string) : option (string * (Z * Z)) :=
  if negb (Str.startswith version "HTTP/") then None
  else match Str.after "/" version with
       | None => None
       | Some base_version_number =>
           match Str.split "." base_version_number with
           | [major; minor] =>
               match Py.int major, Py.int minor with
               | Some a, Some b => Some (base_version_number, (a, b))
               | _, _ => None
               end
           | _ => None
           end
       end.

(** [(a, b) >= (c, d)] on pairs of integers. *)
Definition pair_ge (x y : Z * Z) : bool :=
  (fst y <? fst x) || ((fst x =? fst y) && (snd y <=? snd x)).

(** [s >= t] on strings. *)
Definition str_ge (s t : string) : bool := String.leb t s.

(** The end of [parse_request], from the header block on. *)
Definition parse_request_headers (req : request) : M bool :=
  match request_headers req with
  | LineTooLong =>
      send_error REQUEST_HEADER_FIELDS_TOO_LARGE (Some "Line too long")
        (Some "got more than 65536 bytes when reading header line") ;;
      ret false
  | TooManyHeaders =>
      send_error REQUEST_HEADER_FIELDS_TOO_LARGE (Some "Too many headers")
        (Some "got more than 100 headers") ;;
      ret false
  | Headers fields =>
      modify (set_headers fields) ;;
      let conntype := headers_get_default fields "Connection" in
      (if (Str.lower conntype =? "close")%string
       then modify (set_close_connection true)
       else if (Str.lower conntype =? "keep-alive")%string
               && str_ge protocol_version "HTTP/1.1"
       then modify (set_close_connection false)
       else ret tt) ;;
      let expect := headers_get_default fields "Expect" in
      h <- get ;;
      if (Str.lower expect =? "100-continue")%string
         && str_ge protocol_version "HTTP/1.1"
         && str_ge (request_version h) "HTTP/1.1"
      then
        ok <- handle_expect_100 ;;
        if ok then ret true else ret false
      else ret true
  end.

(** The middle of [parse_request]: the word count, the command and the
    path. *)
Definition parse_request_words (req : request) (requestline : string)
    (words : list string) : M bool :=
  if negb ((2 <=? length words)%nat && (length words <=? 3)%nat) then
    send_error BAD_REQUEST
      (Some ("Bad request syntax (" ++ repr env requestline ++ ")")) None ;;
    ret false
  else
    let command := nth 0 words "" in
    let path := nth 1 words "" in
    if (length words =? 2)%nat && negb (command =? "GET")%string then
      modify (set_close_connection true) ;;
      send_error BAD_REQUEST
        (Some ("Bad HTTP/0.9 request type (" ++ repr env command ++ ")")) None ;;
      ret false
    else
      (if (length words =? 2)%nat then modify (set_close_connection true)
       else ret tt) ;;
      modify (set_command (Some command)) ;;
      modify (set_path
                (if Str.startswith path "//"
                 then "/" ++ Str.lstrip (Ascii.eqb "/") path
                 else path)) ;;
      parse_request_headers req.

(** [parse_request()]. *)
Definition parse_request (req : request) : M bool :=
  modify (set_command None) ;;
  modify (set_request_version default_request_version) ;;
  modify (set_close_connection true) ;;
  let requestline :=
    Str.rstrip (fun c => Ascii.eqb c Str.CR || Ascii.eqb c Str.LF)
               (raw_requestline req) in
  let words := Str.words requestline in
  if (length words =? 0)%nat then ret false
  else if (3 <=? length words)%nat then
    let version := last words "" in
    match version_number version with
    | None =>
        send_error BAD_REQUEST
          (Some ("Bad request version (" ++ repr env version ++ ")")) None ;;
        ret false
    | Some (base_version_number, number) =>
        (if pair_ge number (1, 1) && str_ge protocol_version "HTTP/1.1"
         then modify (set_close_connection false) else ret tt) ;;
        if pair_ge number (2, 0) then
          send_error HTTP_VERSION_NOT_SUPPORTED
            (Some ("Invalid HTTP version (" ++ base_version_number ++ ")")) None ;;
          ret false
        else
          modify (set_request_version version) ;;
          parse_request_words req requestline words
    end
  else parse_request_words req requestline words.

End Methods.

End BaseHTTPRequestHandler.

(** [self.path], for the methods that also have a local [path]. *)
Definition self_path (h : handler) : string := path h.

(** ** posixpath *)

Module posixpath.

(** The loop of [normpath]; [new_comps] is kept last component first. *)
Fixpoint normpath_loop (initial_slashes : bool) (new_comps comps : list string)
  : list string :=
  match comps with
  | [] => new_comps
  | comp :: rest =>
      if (comp =? "")%string || (comp =? ".")%string
      then normpath_loop initial_slashes new_comps rest
      else if negb (comp =? "..")%string
              || (negb initial_slashes
                  && match new_comps with [] => true | _ => false end)
              || match new_comps with
                 | last :: _ => (last =? "..")%string
                 | [] => false
                 end
      then normpath_loop initial_slashes (comp :: new_comps) rest
      else normpath_loop initial_slashes (tl new_comps) rest
  end.

(** [posixpath.normpath(path)]. *)
Definition normpath (path : string) : string :=
  if (path =? "")%string then "."
  else
    let initial_slashes : nat :=
      if Str.startswith path "/" then
        if Str.startswith path "//" && negb (Str.startswith path "///")
        then 2%nat else 1%nat
      else 0%nat in
    let comps := rev (normpath_loop (negb (initial_slashes =? 0)%nat) []
                                    (Str.split "/" path)) in
    let path := Str.join_with "/" comps in
    let path := (match initial_slashes with
                 | O => ""
                 | S O => "/"
                 | _ => "//"
                 end ++ path)%string in
    if (path =? "")%string then "." else path.

(** [posixpath.join(a, b)]. *)
Definition join (a b : string) : string :=
  if Str.startswith b "/" then b
  else if (a =? "")%string || Str.endswith a "/" then a ++ b
  else a ++ "/" ++ b.

(** [posixpath.dirname(p)] is empty exactly when [p] has no slash; only
    that is used. *)
Definition has_dirname (p : string) : bool := Str.contains p "/".

(** The extension of [posixpath.splitext(path)]: from the last dot of the
    last component, unless only dots come before it there. *)
Fixpoint ext_scan (name : string) (seen_other : bool) (ext : string) : string :=
  match name with
  | EmptyString => ext
  | String c r =>
      if Ascii.eqb c "."
      then ext_scan r seen_other (if seen_other then name else ext)
      else ext_scan r true ext
  end.

Definition splitext_ext (path : string) : string :=
  ext_scan (last (Str.split "/" path) "") false "".

End posixpath.

(** ** http.server.SimpleHTTPRequestHandler *)

Module SimpleHTTPRequestHandler.

Import BaseHTTPRequestHandler.

Definition extensions_map (ext : string) : option string :=
  if (ext =? ".gz")%string then Some "application/gzip"
  else if (ext =? ".Z")%string then Some "application/octet-stream"
  else if (ext =? ".bz2")%string then Some "application/x-bzip2"
  else if (ext =? ".xz")%string then Some "application/x-xz"
  else None.

(** The loop of [translate_path] over the words of the path. *)
Fixpoint translate_words (path : string) (words : list string) : string :=
  match words with
  | [] => path
  | word :: rest =>
      if posixpath.has_dirname word || (word =? ".")%string || (word =? "..")%string
      then translate_words path rest
      else translate_words (posixpath.join path word) rest
  end.

(** [filter(None, words)]. *)
Definition nonempty (w : string) : bool := negb (w =? "")%string.

Section Methods.

Variable env : Env.
Variable cls : HandlerClass.

(** [__init__(directory=None)]: the handler serves [os.getcwd()]. *)
Definition init : handler :=
  mkHandler (getcwd env) "" None "" [] true None [].

(** The path as the file system knows it: trailing slashes do not count. *)
Definition fs_key (path : string) : string :=
  let p := Str.rstrip (Ascii.eqb "/") path in
  if (p =? "")%string && negb (path =? "")%string then "/" else p.

(** The path is no path for the system: it holds a NUL byte or a lone
    surrogate.  Then [os.stat], [os.listdir] and [open] raise [ValueError]
    (or [UnicodeEncodeError], which is one). *)
Definition unopenable (path : string) : bool :=
  Str.contains path (String Ascii.zero EmptyString) || unencodable env path.

(** [os.path.isdir(path)] and [os.path.isfile(path)], which take the
    [OSError] and the [ValueError] of [os.stat] for a no. *)
Definition isdir (path : string) : bool :=
  if unopenable path then false
  else match fs env (fs_key path) with
       | Some (Dir _) => true
       | _ => false
       end.

Definition isfile (path : string) : bool :=
  if unopenable path then false
  else match fs env (fs_key path) with
       | Some (File _ _) => true
       | _ => false
       end.

(** [translate_path(path)]. *)
Definition translate_path (directory path : string) : string :=
  let path := Str.before "?" path in
  let path := Str.before "#" path in
  let trailing_slash := Str.endswith (Str.rstrip Str.isspace path) "/" in
  let path := unquote env path in
  let path := posixpath.normpath path in
  let words := filter nonempty (Str.split "/" path) in
  let path := translate_words directory words in
  if trailing_slash then path ++ "/" else path.

(** [guess_type(path)]. *)
Definition guess_type (path : string) : string :=
  let ext := posixpath.splitext_ext path in
  match extensions_map ext with
  | Some t => t
  | None =>
      match extensions_map (Str.lower ext) with
      | Some t => t
      | None =>
          match mimetypes_guess_type env path with
          | Some guess => if (guess =? "")%string
                          then "application/octet-stream" else guess
          | None => "application/octet-stream"
          end
      end
  end.

(** [list_directory(path)]: the page to copy, or [None] after an error
    response.  Only the [OSError] of [os.listdir] is caught; the page is
    encoded before anything is sent. *)
Definition list_directory (path : string) : M (option string) :=
  if unopenable path then raise ValueError
  else
    match fs env (fs_key path) with
    | Some (Dir (Some entries)) =>
        h <- get ;;
        match listing_page env (self_path h) entries with
        | None => raise ValueError
        | Some encoded =>
            send_response env OK None ;;
            send_header "Content-type"
              ("text/html; charset=" ++ filesystemencoding env) ;;
            send_header "Content-Length" (Str.of_Z (Str.len encoded)) ;;
            self_end_headers cls ;;
            ret (Some encoded)
        end
    | _ =>
        send_error env cls NOT_FOUND (Some "No permission to list directory")
          None ;;
        ret None
    end.

(** The test of [send_head] for a conditional request: the file was not
    modified after the time the client gives. *)
Definition not_modified (hs : list (string * string)) (mtime : Z) : bool :=
  if headers_mem hs "If-Modified-Since" && negb (headers_mem hs "If-None-Match")
  then match parsedate_to_datetime env (headers_get_default hs "If-Modified-Since") with
       | None => false
       | Some (ims, tz) =>
           match tz with
           | None => mtime <=? ims
           | Some offset => (offset =? 0) && (mtime <=? ims)
           end
       end
  else false.

(** The end of [send_head]: open the file at [path] and send its headers.
    Only the [OSError] of [open] is caught. *)
Definition send_head_file (path : string) : M (option string) :=
  let ctype := guess_type path in
  if Str.endswith path "/" then
    send_error env cls NOT_FOUND (Some "File not found") None ;;
    ret None
  else if unopenable path then raise ValueError
  else
    match fs env path with
    | Some (File (Some content) mtime) =>
        h <- get ;;
        if not_modified (headers h) mtime then
          send_response env NOT_MODIFIED None ;;
          self_end_headers cls ;;
          ret None
        else
          send_response env OK None ;;
          send_header "Content-type" ctype ;;
          send_header "Content-Length" (Str.of_Z (Str.len content)) ;;
          send_header "Last-Modified" (date_time_string env (Some mtime)) ;;
          self_end_headers cls ;;
          ret (Some content)
    | _ =>
        send_error env cls NOT_FOUND (Some "File not found") None ;;
        ret None
    end.

(** [send_head()]. *)
Definition send_head : M (option string) :=
  h <- get ;;
  let path := translate_path (directory h) (self_path h) in
  if isdir path then
    if negb (Str.endswith (urlsplit_path env (self_path h)) "/")
    then
      send_response env MOVED_PERMANENTLY None ;;
      send_header "Location" (url_with_slash env (self_path h)) ;;
      send_header "Content-Length" "0" ;;
      self_end_headers cls ;;
      ret None
    else if isfile (posixpath.join path "index.html")
    then send_head_file (posixpath.join path "index.html")
    else if isfile (posixpath.join path "index.htm")
    then send_head_file (posixpath.join path "index.htm")
    else list_directory path
  else send_head_file path.

(** [copyfile(source, outputfile)]: [shutil.copyfileobj] writes the content
    in blocks; the blocks are recorded as one write, none for an empty
    file. *)
Definition copyfile (content : string) : M unit :=
  if (content =? "")%string then ret tt else modify (wfile_write (message_body content)).

(** [do_GET()]. *)
Definition do_GET : M unit :=
  f <- send_head ;;
  match f with
  | Some content => copyfile content
  | None => ret tt
  end.

(** [do_HEAD()]. *)
Definition do_HEAD : M unit :=
  f <- send_head ;;
  ret tt.

(** [getattr(self, 'do_' + command)]: the class and its bases define
    [do_GET] and [do_HEAD]. *)
Definition do_method (command : string) : option (M unit) :=
  if (command =? "GET")%string then Some do_GET
  else if (command =? "HEAD")%string then Some do_HEAD
  else None.

(** [handle_one_request()] on the next request of [rfile]; at end of input
    [readline] returns the empty string. *)
Definition handle_one_request (req : request) : M unit :=
  if 65536 <? Str.len (raw_requestline req) then
    modify (set_request_version "") ;;
    modify (set_command (Some "")) ;;
    send_error env cls REQUEST_URI_TOO_LONG None None
  else if (raw_requestline req =? "")%string then
    modify (set_close_connection true)
  else
    ok <- parse_request env cls req ;;
    if negb ok then ret tt
    else
      h <- get ;;
      let command := match command h with Some c => c | None => "" end in
      match do_method command with
      | None =>
          send_error env cls NOT_IMPLEMENTED
            (Some ("Unsupported method (" ++ repr env command ++ ")")) None
      | Some method => method
      end.

Definition end_of_input : request := mkRequest "" (Headers []).

(** The [while] loop of [handle]. *)
Fixpoint handle_loop (rfile : list request) : M unit :=
  h <- get ;;
  if close_connection h then ret tt
  else match rfile with
       | [] => handle_one_request end_of_input
       | req :: rest => handle_one_request req ;; handle_loop rest
       end.

(** [handle()]. *)
Definition handle (rfile : list request) : M unit :=
  modify (set_close_connection true) ;;
  handle_one_request (hd end_of_input rfile) ;;
  handle_loop (tl rfile).

End Methods.

End SimpleHTTPRequestHandler.

(** ** coep_server.py: class COEPHandler *)

Module COEPHandler.

(** [COEPHandler.end_headers]: [send_header] is inherited, and
    [super().end_headers()] is the base class's method. *)
Definition end_headers : M unit :=
  BaseHTTPRequestHandler.send_header "Cross-Origin-Opener-Policy" "same-origin" ;;
  BaseHTTPRequestHandler.send_header "Cross-Origin-Embedder-Policy" "require-corp" ;;
  BaseHTTPRequestHandler.end_headers.

Definition class : HandlerClass := mkClass end_headers.

End COEPHandler.

(** The class the program derives from, for comparison. *)
Definition SimpleHTTPRequestHandler_class : HandlerClass :=
  mkClass BaseHTTPRequestHandler.end_headers.

(** The two header lines as they appear on the wire. *)
Definition COOP_line : string :=
  "Cross-Origin-Opener-Policy: same-origin" ++ Str.CRLF.
Definition COEP_line : string :=
  "Cross-Origin-Embedder-Policy: require-corp" ++ Str.CRLF.

(** ** argparse: the parser the program builds

    [parser.add_argument('--port', '-p', type=int, default=8080)] and
    [parser.add_argument('--bind', '-b', default='127.0.0.1')], next to the
    [-h]/[--help] option every parser has.  [parse_args] follows
    [ArgumentParser._parse_known_args] for this parser: every string is
    first classified ([_parse_optional]), then options are consumed from
    left to right, each action taken as soon as its option is consumed.
    The first [--] ends the options: it and the strings after it are
    arguments, and since the parser has no positional argument they end up
    among the unrecognized ones. *)

Module argparse.

Record Namespace : Type := mkNamespace {
  port : Z;
  bind : string
}.

Inductive action : Type := help | store_port | store_bind.

(** The messages of [parser.error]. *)
Inductive error : Type :=
| ambiguous_option (arg : string)
| expected_one_argument (option_string : string)
| ignored_explicit_argument (explicit_arg : string)
| invalid_int_value (arg : string)
| unrecognized_arguments (extras : list string).

(** What an option has stored: the value its [type] made of the argument,
    or the empty list, which is what [_get_values] makes of the argument
    [--]. *)
Inductive stored (T : Type) : Type :=
| value (v : T)
| empty_list.

Arguments value {T} v.
Arguments empty_list {T}.

(** The namespace while the arguments are parsed. *)
Record Attributes : Type := mkAttributes {
  port_attr : stored Z;
  bind_attr : stored string
}.

(** A namespace with an attribute that is the empty list: [port] is, and
    [bind] is what it is; or [bind] is, and [port] is an integer. *)
Inductive ListNamespace : Type :=
| port_list (bind : stored string)
| bind_list (port : Z).

Inductive outcome : Type :=
| parsed (args : Namespace)
| help_exit
| error_exit (e : error)
| parsed_list (args : ListNamespace).

(** Where the parser stands after an action: it goes on with the
    namespace, or it has left by [parser.exit] or [parser.error]. *)
Inductive progress : Type :=
| go_on (ns : Attributes)
| exit_help
| exit_error (e : error).

(** [self._option_string_actions]. *)
Definition option_string_actions (s : string) : option action :=
  if (s =? "-h")%string || (s =? "--help")%string then Some help
  else if (s =? "--port")%string || (s =? "-p")%string then Some store_port
  else if (s =? "--bind")%string || (s =? "-b")%string then Some store_bind
  else None.

Definition option_strings : list string :=
  ["-h"; "--help"; "--port"; "-p"; "--bind"; "-b"].

(** What [_parse_optional] makes of one string: a positional argument, an
    option (the action is [None] for an unknown option), or an error.
    [separator] is the mark of the first [--], which [_parse_optional] is
    not asked about. *)
Inductive kind : Type :=
| A
| O (act : option action) (option_string : string) (explicit_arg : option string)
| ambiguous
| separator.

Definition dash : ascii := "-"%char.

(** [_negative_number_matcher]: [^-\d+$|^-\d*\.\d+$], where [$] matches
    at the end of the string and before a line feed that ends it. *)
Fixpoint all_digits (s : string) : bool :=
  match s with
  | EmptyString => true
  | String c r => Py.is_digit c && all_digits r
  end.

Definition negative_number_body (r : string) : bool :=
  (negb (r =? "")%string && all_digits r)
  || match Str.after "." r with
     | Some frac =>
         all_digits (Str.before "." r)
         && negb (frac =? "")%string && all_digits frac
     | None => false
     end.

Definition without_final_LF (s : string) : string :=
  if Str.endswith s (String Str.LF EmptyString)
  then String.substring 0 (String.length s - 1) s
  else s.

Definition negative_number (s : string) : bool :=
  match s with
  | String "-" r =>
      negative_number_body r || negative_number_body (without_final_LF r)
  | _ => false
  end.

(** [_get_option_tuples(option_string)]. *)
Definition get_option_tuples (arg : string)
  : list (action * string * option string) :=
  match arg with
  | String c0 (String c1 rest) =>
      if Ascii.eqb c1 dash then
        let option_prefix := Str.before "=" arg in
        let explicit_arg := Str.after "=" arg in
        flat_map (fun o =>
                    if Str.startswith o option_prefix
                    then match option_string_actions o with
                         | Some a => [(a, o, explicit_arg)]
                         | None => []
                         end
                    else [])
                 option_strings
      else
        let short_option_prefix := String c0 (String c1 EmptyString) in
        flat_map (fun o =>
                    match option_string_actions o with
                    | Some a =>
                        if (o =? short_option_prefix)%string
                        then [(a, o, Some rest)]
                        else if Str.startswith o arg then [(a, o, None)]
                        else []
                    | None => []
                    end)
                 option_strings
  | _ => []
  end.

(** [_parse_optional(arg_string)]. *)
Definition parse_optional (arg : string) : kind :=
  match arg with
  | EmptyString => A
  | String c0 rest =>
      if negb (Ascii.eqb c0 dash) then A
      else match option_string_actions arg with
           | Some a => O (Some a) arg None
           | None =>
               if (rest =? "")%string then A
               else
                 match (if Str.contains arg "="
                        then option_string_actions (Str.before "=" arg)
                        else None) with
                 | Some a => O (Some a) (Str.before "=" arg) (Str.after "=" arg)
                 | None =>
                     match get_option_tuples arg with
                     | [(a, o, e)] => O (Some a) o e
                     | _ :: _ :: _ => ambiguous
                     | [] =>
                         if negative_number arg then A
                         else if Str.contains arg " " then A
                         else O None arg None
                     end
                 end
           end
  end.

(** The loop of [consume_optional] for an option with an explicit
    argument: further single-dash options may follow a flag that takes no
    argument ([-hp80]).  The result lists the actions to take, each with
    its option string and its argument, the last argument [None] when it
    is still to be read from the next string. *)
Fixpoint explicit_loop (act : action) (option_string explicit_arg : string)
  : error + list (action * string * option string) :=
  match act with
  | help =>
      match option_string, explicit_arg with
      | String _ (String c1 _), String e0 erest =>
          if negb (Ascii.eqb c1 dash) then
            let next := String dash (String e0 EmptyString) in
            match option_string_actions next with
            | Some a =>
                match erest with
                | EmptyString =>
                    inr [(help, option_string, None); (a, next, None)]
                | _ =>
                    match explicit_loop a next erest with
                    | inr l => inr ((help, option_string, None) :: l)
                    | inl e => inl e
                    end
                end
            | None => inl (ignored_explicit_argument explicit_arg)
            end
          else inl (ignored_explicit_argument explicit_arg)
      | _, _ => inl (ignored_explicit_argument explicit_arg)
      end
  | _ => inr [(act, option_string, Some explicit_arg)]
  end.

(** [take_action]: [help] prints and exits; the store actions set the
    attribute to what [_get_values] makes of the argument: the empty list
    for [--], which it strips, and else the argument converted with the
    option's [type]. *)
Definition take_action (ns : Attributes) (act : action) (arg : string)
  : progress :=
  match act with
  | help => exit_help
  | store_port =>
      if (arg =? "--")%string
      then go_on (mkAttributes empty_list (bind_attr ns))
      else match Py.int arg with
           | Some v => go_on (mkAttributes (value v) (bind_attr ns))
           | None => exit_error (invalid_int_value arg)
           end
  | store_bind =>
      go_on (mkAttributes (port_attr ns)
               (if (arg =? "--")%string then empty_list else value arg))
  end.

(** The option string of the last action when it needs an argument that
    the option string does not carry. *)
Definition needs_next (l : list (action * string * option string))
  : option string :=
  match last l (help, "", None) with
  | (help, _, _) => None
  | (_, o, None) => Some o
  | (_, _, Some _) => None
  end.

(** The actions of one option string, in order; [next] is the string after
    it when that one is a positional argument.  The boolean tells whether
    [next] was consumed. *)
Fixpoint take_actions (ns : Attributes)
    (l : list (action * string * option string)) (next : option string)
  : progress * bool :=
  match l with
  | [] => (go_on ns, false)
  | (act, _, Some arg) :: r =>
      match take_action ns act arg with
      | go_on ns' => take_actions ns' r next
      | o => (o, false)
      end
  | (help, _, None) :: r => (exit_help, false)
  | (act, o, None) :: r =>
      match next with
      | Some arg =>
          match take_action ns act arg with
          | go_on ns' => (go_on ns', true)
          | o => (o, false)
          end
      | None => (exit_error (expected_one_argument o), false)
      end
  end.

(** The main loop: positional strings, the separator and unknown options
    are [extras].  An option that needs an argument and finds none, or the
    separator, where it looks for it fails before any action of its string
    is taken. *)
Fixpoint parse_loop (ns : Attributes) (extras : list string)
    (l : list (string * kind)) : progress :=
  match l with
  | [] =>
      match extras with
      | [] => go_on ns
      | _ => exit_error (unrecognized_arguments extras)
      end
  | (s, A) :: r => parse_loop ns (extras ++ [s])%list r
  | (s, separator) :: r => parse_loop ns (extras ++ [s])%list r
  | (s, ambiguous) :: r => exit_error (ambiguous_option s)
  | (s, O None _ _) :: r => parse_loop ns (extras ++ [s])%list r
  | (s, O (Some act) option_string explicit_arg) :: r =>
      match (match explicit_arg with
             | Some e => explicit_loop act option_string e
             | None => inr [(act, option_string, None)]
             end) with
      | inl e => exit_error e
      | inr tuples =>
          match r with
          | (s', A) :: r' =>
              match take_actions ns tuples (Some s') with
              | (go_on ns', true) => parse_loop ns' extras r'
              | (go_on ns', false) => parse_loop ns' (extras ++ [s'])%list r'
              | (o, _) => o
              end
          | _ =>
              match needs_next tuples with
              | Some o => exit_error (expected_one_argument o)
              | None =>
                  match take_actions ns tuples None with
                  | (go_on ns', _) => parse_loop ns' extras r
                  | (o, _) => o
                  end
              end
          end
      end
  end.

(** The defaults of the two options. *)
Definition defaults : Namespace := mkNamespace 8080 "127.0.0.1".

(** The pattern of the argument strings: each string with its kind.  The
    strings after the first [--] are arguments whatever they look like. *)
Fixpoint classify (argv : list string) : list (string * kind) :=
  match argv with
  | [] => []
  | s :: r =>
      if (s =? "--")%string
      then (s, separator) :: map (fun a => (a, A)) r
      else (s, parse_optional s) :: classify r
  end.

(** The namespace [parse_args] returns. *)
Definition namespace (ns : Attributes) : outcome :=
  match port_attr ns, bind_attr ns with
  | value p, value b => parsed (mkNamespace p b)
  | value p, empty_list => parsed_list (bind_list p)
  | empty_list, b => parsed_list (port_list b)
  end.

(** [parser.parse_args()] on [sys.argv[1:]].  The result is never
    [None]. *)
Definition parse_args (argv : list string) : option outcome :=
  let kinds := classify argv in
  match find (fun sk => match snd sk with ambiguous => true | _ => false end)
             kinds with
  | Some (s, _) => Some (error_exit (ambiguous_option s))
  | None =>
      Some match parse_loop (mkAttributes (value (port defaults))
                                          (value (bind defaults))) [] kinds with
           | go_on ns => namespace ns
           | exit_help => help_exit
           | exit_error e => error_exit e
           end
  end.

End argparse.

(** ** The process and its environment

    What the program does outside the handler is a trace of effects: lines
    on the standard streams, operations on the listening socket and, for
    each accepted connection, the handler object as [handle] left it.  The
    operating system is a record [OS]; [socket_bind] is [socket.bind] as
    CPython and Linux define it. *)

Inductive stream_text : Type :=
| usage_error (e : argparse.error)
| help_text
| serving_at (bind : string) (port : Z)
| traceback (e : exn)
| handler_traceback (e : exn).

Inductive effect : Type :=
| stdout (text : stream_text)
| stderr (text : stream_text)
| socket_create
| socket_bind_call (host : string) (port : Z)
| socket_bind_call_list (args : argparse.ListNamespace)
| socket_listen
| socket_close
| accepted (n : nat)
| handler_start (n : nat)
| handled (n : nat) (self : handler)
| handler_end (n : nat).

(** How the process ends: an exit status, death by a signal, or still
    blocked in [select] when the recorded input is used up. *)
Inductive status : Type :=
| exited (code : Z)
| killed (signal : Z)
| serving.

Definition SIGINT : Z := 2.

(** What [socket.bind] makes of the host string: an address of this host
    (the empty string and [0.0.0.0] stand for all of them), an address that
    is not of this host, a name that [getaddrinfo] does not resolve (with
    the error number and the message of its [socket.gaierror]), or a string
    that is no host name at all (the [idna] codec cannot encode it, or it
    holds a null character), with the message of the [TypeError]. *)
Inductive host_lookup : Type :=
| local
| not_local
| no_address (errno : Z) (strerror : string)
| not_encodable (message : string).

Record OS : Type := mkOS {
  (** the address the host string names *)
  lookup : string -> host_lookup;
  (** another socket is bound to the address *)
  in_use : string -> Z -> bool;
  (** the process may bind ports below 1024 *)
  privileged : bool;
  (** the port the system assigns to port 0 *)
  ephemeral_port : Z
}.

(** The host string names a local address. *)
Definition resolves (os : OS) (host : string) : bool :=
  match lookup os host with
  | local => true
  | _ => false
  end.

(** [socket.bind((host, port))]: the port the socket is bound to, or the
    exception raised.  The arguments are converted first, the host then the
    port (a C [int]); the host is resolved; the port is checked; then the
    system binds, and refuses an address that is not local ([EADDRNOTAVAIL]),
    then a privileged port ([EACCES]), then an address in use
    ([EADDRINUSE]). *)
Definition socket_bind (os : OS) (host : string) (port : Z) : result Z :=
  match lookup os host with
  | not_encodable message => Raise (TypeError message)
  | found =>
      if (port <? - 2147483648) || (2147483647 <? port) then
        Raise (OverflowError "bind(): port must be 0-65535.")
      else
        match found with
        | no_address errno strerror => Raise (gaierror errno strerror)
        | _ =>
            if (port <? 0) || (65535 <? port) then
              Raise (OverflowError "bind(): port must be 0-65535.")
            else
              match found with
              | not_local =>
                  Raise (OSError 99 "Cannot assign requested address")
              | _ =>
                  if port =? 0 then Ok (ephemeral_port os)
                  else if (port <? 1024) && negb (privileged os) then
                    Raise (OSError 13 "Permission denied")
                  else if in_use os host port then
                    Raise (OSError 98 "Address already in use")
                  else Ok port
              end
        end
  end.

(** [socket.bind((host, port))] when one of the two is the empty list: the
    conversion of the arguments raises [TypeError], for the host before the
    port. *)
Definition socket_bind_list (os : OS) (args : argparse.ListNamespace) : exn :=
  match args with
  | argparse.port_list (argparse.value host) =>
      match lookup os host with
      | not_encodable message => TypeError message
      | _ => TypeError "'list' object cannot be interpreted as an integer"
      end
  | _ => TypeError "str, bytes or bytearray expected, not list"
  end.

(** What happens while the server waits in [select]: a connection arrives,
    with the requests the client sends on it; the operator interrupts the
    process; or the working directory is removed from under the process.
    Apart from that removal the environment of a run is the one it started
    in: the working directory keeps its name and the files their content. *)
Inductive event : Type :=
| connection (rfile : list request)
| interrupt
| directory_removed.

(** [except Exception]: the exceptions that derive from [Exception]. *)
Definition is_Exception (e : exn) : bool :=
  match e with
  | KeyboardInterrupt => false
  | SystemExit _ => false
  | _ => true
  end.

Module TCPServer.

Section Server.

Variable env : Env.
Variable RequestHandlerClass : HandlerClass.

(** [TCPServer.__init__]: create the socket, then [server_bind] and
    [server_activate]; if either raises, [server_close] and re-raise. *)
Definition init (os : OS) (server_address : string * Z)
  : list effect * option exn :=
  let '(host, port) := server_address in
  match socket_bind os host port with
  | Ok _ => ([socket_create; socket_bind_call host port; socket_listen], None)
  | Raise e => ([socket_create; socket_bind_call host port; socket_close], Some e)
  end.

(** [finish_request]: instantiate the handler class, which runs [handle]
    on the connection. *)
Definition finish_request (rfile : list request) : result unit * handler :=
  SimpleHTTPRequestHandler.handle env RequestHandlerClass rfile
    (SimpleHTTPRequestHandler.init env).

(** [os.getcwd()] in a working directory that has been removed. *)
Definition FileNotFoundError : exn := OSError 2 "No such file or directory".

(** [_handle_request_noblock] for connection number [n]: [process_request]
    runs the handler to its end in the serving thread; an [Exception] is
    reported by [handle_error]; the connection is shut down either way.
    The handler class is instantiated with [directory=None], so that its
    [__init__] asks for the working directory: when that is there no more
    ([cwd] is [false]), [os.getcwd()] raises before the connection is set
    up, and nothing is read from it or written to it. *)
Definition handle_request_noblock (cwd : bool) (n : nat) (rfile : list request)
  : list effect * option exn :=
  if cwd then
    let '(r, h) := finish_request rfile in
    match r with
    | Ok _ => ([accepted n; handler_start n; handled n h; handler_end n], None)
    | Raise e =>
        if is_Exception e
        then ([accepted n; handler_start n; handled n h;
               stderr (handler_traceback e); handler_end n], None)
        else ([accepted n; handler_start n; handled n h; handler_end n], Some e)
    end
  else
    ([accepted n; handler_start n;
      stderr (handler_traceback FileNotFoundError); handler_end n], None).

(** [serve_forever()]: one event at a time; [cwd] tells whether the working
    directory is still there.  The result is the exception that ends the
    loop, [None] while it waits for more. *)
Fixpoint serve_forever (cwd : bool) (n : nat) (events : list event)
  : list effect * option exn :=
  match events with
  | [] => ([], None)
  | interrupt :: _ => ([], Some KeyboardInterrupt)
  | directory_removed :: rest => serve_forever false n rest
  | connection rfile :: rest =>
      match handle_request_noblock cwd n rfile with
      | (t, Some e) => (t, Some e)
      | (t, None) =>
          let '(t', r) := serve_forever cwd (S n) rest in
          ((t ++ t')%list, r)
      end
  end.

End Server.

End TCPServer.

(** The interpreter's end for an exception nothing caught: [SystemExit]
    gives its code, [KeyboardInterrupt] makes the process kill itself with
    [SIGINT], any other prints the traceback and exits with 1. *)
Definition uncaught (e : exn) : list effect * status :=
  match e with
  | SystemExit code => ([], exited code)
  | KeyboardInterrupt => ([stderr (traceback e)], killed SIGINT)
  | _ => ([stderr (traceback e)], exited 1)
  end.

(** ** coep_server.py: the main block *)

Section Main.

Variable env : Env.
Variable os : OS.

(** The [with socketserver.TCPServer(...) as httpd:] block. *)
Definition serve (args : argparse.Namespace) (events : list event)
  : list effect * status :=
  match TCPServer.init os (argparse.bind args, argparse.port args) with
  | (t, Some e) =>
      let '(t', s) := uncaught e in ((t ++ t')%list, s)
  | (t, None) =>
      let t1 := [stdout (serving_at (argparse.bind args) (argparse.port args))] in
      match TCPServer.serve_forever env COEPHandler.class true 0 events with
      | (t2, None) => ((t ++ t1 ++ t2)%list, serving)
      | (t2, Some e) =>
          let '(t', s) := uncaught e in
          ((t ++ t1 ++ t2 ++ [socket_close] ++ t')%list, s)
      end
  end.

(** The same block when [args.bind] or [args.port] is the empty list:
    [TCPServer.__init__] creates the socket, [bind] raises, the socket is
    closed and nothing catches the exception. *)
Definition serve_list (args : argparse.ListNamespace) : list effect * status :=
  let '(t', s) := uncaught (socket_bind_list os args) in
  (([socket_create; socket_bind_call_list args; socket_close] ++ t')%list, s).

(** [if __name__ == '__main__':] on the arguments [argv] and the events
    that follow.  The result is never [None]. *)
Definition main (argv : list string) (events : list event)
  : option (list effect * status) :=
  match argparse.parse_args argv with
  | None => None
  | Some (argparse.error_exit e) => Some ([stderr (usage_error e)], exited 2)
  | Some argparse.help_exit => Some ([stdout help_text], exited 0)
  | Some (argparse.parsed args) => Some (serve args events)
  | Some (argparse.parsed_list args) => Some (serve_list args)
  end.

End Main.

(** ** What a response is on the wire *)

(** The bytes sent: the data of the writes, in order. *)
Definition wire (w : list write) : string := Str.join (map write_data w).

(** The end of a header block that carries the two isolation headers: both
    lines, in this order, then the blank line. *)
Definition isolation_trailer : string := COOP_line ++ COEP_line ++ Str.CRLF.

(** A write is in order when it is a message body or a header block that
    ends with the isolation headers. *)
Definition carries_isolation_headers (w : write) : bool :=
  match w with
  | header_block d => Str.endswith d isolation_trailer
  | message_body _ => true
  end.

Definition is_header_block (w : write) : bool :=
  match w with
  | header_block _ => true
  | message_body _ => false
  end.

(** The status line [send_response_only] puts in the buffer. *)
Definition status_line (code : HTTPStatus) (message : string) : string :=
  BaseHTTPRequestHandler.protocol_version ++ " "
  ++ Str.of_Z (status_value code) ++ " " ++ message ++ Str.CRLF.

(** A header line as [send_header] puts it in the buffer. *)
Definition header_line (keyword value : string) : string :=
  keyword ++ ": " ++ value ++ Str.CRLF.

(** ** A sample environment

    A served directory [/srv] that holds [sample.parquet] and a file
    [etc/passwd] of its own, next to the system's [/etc/passwd] outside
    it.  The library functions are given at the values the examples need:
    [parsedate_to_datetime] at the one date used, [unquote] on strings
    without escapes. *)

Module Sample.

Definition fs (p : string) : option node :=
  if (p =? "/srv")%string then Some (Dir (Some ["etc"; "sample.parquet"]))
  else if (p =? "/srv/etc")%string then Some (Dir (Some ["passwd"]))
  else if (p =? "/srv/etc/passwd")%string
  then Some (File (Some "inside the root") 1700000000)
  else if (p =? "/srv/sample.parquet")%string
  then Some (File (Some "PAR1 sample PAR1") 1700000000)
  else if (p =? "/etc/passwd")%string
  then Some (File (Some "root:x:0:0:root:/root:/bin/sh") 1600000000)
  else None.

Definition env : Env :=
  mkEnv fs "/srv" "SimpleHTTP/0.6 Python/3.11.2"
        (fun _ => "Thu, 01 Jan 2026 00:00:00 GMT")
        (fun s => "'" ++ s ++ "'")
        (fun s => s)
        (fun _ => None)
        (fun s => if (s =? "Thu, 01 Jan 2026 00:00:00 GMT")%string
                  then Some (1767225600, Some 0) else None)
        (fun code message explain => "<p>" ++ message ++ "</p>")
        (fun path entries => Some "<ul></ul>")
        "utf-8"
        (fun url => Str.before "#" (Str.before "?" url))
        (fun url => url ++ "/")
        (fun path => false).

(** A host on which [127.0.0.1:8080] is free. *)
Definition os : OS := mkOS (fun _ => local) (fun _ _ => false) false 40000.

(** The same host while another process holds [127.0.0.1:8080]. *)
Definition os_port_taken : OS :=
  mkOS (fun _ => local)
       (fun host port => (host =? "127.0.0.1")%string && (port =? 8080))
       false 40000.

Definition request_line (line : string) (fields : list (string * string))
  : request :=
  mkRequest (line ++ Str.CRLF) (Headers fields).

(** The writes of the response to one request on a fresh connection. *)
Definition response (req : request) : list write :=
  wfile (snd (SimpleHTTPRequestHandler.handle env COEPHandler.class [req]
                (SimpleHTTPRequestHandler.init env))).

End Sample.

(** ** What the handler may do to its object

    [extends h h']: the handler object [h'] serves the directory of [h],
    and its writes are those of [h] followed by writes that are in order.
    A method is [sound] when every run of it only extends the object it
    starts from, and raises, if it does, an exception that derives from
    [Exception]. *)

Definition extends (h h' : handler) : Prop :=
  directory h' = directory h /\
  exists new : list write,
    wfile h' = (wfile h ++ new)%list /\
    forallb carries_isolation_headers new = true.

Definition sound {A : Type} (m : M A) : Prop :=
  forall h : handler,
    exists (r : result A) (h' : handler),
      m h = (r, h') /\ extends h h'
      /\ match r with
         | Ok _ => True
         | Raise e => is_Exception e = true
         end.

(** ** Reading a trace *)

(** Two handlers are at work at once somewhere in the trace: a connection
    is accepted or a handler starts while an earlier handler has started
    and not ended.  [active] tells whether a handler is at work. *)
Fixpoint concurrent_from (active : bool) (t : list effect) : bool :=
  match t with
  | [] => false
  | accepted _ :: r => active || concurrent_from active r
  | handler_start _ :: r => active || concurrent_from true r
  | handler_end _ :: r => concurrent_from false r
  | _ :: r => concurrent_from active r
  end.

Definition concurrent (t : list effect) : bool := concurrent_from false t.

(** Whether a handler is at work at the end of the trace. *)
Fixpoint active_after (active : bool) (t : list effect) : bool :=
  match t with
  | [] => active
  | handler_start _ :: r => active_after true r
  | handler_end _ :: r => active_after false r
  | _ :: r => active_after active r
  end.

(** An operation on the listening socket. *)
Definition is_socket_operation (e : effect) : bool :=
  match e with
  | socket_create | socket_bind_call _ _ | socket_bind_call_list _
  | socket_listen | socket_close => true
  | _ => false
  end.

(** The process still holds its socket at the end of the trace. *)
Fixpoint socket_open_from (open : bool) (t : list effect) : bool :=
  match t with
  | [] => open
  | socket_create :: r => socket_open_from true r
  | socket_close :: r => socket_open_from false r
  | _ :: r => socket_open_from open r
  end.

Definition socket_open (t : list effect) : bool := socket_open_from false t.

(** The handler objects of the trace, in order. *)
Fixpoint handlers (t : list effect) : list handler :=
  match t with
  | [] => []
  | handled _ h :: r => h :: handlers r
  | _ :: r => handlers r
  end.

(** A handler object as the program's handler class leaves it: it serves
    the working directory, and every header block it wrote ends with the
    isolation headers. *)
Definition well_served (env : Env) (h : handler) : Prop :=
  directory h = getcwd env /\
  forallb carries_isolation_headers (wfile h) = true.

(** ** Reading a response *)

(** The handler object with [lines] added to its buffer of headers. *)
Definition buffered (lines : list string) (h : handler) : handler :=
  set_headers_buffer
    (Some (BaseHTTPRequestHandler.buffer_or_new h ++ lines)%list) h.

(** The handler object after [COEPHandler.end_headers] has written the
    buffer, [lines] and the isolation headers as one header block. *)
Definition flushed (lines : list string) (h : handler) : handler :=
  mkHandler (directory h) (request_version h) (command h) (path h)
    (headers h) (close_connection h) (Some [])
    (wfile h ++
     [header_block
        (Str.join (BaseHTTPRequestHandler.buffer_or_new h ++ lines
                   ++ [COOP_line; COEP_line; Str.CRLF])%list)])%list.

(** The lines [send_response] puts in the buffer. *)
Definition response_lines (env : Env) (code : HTTPStatus) (message : string)
  : list string :=
  [status_line code message;
   header_line "Server" (version_string env);
   header_line "Date" (date_time_string env None)].

(** The request line without its line end, as [parse_request] reads it. *)
Definition requestline (req : request) : string :=
  Str.rstrip (fun c => Ascii.eqb c Str.CR || Ascii.eqb c Str.LF)
             (raw_requestline req).

(** The path [parse_request] stores for the path word [p]. *)
Definition request_path (p : string) : string :=
  if Str.startswith p "//" then "/" ++ Str.lstrip (Ascii.eqb "/") p else p.

(** A name of one directory entry: not empty, no slash, neither [.] nor
    [..]. *)
Definition plain_name (w : string) : bool :=
  negb (w =? "")%string && negb (Str.contains w "/")
  && negb (w =? ".")%string && negb (w =? "..")%string.

(** The connections that arrive before the first interrupt, and before the
    working directory is removed. *)
Fixpoint served (events : list event) : list (list request) :=
  match events with
  | connection rfile :: rest => rfile :: served rest
  | _ => []
  end.

(** The trace of the connections among the events up to the first
    interrupt, handled in turn from number [n] on. *)
Fixpoint loop_trace (env : Env) (cwd : bool) (n : nat) (events : list event)
  : list effect :=
  match events with
  | [] => []
  | interrupt :: _ => []
  | directory_removed :: rest => loop_trace env false n rest
  | connection rfile :: rest =>
      fst (TCPServer.handle_request_noblock env COEPHandler.class cwd n rfile)
      ++ loop_trace env cwd (S n) rest
  end.

(** A line on the standard output. *)
Definition is_stdout (e : effect) : bool :=
  match e with
  | stdout _ => true
  | _ => false
  end.

(** A method that leaves closed a connection that is to be closed:
    [close_connection] stays true. *)
Definition closing {A : Type} (m : M A) : Prop :=
  forall h : handler,
    close_connection h = true -> close_connection (snd (m h)) = true.

(** The request version the handler has after the first line of a
    connection, by the tests of [handle_one_request] and [parse_request]:
    it is still the empty string of a new handler when the line is longer
    than 65536 bytes or when there is none (the end of the input); it is
    the last word of a line of three words or more when that word is
    [HTTP/major.minor] with [major] below 2; it is [HTTP/0.9], the
    default, in every other case. *)
Definition version_read (req : request) : string :=
  if 65536 <? Str.len (raw_requestline req) then ""
  else if (raw_requestline req =? "")%string then ""
  else
    let words := Str.words (requestline req) in
    if (3 <=? length words)%nat then
      match BaseHTTPRequestHandler.version_number (last words "") with
      | Some (_, number) =>
          if BaseHTTPRequestHandler.pair_ge number (2, 0)
          then BaseHTTPRequestHandler.default_request_version
          else last words ""
      | None => BaseHTTPRequestHandler.default_request_version
      end
    else BaseHTTPRequestHandler.default_request_version.

(** A response with its headers: one header block that ends with the two
    isolation headers and the blank line, and after it message bodies
    only. *)
Definition isolated (w : list write) : Prop :=
  exists (d : string) (bodies : list string),
    w = header_block d :: map message_body bodies
    /\ Str.endswith d isolation_trailer = true.

(** The stages of a handler that works under the request version [v]:
    nothing is written yet; or the answer is: with its headers, unless the
    version is [HTTP/0.9]. *)
Definition quiet (v : string) (h : handler) : Prop :=
  request_version h = v /\ wfile h = [].

Definition replied (v : string) (h : handler) : Prop :=
  request_version h = v /\ (v <> "HTTP/0.9" -> isolated (wfile h)).

(** [triple P m Q E]: from a handler object with [P], the method [m]
    returns a value and an object with [Q], or raises and leaves an object
    with [E]. *)
Definition triple {A : Type} (P : handler -> Prop) (m : M A)
    (Q : A -> handler -> Prop) (E : handler -> Prop) : Prop :=
  forall h : handler,
    P h ->
    match m h with
    | (Ok a, h') => Q a h'
    | (Raise _, h') => E h'
    end.

(** A method that returns and keeps [P]. *)
Definition keeps {A : Type} (P : handler -> Prop) (m : M A) : Prop :=
  triple P m (fun _ => P) (fun _ => False).

(** Nothing has been written on the connection. *)
Definition nothing_sent (h : handler) : Prop := wfile h = [].

(** A method that gives the answer, or raises before anything is
    written. *)
Definition answers {A : Type} (v : string) (m : M A) : Prop :=
  triple (quiet v) m (fun _ => replied v) nothing_sent.

(** What the handler has sent when it is done with the connection
    [rfile], having returned or raised ([r]).  Every header block it wrote
    ends with the isolation headers.  If it raised, it has sent nothing.
    If it returned, it has the request version read from the first line
    and, unless the line is blank or the version is [HTTP/0.9], it has sent
    a response with its headers. *)
Definition isolated_response (rfile : list request) (r : result unit)
    (h : handler) : Prop :=
  forallb carries_isolation_headers (wfile h) = true
  /\ match r with
     | Raise _ => wfile h = []
     | Ok _ =>
         let req := hd SimpleHTTPRequestHandler.end_of_input rfile in
         request_version h = version_read req
         /\ (Str.words (requestline req) <> [] ->
             version_read req <> "HTTP/0.9" ->
             isolated (wfile h))
     end.

(** The environment [env] with another file system. *)
Definition with_fs (env : Env) (fs' : string -> option node) : Env :=
  mkEnv fs' (getcwd env) (version_string env) (date_time_string env)
        (repr env) (unquote env) (mimetypes_guess_type env)
        (parsedate_to_datetime env) (error_message env) (listing_page env)
        (filesystemencoding env) (urlsplit_path env) (url_with_slash env)
        (unencodable env).

(** A path inside the directory [root]: the directory itself or a path
    below it. *)
Definition inside (root path : string) : bool :=
  (path =? root)%string || Str.startswith path (root ++ "/").

(** A served directory with an index file. *)
Module IndexSample.

Definition fs (p : string) : option node :=
  if (p =? "/srv")%string then Some (Dir (Some ["index.html"]))
  else if (p =? "/srv/index.html")%string
  then Some (File (Some "<h1>Mandelbrot</h1>") 1700000000)
  else None.

Definition env : Env :=
  mkEnv fs (getcwd Sample.env) (version_string Sample.env)
        (date_time_string Sample.env) (repr Sample.env) (unquote Sample.env)
        (fun p => if Str.endswith p ".html" then Some "text/html" else None)
        (parsedate_to_datetime Sample.env) (error_message Sample.env)
        (listing_page Sample.env) (filesystemencoding Sample.env)
        (urlsplit_path Sample.env) (url_with_slash Sample.env)
        (unencodable Sample.env).

End IndexSample.

(** The events hold an interrupt from the keyboard. *)
Definition has_interrupt (events : list event) : bool :=
  existsb (fun e => match e with interrupt => true | _ => false end) events.

(** * Properties *)

(** ** Strings and lists *)

Lemma rev_string_app (a b : string) :
  Str.rev_string (a ++ b) = (Str.rev_string b ++ Str.rev_string a)%string.
Proof.
  induction a as [|c a IH]; simpl.
  - induction (Str.rev_string b) as [|c r IHr]; simpl; congruence.
  - rewrite IH. clear IH.
    induction (Str.rev_string b) as [|d r IHr]; simpl; [reflexivity|].
    now rewrite IHr.
Qed.

Lemma prefix_app (p s : string) : String.prefix p (p ++ s) = true.
Proof.
  induction p as [|c p IH]; simpl.
  - now destruct s.
  - destruct (ascii_dec c c) as [_|n]; [exact IH | now elim n].
Qed.

Lemma endswith_app (a b : string) : Str.endswith (a ++ b) b = true.
Proof. unfold Str.endswith. rewrite rev_string_app. apply prefix_app. Qed.

Lemma string_app_assoc (a b c : string) :
  ((a ++ b) ++ c = a ++ (b ++ c))%string.
Proof. induction a as [|x a IH]; simpl; congruence. Qed.

Lemma string_app_nil_r (a : string) : (a ++ "" = a)%string.
Proof. induction a as [|x a IH]; simpl; congruence. Qed.

Lemma join_app (l1 l2 : list string) :
  Str.join (l1 ++ l2) = (Str.join l1 ++ Str.join l2)%string.
Proof.
  unfold Str.join.
  induction l1 as [|a l1 IH]; simpl; [reflexivity|].
  destruct l1 as [|b l1].
  - simpl in *. destruct l2 as [|c l2]; simpl.
    + now rewrite string_app_nil_r.
    + reflexivity.
  - simpl in *. rewrite IH. now rewrite string_app_assoc.
Qed.

Lemma join_isolation (l : list string) :
  Str.join (l ++ [COOP_line; COEP_line; Str.CRLF])
  = (Str.join l ++ isolation_trailer)%string.
Proof. rewrite join_app. reflexivity. Qed.

Lemma join_carries (l : list string) :
  Str.endswith (Str.join (l ++ [COOP_line; COEP_line; Str.CRLF]))
               isolation_trailer = true.
Proof. rewrite join_isolation. apply endswith_app. Qed.

(** ** Running the handler monad *)

Lemma bind_ok {A B} (m : M A) (k : A -> M B) (h h' : handler) (a : A) :
  m h = (Ok a, h') -> bind m k h = k a h'.
Proof. unfold bind. now intros ->. Qed.

Lemma bind_raise {A B} (m : M A) (k : A -> M B) (h h' : handler) (e : exn) :
  m h = (Raise e, h') -> bind m k h = (Raise e, h').
Proof. unfold bind. now intros ->. Qed.

Lemma bind_get {B} (k : handler -> M B) (h : handler) :
  bind get k h = k h h.
Proof. reflexivity. Qed.

Lemma bind_modify {B} (f : handler -> handler) (k : unit -> M B) (h : handler) :
  bind (modify f) k h = k tt (f h).
Proof. reflexivity. Qed.

Lemma bind_ret {A B} (a : A) (k : A -> M B) (h : handler) :
  bind (ret a) k h = k a h.
Proof. reflexivity. Qed.

Lemma version_test (h : handler) :
  request_version h <> "HTTP/0.9" ->
  (request_version h =? "HTTP/0.9")%string = false.
Proof. intro H. now apply String.eqb_neq. Qed.

(** [send_header] for a header other than [Connection]: one more line in
    the buffer, unless the request version is [HTTP/0.9]. *)
Lemma send_header_buffers (keyword value : string) (h : handler) :
  (Str.lower keyword =? "connection")%string = false ->
  BaseHTTPRequestHandler.send_header keyword value h =
  (Ok tt,
   if (request_version h =? "HTTP/0.9")%string then h
   else set_headers_buffer
          (Some (BaseHTTPRequestHandler.buffer_or_new h
                 ++ [header_line keyword value])%list) h).
Proof.
  intro Hk. unfold BaseHTTPRequestHandler.send_header.
  rewrite bind_get.
  destruct (request_version h =? "HTTP/0.9")%string; cbv [negb].
  - rewrite bind_ret, Hk. reflexivity.
  - rewrite bind_modify, Hk. reflexivity.
Qed.

(** [send_header('Connection', 'close')] also closes the connection. *)
Lemma send_header_connection_close (h : handler) :
  BaseHTTPRequestHandler.send_header "Connection" "close" h =
  (Ok tt,
   set_close_connection true
     (if (request_version h =? "HTTP/0.9")%string then h
      else set_headers_buffer
             (Some (BaseHTTPRequestHandler.buffer_or_new h
                    ++ [header_line "Connection" "close"])%list) h)).
Proof.
  unfold BaseHTTPRequestHandler.send_header.
  rewrite bind_get.
  destruct (request_version h =? "HTTP/0.9")%string; cbv [negb].
  - rewrite bind_ret. reflexivity.
  - rewrite bind_modify. reflexivity.
Qed.

(** ** The header block [COEPHandler.end_headers] writes *)

(** While the request version is not [HTTP/0.9], [end_headers] writes one
    header block: the lines buffered so far, then the two isolation
    headers, then the blank line; it leaves the buffer empty and nothing
    else changed. *)
Lemma end_headers_writes (h : handler) :
  request_version h <> "HTTP/0.9" ->
  COEPHandler.end_headers h =
  (Ok tt,
   mkHandler (directory h) (request_version h) (command h) (path h)
     (headers h) (close_connection h) (Some [])
     (wfile h ++
      [header_block
         (Str.join (BaseHTTPRequestHandler.buffer_or_new h
                    ++ [COOP_line; COEP_line; Str.CRLF])%list)])%list).
Proof.
  intro Hv. apply version_test in Hv.
  unfold COEPHandler.end_headers.
  erewrite bind_ok by (apply send_header_buffers; reflexivity).
  rewrite Hv.
  erewrite bind_ok by (apply send_header_buffers; reflexivity).
  cbn [request_version set_headers_buffer]. rewrite Hv.
  unfold BaseHTTPRequestHandler.end_headers,
    BaseHTTPRequestHandler.flush_headers.
  rewrite bind_get. cbn [request_version set_headers_buffer]. rewrite Hv.
  cbv [negb]. cbn [_headers_buffer set_headers_buffer].
  rewrite bind_modify, bind_get.
  cbn [_headers_buffer set_headers_buffer]. rewrite bind_modify.
  unfold modify, BaseHTTPRequestHandler.buffer_or_new, wfile_write,
    set_headers_buffer.
  cbn [directory request_version command path headers close_connection
       _headers_buffer wfile].
  rewrite <- !app_assoc. reflexivity.
Qed.

(** Under [HTTP/0.9] it does nothing at all. *)
Lemma end_headers_silent (h : handler) :
  request_version h = "HTTP/0.9" ->
  COEPHandler.end_headers h = (Ok tt, h).
Proof.
  intro Hv. unfold COEPHandler.end_headers.
  erewrite bind_ok by (apply send_header_buffers; reflexivity).
  rewrite Hv. cbn [String.eqb Ascii.eqb Bool.eqb].
  erewrite bind_ok by (apply send_header_buffers; reflexivity).
  rewrite Hv. cbn [String.eqb Ascii.eqb Bool.eqb].
  unfold BaseHTTPRequestHandler.end_headers. rewrite bind_get, Hv.
  reflexivity.
Qed.

(** ** Every method only extends the handler object *)

Lemma extends_refl (h : handler) : extends h h.
Proof. split; [reflexivity|]. exists []. now rewrite app_nil_r. Qed.

Lemma extends_trans (h1 h2 h3 : handler) :
  extends h1 h2 -> extends h2 h3 -> extends h1 h3.
Proof.
  intros [D1 [n1 [W1 F1]]] [D2 [n2 [W2 F2]]]. split; [congruence|].
  exists (n1 ++ n2)%list. split.
  - rewrite W2, W1. now rewrite app_assoc.
  - rewrite forallb_app, F1, F2. reflexivity.
Qed.

Lemma sound_ret {A} (a : A) : sound (ret a).
Proof.
  intro h. exists (Ok a), h. repeat split; [apply extends_refl..].
Qed.

Lemma sound_get : sound get.
Proof.
  intro h. exists (Ok h), h. repeat split; [apply extends_refl..].
Qed.

Lemma sound_raise {A} (e : exn) :
  is_Exception e = true -> sound (@raise A e).
Proof.
  intros He h. exists (Raise e), h. repeat split; [apply extends_refl..|exact He].
Qed.

Lemma sound_bind {A B} (m : M A) (k : A -> M B) :
  sound m -> (forall a, sound (k a)) -> sound (bind m k).
Proof.
  intros Hm Hk h. destruct (Hm h) as [[a|e] [h1 [E1 [X1 R1]]]].
  - destruct (Hk a h1) as [r [h2 [E2 [X2 R2]]]].
    exists r, h2. split; [now rewrite (bind_ok _ _ _ _ _ E1)|].
    split; [eapply extends_trans; eassumption|exact R2].
  - exists (Raise e), h1. split; [now rewrite (bind_raise _ _ _ _ _ E1)|].
    split; assumption.
Qed.

(** An assignment to an attribute other than [directory] and [wfile]. *)
Lemma sound_modify (f : handler -> handler) :
  (forall h, directory (f h) = directory h) ->
  (forall h, wfile (f h) = wfile h) ->
  sound (modify f).
Proof.
  intros Hd Hw h. exists (Ok tt), (f h). split; [reflexivity|].
  split; [|exact I]. split; [apply Hd|]. exists []. now rewrite app_nil_r, Hw.
Qed.

Lemma sound_write_body (b : string) :
  sound (modify (wfile_write (message_body b))).
Proof.
  intro h. exists (Ok tt), (wfile_write (message_body b) h).
  split; [reflexivity|]. split; [|exact I].
  split; [reflexivity|]. now exists [message_body b].
Qed.

Ltac sound_step :=
  match goal with
  | |- sound (bind _ _) => apply sound_bind; [|intro]
  | |- sound (ret _) => apply sound_ret
  | |- sound (raise _) => apply sound_raise; reflexivity
  | |- sound get => apply sound_get
  | |- sound (modify (wfile_write (message_body _))) => apply sound_write_body
  | |- sound (modify _) => apply sound_modify; reflexivity
  | H : sound ?m |- sound ?m => exact H
  | |- sound (if ?c then _ else _) => destruct c
  | |- sound (match ?x with _ => _ end) => destruct x
  | |- sound (let '(_, _) := ?x in _) => destruct x
  end.

Ltac sound_auto := repeat sound_step.

Lemma sound_send_response_only (code : HTTPStatus) (message : option string) :
  sound (BaseHTTPRequestHandler.send_response_only code message).
Proof. unfold BaseHTTPRequestHandler.send_response_only. sound_auto. Qed.

Lemma sound_send_header (keyword value : string) :
  sound (BaseHTTPRequestHandler.send_header keyword value).
Proof. unfold BaseHTTPRequestHandler.send_header. sound_auto. Qed.

(** The method of the program: whatever it writes is a header block that
    ends with the isolation headers. *)
Lemma sound_COEPHandler_end_headers : sound COEPHandler.end_headers.
Proof.
  intro h. destruct (string_dec (request_version h) "HTTP/0.9") as [Hv|Hv].
  - exists (Ok tt), h. split; [apply (end_headers_silent h Hv)|].
    split; [apply extends_refl|exact I].
  - eexists (Ok tt), _. split; [apply (end_headers_writes h Hv)|].
    split; [|exact I].
    split; [reflexivity|]. eexists. split; [reflexivity|].
    cbn. now rewrite join_carries.
Qed.

Section SoundMethods.

Variable env : Env.
Variable cls : HandlerClass.
Hypothesis cls_sound : sound (self_end_headers cls).

Lemma sound_send_response (code : HTTPStatus) (message : option string) :
  sound (BaseHTTPRequestHandler.send_response env code message).
Proof.
  unfold BaseHTTPRequestHandler.send_response.
  pose proof sound_send_response_only. pose proof sound_send_header.
  sound_auto; auto.
Qed.

Lemma sound_send_error (code : HTTPStatus) (message explain : option string) :
  sound (BaseHTTPRequestHandler.send_error env cls code message explain).
Proof.
  unfold BaseHTTPRequestHandler.send_error.
  pose proof sound_send_response. pose proof sound_send_header.
  sound_auto; auto.
Qed.

Lemma sound_handle_expect_100 :
  sound (BaseHTTPRequestHandler.handle_expect_100 cls).
Proof.
  unfold BaseHTTPRequestHandler.handle_expect_100.
  pose proof sound_send_response_only. sound_auto; auto.
Qed.

Lemma sound_parse_request_headers (req : request) :
  sound (BaseHTTPRequestHandler.parse_request_headers env cls req).
Proof.
  unfold BaseHTTPRequestHandler.parse_request_headers.
  pose proof sound_send_error. pose proof sound_handle_expect_100.
  sound_auto; auto.
Qed.

Lemma sound_parse_request_words (req : request) (requestline : string)
    (words : list string) :
  sound (BaseHTTPRequestHandler.parse_request_words env cls req requestline words).
Proof.
  unfold BaseHTTPRequestHandler.parse_request_words.
  pose proof sound_send_error. pose proof sound_parse_request_headers.
  sound_auto; auto.
Qed.

Lemma sound_parse_request (req : request) :
  sound (BaseHTTPRequestHandler.parse_request env cls req).
Proof.
  unfold BaseHTTPRequestHandler.parse_request.
  pose proof sound_send_error. pose proof sound_parse_request_words.
  sound_auto; auto.
Qed.

End SoundMethods.

Section SoundSimple.

Variable env : Env.
Variable cls : HandlerClass.
Hypothesis cls_sound : sound (self_end_headers cls).

Let send_response_sound := sound_send_response env.
Let send_error_sound := sound_send_error env cls cls_sound.

Lemma sound_list_directory (path : string) :
  sound (SimpleHTTPRequestHandler.list_directory env cls path).
Proof.
  unfold SimpleHTTPRequestHandler.list_directory.
  pose proof sound_send_header. sound_auto; auto.
Qed.

Lemma sound_send_head_file (path : string) :
  sound (SimpleHTTPRequestHandler.send_head_file env cls path).
Proof.
  unfold SimpleHTTPRequestHandler.send_head_file.
  pose proof sound_send_header. sound_auto; auto.
Qed.

Lemma sound_send_head : sound (SimpleHTTPRequestHandler.send_head env cls).
Proof.
  unfold SimpleHTTPRequestHandler.send_head.
  pose proof sound_send_header. pose proof sound_send_head_file.
  pose proof sound_list_directory. sound_auto; auto.
Qed.

Lemma sound_copyfile (content : string) :
  sound (SimpleHTTPRequestHandler.copyfile content).
Proof. unfold SimpleHTTPRequestHandler.copyfile. sound_auto. Qed.

Lemma sound_do_method (command : string) (method : M unit) :
  SimpleHTTPRequestHandler.do_method env cls command = Some method ->
  sound method.
Proof.
  unfold SimpleHTTPRequestHandler.do_method.
  pose proof sound_send_head. pose proof sound_copyfile.
  destruct (command =? "GET")%string;
    [|destruct (command =? "HEAD")%string]; intro E; inversion E; subst;
    unfold SimpleHTTPRequestHandler.do_GET, SimpleHTTPRequestHandler.do_HEAD;
    sound_auto; auto.
Qed.

Lemma sound_handle_one_request (req : request) :
  sound (SimpleHTTPRequestHandler.handle_one_request env cls req).
Proof.
  unfold SimpleHTTPRequestHandler.handle_one_request.
  pose proof (sound_parse_request env cls cls_sound).
  destruct (65536 <? Str.len (raw_requestline req)); [sound_auto; auto|].
  destruct (raw_requestline req =? "")%string; [sound_auto; auto|].
  apply sound_bind; [auto|]. intros [|]; cbv [negb]; [|apply sound_ret].
  apply sound_bind; [apply sound_get|]. intro h.
  destruct (SimpleHTTPRequestHandler.do_method env cls _) as [method|] eqn:E.
  - eapply sound_do_method. exact E.
  - auto.
Qed.

Lemma sound_handle_loop (rfile : list request) :
  sound (SimpleHTTPRequestHandler.handle_loop env cls rfile).
Proof.
  pose proof sound_handle_one_request.
  induction rfile as [|req rest IH]; cbn [SimpleHTTPRequestHandler.handle_loop];
    sound_auto; auto.
Qed.

Lemma sound_handle (rfile : list request) :
  sound (SimpleHTTPRequestHandler.handle env cls rfile).
Proof.
  unfold SimpleHTTPRequestHandler.handle.
  pose proof sound_handle_one_request. pose proof sound_handle_loop.
  sound_auto; auto.
Qed.

End SoundSimple.

(** ** The serving loop *)

Lemma finish_request_returns (env : Env) (rfile : list request) :
  exists r h,
    TCPServer.finish_request env COEPHandler.class rfile = (r, h)
    /\ well_served env h
    /\ match r with
       | Ok _ => True
       | Raise e => is_Exception e = true
       end.
Proof.
  destruct (sound_handle env COEPHandler.class sound_COEPHandler_end_headers
              rfile (SimpleHTTPRequestHandler.init env))
    as [r [h [E [[D [new [W F]]] R]]]].
  exists r, h. split; [exact E|]. split; [|exact R]. split; [exact D|].
  rewrite W. exact F.
Qed.

(** One connection: the handler runs to its end, whether it returns or
    raises, and the loop goes on. *)
Lemma handle_request_noblock_trace (env : Env) (cwd : bool) (n : nat)
    (rfile : list request) :
  exists t,
    TCPServer.handle_request_noblock env COEPHandler.class cwd n rfile
    = (t, None)
    /\ concurrent_from false t = false
    /\ active_after false t = false
    /\ existsb is_socket_operation t = false
    /\ Forall (well_served env) (handlers t)
    /\ handlers t
       = (if cwd
          then [snd (TCPServer.finish_request env COEPHandler.class rfile)]
          else [])
    /\ filter is_stdout t = []
    /\ forall o, socket_open_from o t = o.
Proof.
  unfold TCPServer.handle_request_noblock. destruct cwd.
  - destruct (finish_request_returns env rfile) as [r [h [E [W R]]]].
    rewrite E. destruct r as [[]|e]; [|rewrite R];
      eexists; (split; [reflexivity|]); cbn;
      repeat split; auto.
  - eexists. split; [reflexivity|]. cbn. repeat split; auto.
Qed.

Lemma concurrent_from_app (t1 t2 : list effect) (a : bool) :
  concurrent_from a (t1 ++ t2)
  = concurrent_from a t1 || concurrent_from (active_after a t1) t2.
Proof.
  revert a. induction t1 as [|e t1 IH]; intro a; [reflexivity|].
  destruct e; cbn [concurrent_from active_after app]; rewrite ?IH;
    try reflexivity; now rewrite orb_assoc.
Qed.

Lemma active_after_app (t1 t2 : list effect) (a : bool) :
  active_after a (t1 ++ t2) = active_after (active_after a t1) t2.
Proof.
  revert a. induction t1 as [|e t1 IH]; intro a; [reflexivity|].
  destruct e; cbn [active_after app]; now rewrite ?IH.
Qed.

Lemma socket_open_from_app (t1 t2 : list effect) (o : bool) :
  socket_open_from o (t1 ++ t2) = socket_open_from (socket_open_from o t1) t2.
Proof.
  revert o. induction t1 as [|e t1 IH]; intro o; [reflexivity|].
  destruct e; cbn [socket_open_from app]; now rewrite ?IH.
Qed.

Lemma handlers_app (t1 t2 : list effect) :
  handlers (t1 ++ t2) = (handlers t1 ++ handlers t2)%list.
Proof.
  induction t1 as [|e t1 IH]; [reflexivity|].
  destruct e; cbn [handlers app]; now rewrite ?IH.
Qed.

(** The loop handles the connections one after the other, each to its end
    before the next is accepted, touches the listening socket no more, and
    ends only with the interrupt. *)
Lemma serve_forever_trace (env : Env) (events : list event) (cwd : bool)
    (n : nat) :
  exists t r,
    TCPServer.serve_forever env COEPHandler.class cwd n events = (t, r)
    /\ concurrent_from false t = false
    /\ active_after false t = false
    /\ existsb is_socket_operation t = false
    /\ Forall (well_served env) (handlers t)
    /\ (r = if existsb (fun e => match e with interrupt => true | _ => false end)
                       events
            then Some KeyboardInterrupt else None).
Proof.
  revert cwd n. induction events as [|[rfile| |] rest IH]; intros cwd n.
  - exists [], None. repeat split; constructor.
  - destruct (handle_request_noblock_trace env cwd n rfile)
      as [t0 [E [C0 [Ac0 [S0 [F0 _]]]]]].
    destruct (IH cwd (S n)) as [t [r [E' [C [Ac [S [F R]]]]]]].
    exists (t0 ++ t)%list, r.
    cbn [TCPServer.serve_forever]. rewrite E, E'.
    repeat split.
    + rewrite concurrent_from_app, C0, Ac0. exact C.
    + rewrite active_after_app, Ac0. exact Ac.
    + rewrite existsb_app, S0. exact S.
    + rewrite handlers_app. apply Forall_app. now split.
    + exact R.
  - exists [], (Some KeyboardInterrupt). repeat split; constructor.
  - exact (IH false n).
Qed.

(** ** The process *)

Lemma socket_bind_raises (os : OS) (host : string) (port : Z) (e : exn) :
  socket_bind os host port = Raise e ->
  uncaught e = ([stderr (traceback e)], exited 1).
Proof.
  unfold socket_bind.
  destruct (lookup os host);
    repeat match goal with
           | |- context [if ?c then _ else _] => destruct c
           end; intro E; inversion E; reflexivity.
Qed.

(** Startup fails: the socket is closed again and the exception ends the
    process with status 1. *)
Lemma serve_bind_failure (env : Env) (os : OS) (args : argparse.Namespace)
    (events : list event) (e : exn) :
  socket_bind os (argparse.bind args) (argparse.port args) = Raise e ->
  serve env os args events
  = ([socket_create;
      socket_bind_call (argparse.bind args) (argparse.port args);
      socket_close; stderr (traceback e)], exited 1).
Proof.
  intro E. unfold serve, TCPServer.init. rewrite E.
  now rewrite (socket_bind_raises _ _ _ _ E).
Qed.

(** Startup succeeds: the server announces itself and serves; only the
    interrupt ends it, by closing the socket and killing the process. *)
Lemma serve_listening (env : Env) (os : OS) (args : argparse.Namespace)
    (events : list event) (p : Z) :
  socket_bind os (argparse.bind args) (argparse.port args) = Ok p ->
  exists t,
    serve env os args events
    = ([socket_create;
        socket_bind_call (argparse.bind args) (argparse.port args);
        socket_listen;
        stdout (serving_at (argparse.bind args) (argparse.port args))]
       ++ t
       ++ (if has_interrupt events
           then [socket_close; stderr (traceback KeyboardInterrupt)]
           else []),
       if has_interrupt events then killed SIGINT else serving)%list
    /\ concurrent_from false t = false
    /\ active_after false t = false
    /\ existsb is_socket_operation t = false
    /\ Forall (well_served env) (handlers t).
Proof.
  intro E.
  destruct (serve_forever_trace env events true 0)
    as [t [r [E' [C [Ac [S [F R]]]]]]].
  exists t. split; [|auto].
  unfold serve, TCPServer.init. rewrite E, E', R. unfold has_interrupt.
  destruct (existsb _ events); cbn; [|now rewrite app_nil_r].
  reflexivity.
Qed.

(** An attribute that is the empty list: startup fails in [bind]. *)
Lemma serve_list_run (os : OS) (args : argparse.ListNamespace) :
  serve_list os args
  = ([socket_create; socket_bind_call_list args; socket_close;
      stderr (traceback (socket_bind_list os args))], exited 1).
Proof.
  unfold serve_list.
  assert (U : uncaught (socket_bind_list os args)
              = ([stderr (traceback (socket_bind_list os args))], exited 1)).
  { unfold socket_bind_list.
    destruct args as [[host|]|]; [destruct (lookup os host)|..]; reflexivity. }
  now rewrite U.
Qed.

Lemma main_parsed (env : Env) (os : OS) (argv : list string)
    (events : list event) (t : list effect) (s : status) :
  main env os argv events = Some (t, s) ->
  (exists e, argparse.parse_args argv = Some (argparse.error_exit e)
             /\ t = [stderr (usage_error e)] /\ s = exited 2)
  \/ (argparse.parse_args argv = Some argparse.help_exit
      /\ t = [stdout help_text] /\ s = exited 0)
  \/ (exists args, argparse.parse_args argv = Some (argparse.parsed args)
                   /\ serve env os args events = (t, s))
  \/ (exists args, argparse.parse_args argv = Some (argparse.parsed_list args)
                   /\ t = [socket_create; socket_bind_call_list args;
                           socket_close;
                           stderr (traceback (socket_bind_list os args))]
                   /\ s = exited 1).
Proof.
  unfold main. destruct (argparse.parse_args argv) as [[args| |e|args]|];
    intro E; try discriminate; injection E as E;
    try (injection E as <- <-); eauto 6.
  do 3 right. exists args. split; [reflexivity|].
  rewrite serve_list_run in E. injection E as <- <-. now split.
Qed.

(** The program returns on every command line. *)
Lemma main_total (env : Env) (os : OS) (argv : list string)
    (events : list event) :
  exists t s, main env os argv events = Some (t, s).
Proof.
  unfold main, argparse.parse_args.
  destruct (find _ _) as [[a k]|]; [eauto|].
  destruct (argparse.parse_loop _ _ _) as [ns| |e]; eauto.
  - destruct (argparse.namespace ns); eauto.
    + destruct (serve env os args events); eauto.
    + destruct (serve_list os args); eauto.
Qed.

(** What [serve] leaves in its trace, whichever way startup goes. *)
Lemma serve_trace (env : Env) (os : OS) (args : argparse.Namespace)
    (events : list event) :
  concurrent (fst (serve env os args events)) = false
  /\ Forall (well_served env) (handlers (fst (serve env os args events))).
Proof.
  destruct (socket_bind os (argparse.bind args) (argparse.port args))
    as [p|e] eqn:E.
  - destruct (serve_listening env os args events p E) as [t [-> [C [Ac [_ F]]]]].
    cbn [fst]. unfold concurrent. split.
    + change (?a :: ?b :: ?c :: ?d :: t ++ ?r)%list
        with ([a; b; c; d] ++ t ++ r)%list.
      rewrite !concurrent_from_app. cbn [concurrent_from active_after orb].
      rewrite C, Ac. now destruct (has_interrupt events).
    + change (?a :: ?b :: ?c :: ?d :: t ++ ?r)%list
        with ([a; b; c; d] ++ t ++ r)%list.
      rewrite !handlers_app. cbn [handlers app].
      destruct (has_interrupt events); cbn [handlers]; now rewrite app_nil_r.
  - rewrite (serve_bind_failure env os args events e E). cbn. split; constructor.
Qed.

Lemma main_trace (env : Env) (os : OS) (argv : list string)
    (events : list event) (t : list effect) (s : status) :
  main env os argv events = Some (t, s) ->
  concurrent t = false /\ Forall (well_served env) (handlers t).
Proof.
  intro E. destruct (main_parsed _ _ _ _ _ _ E)
    as [[e [_ [-> _]]]|[[_ [-> _]]|[[args [_ E']]|[args [_ [-> _]]]]]];
    try (split; [reflexivity|constructor]).
  pose proof (serve_trace env os args events) as H. now rewrite E' in H.
Qed.

(** Without events to serve, startup has not looked at the environment of
    the handlers. *)
Lemma main_startup_env (env env' : Env) (os : OS) (argv : list string) :
  main env' os argv [] = main env os argv [].
Proof.
  unfold main.
  destruct (argparse.parse_args argv) as [[args| |e|args]|]; reflexivity.
Qed.

(** The loop handles the connections that arrive before the first
    interrupt, in their order, and nothing after it. *)
Lemma serve_forever_served (env : Env) (events : list event) (cwd : bool)
    (n : nat) :
  TCPServer.serve_forever env COEPHandler.class cwd n events
  = (loop_trace env cwd n events,
     if has_interrupt events then Some KeyboardInterrupt else None).
Proof.
  revert cwd n. induction events as [|[rfile| |] rest IH]; intros cwd n;
    [reflexivity| |reflexivity|exact (IH false n)].
  cbn [TCPServer.serve_forever loop_trace].
  destruct (handle_request_noblock_trace env cwd n rfile) as [t [E _]].
  rewrite E, IH. reflexivity.
Qed.

(** Once the working directory is removed no handler gets as far as its
    connection. *)
Lemma loop_trace_removed (env : Env) (n : nat) (events : list event) :
  handlers (loop_trace env false n events) = [].
Proof.
  revert n. induction events as [|[rfile| |] rest IH]; intro n;
    [reflexivity| |reflexivity|exact (IH n)].
  cbn [loop_trace]. rewrite handlers_app. cbn. apply IH.
Qed.

Lemma loop_trace_handlers (env : Env) (n : nat) (events : list event) :
  handlers (loop_trace env true n events)
  = map (fun rfile => snd (TCPServer.finish_request env COEPHandler.class rfile))
        (served events).
Proof.
  revert n. induction events as [|[rfile| |] rest IH]; intro n;
    [reflexivity| |reflexivity|apply loop_trace_removed].
  cbn [loop_trace served map]. rewrite handlers_app, IH.
  destruct (handle_request_noblock_trace env true n rfile)
    as [t [E [_ [_ [_ [_ [H _]]]]]]].
  rewrite E. cbn [fst]. now rewrite H.
Qed.

Lemma loop_trace_quiet (env : Env) (cwd : bool) (n : nat)
    (events : list event) (o : bool) :
  filter is_stdout (loop_trace env cwd n events) = []
  /\ socket_open_from o (loop_trace env cwd n events) = o.
Proof.
  revert cwd n. induction events as [|[rfile| |] rest IH]; intros cwd n;
    [now split| |now split|exact (IH false n)].
  cbn [loop_trace]. rewrite filter_app, socket_open_from_app.
  destruct (handle_request_noblock_trace env cwd n rfile)
    as [t [E [_ [_ [_ [_ [_ [Q O]]]]]]]].
  rewrite E. cbn [fst]. rewrite Q, O. apply IH.
Qed.

(** The whole run of [serve] when [bind] succeeds. *)
Lemma serve_listening_trace (env : Env) (os : OS) (args : argparse.Namespace)
    (events : list event) (p : Z) :
  socket_bind os (argparse.bind args) (argparse.port args) = Ok p ->
  serve env os args events
  = ([socket_create;
      socket_bind_call (argparse.bind args) (argparse.port args);
      socket_listen;
      stdout (serving_at (argparse.bind args) (argparse.port args))]
     ++ loop_trace env true 0 events
     ++ (if has_interrupt events
         then [socket_close; stderr (traceback KeyboardInterrupt)]
         else []),
     if has_interrupt events then killed SIGINT else serving)%list.
Proof.
  intro E. unfold serve, TCPServer.init. rewrite E, serve_forever_served.
  destruct (has_interrupt events); cbn; [reflexivity|].
  now rewrite app_nil_r.
Qed.

(** * The claims *)

(** C3 (as the code has it): the server handles its connections one at a
    time.  In every run of the program no connection is accepted and no
    handler starts while the handler of an earlier connection is still at
    work, whatever the arguments and however many connections arrive. *)
Theorem connections_handled_one_at_a_time (env : Env) (os : OS)
    (argv : list string) (events : list event) (t : list effect) (s : status) :
  main env os argv events = Some (t, s) ->
  concurrent t = false.
Proof.
  intro E. exact (proj1 (main_trace _ _ _ _ _ _ E)).
Qed.

Lemma connections_handled_one_at_a_time_witness :
  concurrent
    (fst (serve Sample.env Sample.os argparse.defaults
            [connection [Sample.request_line "GET /sample.parquet HTTP/1.0" []];
             connection [Sample.request_line "GET /etc/passwd HTTP/1.0" []]]))
  = false.
Proof.
  apply (connections_handled_one_at_a_time Sample.env Sample.os []
           [connection [Sample.request_line "GET /sample.parquet HTTP/1.0" []];
            connection [Sample.request_line "GET /etc/passwd HTTP/1.0" []]]
           _ (snd (serve Sample.env Sample.os argparse.defaults
                     [connection [Sample.request_line "GET /sample.parquet HTTP/1.0" []];
                      connection [Sample.request_line "GET /etc/passwd HTTP/1.0" []]]))).
  vm_compute. reflexivity.
Defined.

(** C3, against the claim as written: two clients connect to a running
    server; both are served, and the second connection is accepted only
    after the handler of the first has ended, so the two handlers never
    run in parallel. *)
Lemma two_connections_served_in_turn :
  exists (t : list effect) (s : status) (h0 h1 : handler),
    main Sample.env Sample.os []
      [connection [Sample.request_line "GET /sample.parquet HTTP/1.0" []];
       connection [Sample.request_line "GET /etc/passwd HTTP/1.0" []]]
    = Some (t, s)
    /\ t = [socket_create; socket_bind_call "127.0.0.1" 8080; socket_listen;
            stdout (serving_at "127.0.0.1" 8080);
            accepted 0; handler_start 0; handled 0 h0; handler_end 0;
            accepted 1; handler_start 1; handled 1 h1; handler_end 1]
    /\ concurrent t = false.
Proof.
  do 4 eexists. split; [vm_compute; reflexivity|]. split; reflexivity.
Qed.

(** How [socket.bind] answers for an address another socket holds. *)
Lemma socket_bind_in_use (os : OS) (host : string) (port : Z) :
  resolves os host = true ->
  0 < port <= 65535 ->
  1024 <= port \/ privileged os = true ->
  in_use os host port = true ->
  socket_bind os host port = Raise (OSError 98 "Address already in use").
Proof.
  intros R P Pr U. unfold resolves in R. unfold socket_bind. rewrite U.
  destruct (lookup os host); try discriminate.
  replace ((port <? -2147483648) || (2147483647 <? port)) with false by lia.
  replace ((port <? 0) || (65535 <? port)) with false by lia.
  replace (port =? 0) with false by lia.
  replace ((port <? 1024) && negb (privileged os)) with false; [reflexivity|].
  destruct Pr as [Pr| ->]; [|now rewrite andb_false_r].
  replace (port <? 1024) with false by lia. reflexivity.
Qed.

(** C4 (as the code has it): how the process ends, on every command line
    and whatever happens afterwards.  When the parser refuses the arguments
    the usage error is printed on the standard error stream, no socket is
    touched, and the status is 2.  When it meets [-h] or [--help] the help
    is printed and the status is 0.  When it accepts the arguments the
    socket is created and [bind] is called; if [bind] raises (the address
    is in use, the port is privileged or out of range, the host is no
    address of this machine, or an option was given [--] as its explicit
    argument, which stores an empty list), the socket is closed, the
    traceback is printed and the status is 1.  If [bind] succeeds the
    server listens, and nothing but the operator's interrupt ends the
    process: the socket is closed, the traceback of [KeyboardInterrupt] is
    printed and the process dies from [SIGINT].  So status 0 is never the
    answer to an interrupt: it comes from the help option alone. *)
Theorem exit_status_of_main (env : Env) (os : OS) (argv : list string)
    (events : list event) :
  exists (t : list effect) (s : status),
    main env os argv events = Some (t, s)
    /\ match argparse.parse_args argv with
       | Some (argparse.error_exit e) =>
           t = [stderr (usage_error e)] /\ s = exited 2
       | Some argparse.help_exit =>
           t = [stdout help_text] /\ s = exited 0
       | Some (argparse.parsed_list args) =>
           t = [socket_create; socket_bind_call_list args; socket_close;
                stderr (traceback (socket_bind_list os args))]
           /\ s = exited 1
       | Some (argparse.parsed args) =>
           match socket_bind os (argparse.bind args) (argparse.port args) with
           | Raise e =>
               t = [socket_create;
                    socket_bind_call (argparse.bind args) (argparse.port args);
                    socket_close; stderr (traceback e)]
               /\ s = exited 1
           | Ok _ =>
               exists connections : list effect,
                 t = ([socket_create;
                       socket_bind_call (argparse.bind args)
                                        (argparse.port args);
                       socket_listen;
                       stdout (serving_at (argparse.bind args)
                                          (argparse.port args))]
                      ++ connections
                      ++ (if has_interrupt events
                          then [socket_close;
                                stderr (traceback KeyboardInterrupt)]
                          else []))%list
                 /\ existsb is_socket_operation connections = false
                 /\ s = (if has_interrupt events then killed SIGINT
                         else serving)
           end
       | None => False
       end
    /\ (s = exited 0 -> argparse.parse_args argv = Some argparse.help_exit).
Proof.
  unfold main.
  destruct (argparse.parse_args argv) as [[args| |e|args]|] eqn:P.
  - destruct (socket_bind os (argparse.bind args) (argparse.port args))
      as [p|e] eqn:B.
    + destruct (serve_listening env os args events p B)
        as [t' [E' [_ [_ [S _]]]]].
      rewrite E'. do 2 eexists. split; [reflexivity|]. split.
      * exists t'. repeat split. exact S.
      * destruct (has_interrupt events); discriminate.
    + rewrite (serve_bind_failure env os args events e B).
      do 2 eexists. split; [reflexivity|]. split; [now split|discriminate].
  - do 2 eexists. split; [reflexivity|]. split; [now split|reflexivity].
  - do 2 eexists. split; [reflexivity|]. split; [now split|discriminate].
  - rewrite serve_list_run.
    do 2 eexists. split; [reflexivity|]. split; [now split|discriminate].
  - exfalso. unfold argparse.parse_args in P.
    destruct (find _ _) as [[a k]|]; discriminate.
Qed.

(** C4, against the claim as written: the operator interrupts a server
    that listens on the default address.  The socket is closed, the
    traceback of [KeyboardInterrupt] is printed and the process is killed
    by [SIGINT]: it does not exit with code 0. *)
Lemma interrupt_kills_the_process :
  main Sample.env Sample.os [] [interrupt]
  = Some ([socket_create; socket_bind_call "127.0.0.1" 8080; socket_listen;
           stdout (serving_at "127.0.0.1" 8080);
           socket_close; stderr (traceback KeyboardInterrupt)],
          killed SIGINT)
  /\ killed SIGINT <> exited 0.
Proof.
  split; [vm_compute; reflexivity|discriminate].
Qed.

(** C8: another socket holds the address the program is asked to bind.
    The start then fails: the socket the server created is closed again
    before anything listens on it, the traceback of
    [OSError: [Errno 98] Address already in use] is the message on the
    standard error stream, and the process exits with status 1; no
    connection is ever accepted. *)
Theorem address_in_use_fails_startup (env : Env) (os : OS)
    (argv : list string) (events : list event) (args : argparse.Namespace) :
  argparse.parse_args argv = Some (argparse.parsed args) ->
  resolves os (argparse.bind args) = true ->
  0 < argparse.port args <= 65535 ->
  1024 <= argparse.port args \/ privileged os = true ->
  in_use os (argparse.bind args) (argparse.port args) = true ->
  exists t : list effect,
    main env os argv events = Some (t, exited 1)
    /\ t = [socket_create;
            socket_bind_call (argparse.bind args) (argparse.port args);
            socket_close;
            stderr (traceback (OSError 98 "Address already in use"))]
    /\ socket_open t = false
    /\ existsb (fun e => match e with socket_listen => true | _ => false end) t
       = false
    /\ exited 1 <> exited 0.
Proof.
  intros P R Rg Pr U. eexists. split; [|split; [reflexivity|]].
  - unfold main. rewrite P.
    now rewrite (serve_bind_failure env os args events _
                   (socket_bind_in_use os _ _ R Rg Pr U)).
  - repeat split. discriminate.
Qed.

Lemma address_in_use_fails_startup_witness :
  exists t : list effect,
    main Sample.env Sample.os_port_taken []
      [connection [Sample.request_line "GET / HTTP/1.0" []]]
    = Some (t, exited 1)
    /\ t = [socket_create; socket_bind_call "127.0.0.1" 8080; socket_close;
            stderr (traceback (OSError 98 "Address already in use"))]
    /\ socket_open t = false
    /\ existsb (fun e => match e with socket_listen => true | _ => false end) t
       = false
    /\ exited 1 <> exited 0.
Proof.
  apply (address_in_use_fails_startup Sample.env Sample.os_port_taken []
           [connection [Sample.request_line "GET / HTTP/1.0" []]]
           argparse.defaults);
    [reflexivity | reflexivity | cbn; lia | left; cbn; lia | reflexivity].
Defined.

(** ** The command line *)

Lemma parse_optional_separator (v : string) :
  argparse.parse_optional v = argparse.A -> (v =? "--")%string = false.
Proof.
  intro H. destruct (String.eqb_spec v "--") as [->|]; [|reflexivity].
  vm_compute in H. discriminate.
Qed.

Lemma explicit_loop_store_port (option_string explicit_arg : string) :
  argparse.explicit_loop argparse.store_port option_string explicit_arg
  = inr [(argparse.store_port, option_string, Some explicit_arg)].
Proof. now destruct explicit_arg. Qed.

(** The option string, an equals sign, the value: one option with its
    explicit argument. *)
Lemma parse_optional_port_equals (flag v : string) :
  flag = "--port" \/ flag = "-p" ->
  argparse.parse_optional (flag ++ "=" ++ v)
  = argparse.O (Some argparse.store_port) flag (Some v)
  /\ (flag ++ "=" ++ v =? "--")%string = false.
Proof.
  intros [-> | ->]; (split; [|reflexivity]);
    unfold argparse.parse_optional; cbn -[String.prefix Str.contains];
    match goal with
    | |- context [Str.contains ?x "="] =>
        replace (Str.contains x "=") with true
          by (symmetry; simpl; now destruct v)
    end; reflexivity.
Qed.

Lemma parse_args_port_equals (flag v : string) :
  flag = "--port" \/ flag = "-p" ->
  argparse.parse_args [flag ++ "=" ++ v]
  = Some (if (v =? "--")%string
          then argparse.parsed_list
                 (argparse.port_list (argparse.value "127.0.0.1"))
          else match Py.int v with
               | Some n => argparse.parsed (argparse.mkNamespace n "127.0.0.1")
               | None => argparse.error_exit (argparse.invalid_int_value v)
               end).
Proof.
  intro F. destruct (parse_optional_port_equals flag v F) as [P S].
  unfold argparse.parse_args. cbn [argparse.classify]. rewrite S, P.
  cbn [find snd argparse.parse_loop]. rewrite explicit_loop_store_port.
  cbn [argparse.needs_next last argparse.take_actions argparse.take_action].
  destruct (v =? "--")%string; [reflexivity|].
  destruct (Py.int v); reflexivity.
Qed.

(** The port option followed by its value: the value is converted by
    [int], and nothing else is asked of it. *)
Lemma parse_args_port (flag v : string) :
  flag = "--port" \/ flag = "-p" ->
  argparse.parse_optional v = argparse.A ->
  argparse.parse_args [flag; v]
  = Some match Py.int v with
         | Some n => argparse.parsed (argparse.mkNamespace n "127.0.0.1")
         | None => argparse.error_exit (argparse.invalid_int_value v)
         end.
Proof.
  intros F HA. pose proof (parse_optional_separator v HA) as Hs.
  unfold argparse.parse_args.
  destruct F as [-> | ->]; cbn -[Py.int argparse.parse_optional];
    rewrite Hs; cbn -[Py.int argparse.parse_optional]; rewrite HA;
    cbn -[Py.int]; rewrite Hs; destruct (Py.int v); reflexivity.
Qed.

Lemma socket_bind_out_of_range (os : OS) (host : string) (port : Z) :
  resolves os host = true ->
  port < 0 \/ 65535 < port ->
  socket_bind os host port
  = Raise (OverflowError "bind(): port must be 0-65535.").
Proof.
  intros R H. unfold resolves in R. unfold socket_bind.
  destruct (lookup os host); try discriminate.
  destruct ((port <? -2147483648) || (2147483647 <? port)); [reflexivity|].
  now replace ((port <? 0) || (65535 <? port)) with true by lia.
Qed.

Lemma socket_bind_zero (os : OS) (host : string) :
  resolves os host = true ->
  socket_bind os host 0 = Ok (ephemeral_port os).
Proof.
  intro R. unfold resolves in R. unfold socket_bind.
  now destruct (lookup os host).
Qed.

(** C2 (as the code has it): the port is checked to be an integer, and no
    more, when the arguments are parsed.  The port is given as the word
    after [--port] or [-p] (a word the parser takes for an argument, not
    for an option), or after an equals sign in the same word; the address
    is the default one, an address of this host.  A value that [int]
    refuses ends the program with the usage error and status 2, before any
    socket operation.  Every integer is accepted, whatever its range: the
    program goes on to create its socket and to call [bind] with it.  Port
    0 is bound (to a port the system chooses) and the server listens; a
    port below 0 or above 65535 makes [bind] raise [OverflowError], so the
    process fails with status 1 only after the socket was created and
    closed.  The value [--] after the equals sign is no usage error
    either: the parser drops it and stores an empty list, and [bind]
    raises [TypeError], with status 1. *)
Theorem port_is_checked_to_be_an_integer_only (env : Env) (os : OS)
    (flag v : string) (argv : list string) (events : list event) :
  flag = "--port" \/ flag = "-p" ->
  (argv = [flag; v] /\ argparse.parse_optional v = argparse.A)
  \/ argv = [flag ++ "=" ++ v] ->
  resolves os "127.0.0.1" = true ->
  if (v =? "--")%string then
    main env os argv events
    = Some ([socket_create;
             socket_bind_call_list
               (argparse.port_list (argparse.value "127.0.0.1"));
             socket_close;
             stderr (traceback
                       (TypeError
                          "'list' object cannot be interpreted as an integer"))],
            exited 1)
  else
    match Py.int v with
    | None =>
        main env os argv events
        = Some ([stderr (usage_error (argparse.invalid_int_value v))], exited 2)
    | Some n =>
        exists (t : list effect) (s : status),
          main env os argv events
          = Some (socket_create :: socket_bind_call "127.0.0.1" n :: t, s)
          /\ (n = 0 ->
              exists t',
                t = socket_listen :: stdout (serving_at "127.0.0.1" 0) :: t'
                /\ s = if has_interrupt events then killed SIGINT
                       else serving)
          /\ (n < 0 \/ 65535 < n ->
              t = [socket_close;
                   stderr (traceback
                             (OverflowError "bind(): port must be 0-65535."))]
              /\ s = exited 1)
    end.
Proof.
  intros F Hargv R.
  assert (P : argparse.parse_args argv
              = Some (if (v =? "--")%string
                      then argparse.parsed_list
                             (argparse.port_list (argparse.value "127.0.0.1"))
                      else match Py.int v with
                           | Some n =>
                               argparse.parsed
                                 (argparse.mkNamespace n "127.0.0.1")
                           | None =>
                               argparse.error_exit
                                 (argparse.invalid_int_value v)
                           end)).
  { destruct Hargv as [[-> HA] | ->].
    - rewrite (parse_args_port flag v F HA).
      now rewrite (parse_optional_separator v HA).
    - exact (parse_args_port_equals flag v F). }
  unfold main. rewrite P. clear P Hargv.
  destruct (v =? "--")%string.
  { rewrite serve_list_run. unfold socket_bind_list. unfold resolves in R.
    now destruct (lookup os "127.0.0.1"). }
  destruct (Py.int v) as [n|]; [|reflexivity].
  set (args := argparse.mkNamespace n "127.0.0.1").
  destruct (socket_bind os (argparse.bind args) (argparse.port args))
    as [p|e] eqn:B.
  - destruct (serve_listening env os args events p B) as [t' [-> _]].
    do 2 eexists. split; [reflexivity|]. split.
    + intros ->. eexists. split; reflexivity.
    + intro H. subst args. cbn [argparse.bind argparse.port] in B.
      rewrite (socket_bind_out_of_range os "127.0.0.1" n R H) in B.
      discriminate.
  - rewrite (serve_bind_failure env os args events e B).
    do 2 eexists. split; [reflexivity|]. split.
    + intros ->. subst args. cbn [argparse.bind argparse.port] in B.
      rewrite (socket_bind_zero os _ R) in B. discriminate.
    + intro H. subst args. cbn [argparse.bind argparse.port] in B.
      rewrite (socket_bind_out_of_range os "127.0.0.1" n R H) in B.
      injection B as <-. now split.
Qed.

Lemma port_is_checked_to_be_an_integer_only_witness :
  main Sample.env Sample.os ["--port"; "http"] []
  = Some ([stderr (usage_error (argparse.invalid_int_value "http"))], exited 2).
Proof.
  apply (port_is_checked_to_be_an_integer_only Sample.env Sample.os
           "--port" "http" ["--port"; "http"] []);
    [left; reflexivity | left; split; reflexivity | reflexivity].
Defined.

(** C2, against the claim as written: port 0 is no error at all, the
    server listens; port 70000 passes the parser and fails in [bind], with
    status 1, after the socket was created. *)
Lemma ports_0_and_70000_pass_the_parser :
  main Sample.env Sample.os ["--port"; "0"] []
  = Some ([socket_create; socket_bind_call "127.0.0.1" 0; socket_listen;
           stdout (serving_at "127.0.0.1" 0)], serving)
  /\ main Sample.env Sample.os ["--port"; "70000"] []
     = Some ([socket_create; socket_bind_call "127.0.0.1" 70000; socket_close;
              stderr (traceback (OverflowError "bind(): port must be 0-65535."))],
             exited 1).
Proof.
  split; vm_compute; reflexivity.
Qed.

(** ** The responses *)

(** C10 (as the code has it): what [COEPHandler.end_headers] appends.
    While the request version is not [HTTP/0.9], one call writes one header
    block: the lines the static handler buffered, in their order, then
    [Cross-Origin-Opener-Policy: same-origin], then
    [Cross-Origin-Embedder-Policy: require-corp], each once, then the blank
    line that ends the block; the buffer is left empty.  Under [HTTP/0.9]
    the call appends and writes nothing. *)
Theorem isolation_headers_end_the_header_block (h : handler) :
  COEPHandler.end_headers h =
  (Ok tt,
   if (request_version h =? "HTTP/0.9")%string then h
   else mkHandler (directory h) (request_version h) (command h) (path h)
          (headers h) (close_connection h) (Some [])
          (wfile h ++
           [header_block
              (Str.join (BaseHTTPRequestHandler.buffer_or_new h
                         ++ [COOP_line; COEP_line; Str.CRLF])%list)])%list).
Proof.
  destruct (String.eqb_spec (request_version h) "HTTP/0.9") as [E|E].
  - now apply end_headers_silent.
  - now apply end_headers_writes.
Qed.

(** C10, against the claim as written: a request line with a malformed
    version is answered with the page of error 400 alone.  The response
    has no header block, and the isolation headers are in it zero times. *)
Lemma bad_request_version_response_has_no_header :
  Sample.response (Sample.request_line "GET /sample.parquet FOO/1.1" [])
  = [message_body "<p>Bad request version ('FOO/1.1')</p>"]
  /\ Str.contains
       (wire (Sample.response
                (Sample.request_line "GET /sample.parquet FOO/1.1" [])))
       "Cross-Origin-Opener-Policy" = false
  /\ Str.contains
       (wire (Sample.response
                (Sample.request_line "GET /sample.parquet FOO/1.1" [])))
       "Cross-Origin-Embedder-Policy" = false.
Proof.
  repeat split; vm_compute; reflexivity.
Qed.

(** ** Running the methods on a request of HTTP/1.x *)

Lemma buffered_buffered (l1 l2 : list string) (h : handler) :
  buffered l2 (buffered l1 h) = buffered (l1 ++ l2) h.
Proof.
  unfold buffered, set_headers_buffer, BaseHTTPRequestHandler.buffer_or_new.
  cbn [directory request_version command path headers close_connection
       _headers_buffer wfile].
  now rewrite app_assoc.
Qed.

Lemma send_response_only_buffers (code : HTTPStatus) (message : option string)
    (h : handler) :
  request_version h <> "HTTP/0.9" ->
  BaseHTTPRequestHandler.send_response_only code message h
  = (Ok tt,
     buffered [status_line code
                 match message with
                 | Some m => m
                 | None => fst (responses code)
                 end] h).
Proof.
  intro Hv. apply version_test in Hv.
  unfold BaseHTTPRequestHandler.send_response_only.
  rewrite bind_get, Hv. reflexivity.
Qed.

Lemma send_header_run (keyword value : string) (h : handler) :
  (Str.lower keyword =? "connection")%string = false ->
  request_version h <> "HTTP/0.9" ->
  BaseHTTPRequestHandler.send_header keyword value h
  = (Ok tt, buffered [header_line keyword value] h).
Proof.
  intros Hk Hv. apply version_test in Hv.
  rewrite (send_header_buffers keyword value h Hk), Hv. reflexivity.
Qed.

Lemma send_response_run (env : Env) (code : HTTPStatus)
    (message : option string) (h : handler) :
  request_version h <> "HTTP/0.9" ->
  BaseHTTPRequestHandler.send_response env code message h
  = (Ok tt,
     buffered (response_lines env code
                 match message with
                 | Some m => m
                 | None => fst (responses code)
                 end) h).
Proof.
  intro Hv. unfold BaseHTTPRequestHandler.send_response.
  erewrite bind_ok by (now apply send_response_only_buffers).
  erewrite bind_ok by (now apply send_header_run).
  rewrite send_header_run by easy.
  now rewrite !buffered_buffered.
Qed.

Lemma end_headers_flushes (lines : list string) (h : handler) :
  request_version h <> "HTTP/0.9" ->
  COEPHandler.end_headers (buffered lines h) = (Ok tt, flushed lines h).
Proof.
  intro Hv. rewrite end_headers_writes by exact Hv.
  unfold flushed, buffered, set_headers_buffer,
    BaseHTTPRequestHandler.buffer_or_new.
  cbn [directory request_version command path headers close_connection
       _headers_buffer wfile].
  now rewrite <- app_assoc.
Qed.

(** [send_error] with a message, for a status that has a body: one header
    block, then the page, which a [HEAD] request does not get. *)
Lemma send_error_run (env : Env) (code : HTTPStatus) (message : string)
    (h : handler) :
  request_version h <> "HTTP/0.9" ->
  (200 <=? status_value code)
  && negb (status_value code =? status_value NO_CONTENT)
  && negb (status_value code =? status_value RESET_CONTENT)
  && negb (status_value code =? status_value NOT_MODIFIED) = true ->
  BaseHTTPRequestHandler.send_error env COEPHandler.class code (Some message)
    None h
  = (Ok tt,
     let b := error_message env (status_value code) message
                (snd (responses code)) in
     let h1 :=
       flushed (response_lines env code message
                ++ [header_line "Connection" "close";
                    header_line "Content-Type"
                      BaseHTTPRequestHandler.error_content_type;
                    header_line "Content-Length" (Str.of_Z (Str.len b))])%list
               (set_close_connection true h) in
     if negb (match command h with
              | Some c => (c =? "HEAD")%string
              | None => false
              end)
        && negb (b =? "")%string
     then wfile_write (message_body b) h1 else h1).
Proof.
  intros Hv Hb. unfold BaseHTTPRequestHandler.send_error.
  destruct (responses code) as [shortmsg longmsg]. cbn [snd].
  erewrite bind_ok by (now apply send_response_run).
  erewrite bind_ok by (apply send_header_connection_close).
  rewrite Hb.
  set (b := error_message env (status_value code) message longmsg).
  assert (Hv' : (request_version
                   (buffered (response_lines env code message) h)
                 =? "HTTP/0.9")%string = false) by now apply version_test.
  rewrite Hv'.
  set (h0 := set_close_connection true
               (buffered (response_lines env code message
                          ++ [header_line "Connection" "close"]) h)).
  assert (E0 : set_close_connection true
                 (set_headers_buffer
                    (Some (BaseHTTPRequestHandler.buffer_or_new
                             (buffered (response_lines env code message) h)
                           ++ [header_line "Connection" "close"])%list)
                    (buffered (response_lines env code message) h)) = h0).
  { unfold h0. rewrite <- buffered_buffered. reflexivity. }
  rewrite E0.
  assert (V0 : request_version h0 <> "HTTP/0.9") by exact Hv.
  rewrite !bind_ok with (h' := buffered
      [header_line "Content-Type" BaseHTTPRequestHandler.error_content_type;
       header_line "Content-Length" (Str.of_Z (Str.len b))] h0) (a := Some b).
  2:{ erewrite bind_ok by (now apply send_header_run).
      erewrite bind_ok by (now apply send_header_run).
      unfold ret. now rewrite buffered_buffered. }
  cbn [self_end_headers COEPHandler.class].
  erewrite bind_ok by (now apply end_headers_flushes).
  rewrite bind_get.
  assert (F : flushed
                [header_line "Content-Type"
                   BaseHTTPRequestHandler.error_content_type;
                 header_line "Content-Length" (Str.of_Z (Str.len b))] h0
              = flushed (response_lines env code message
                         ++ [header_line "Connection" "close";
                             header_line "Content-Type"
                               BaseHTTPRequestHandler.error_content_type;
                             header_line "Content-Length"
                               (Str.of_Z (Str.len b))])%list
                        (set_close_connection true h)).
  { unfold flushed, h0, buffered, set_close_connection, set_headers_buffer,
      BaseHTTPRequestHandler.buffer_or_new.
    cbn [directory request_version command path headers close_connection
         _headers_buffer wfile].
    now rewrite <- !app_assoc. }
  rewrite F. cbn [command flushed set_close_connection].
  destruct (negb _ && negb (b =? "")%string); reflexivity.
Qed.

(** [parse_request] on a request line of three words with a version below
    2.0: the attributes are set; the connection will be closed after the
    response, whatever the request asks, since the protocol version of the
    server is [HTTP/1.0]. *)
Lemma parse_request_ok (env : Env) (cls : HandlerClass) (req : request)
    (cmd p version base : string) (number : Z * Z)
    (fields : list (string * string)) (h : handler) :
  Str.words (requestline req) = [cmd; p; version] ->
  BaseHTTPRequestHandler.version_number version = Some (base, number) ->
  BaseHTTPRequestHandler.pair_ge number (2, 0) = false ->
  request_headers req = Headers fields ->
  BaseHTTPRequestHandler.parse_request env cls req h
  = (Ok true,
     mkHandler (directory h) version (Some cmd) (request_path p) fields true
       (_headers_buffer h) (wfile h)).
Proof.
  intros Hw Hn H2 Hf. unfold BaseHTTPRequestHandler.parse_request.
  rewrite !bind_modify.
  change (Str.rstrip _ (raw_requestline req)) with (requestline req).
  rewrite Hw. cbn [length Nat.eqb Nat.leb last]. rewrite Hn.
  assert (Hs : BaseHTTPRequestHandler.str_ge
                 BaseHTTPRequestHandler.protocol_version "HTTP/1.1" = false)
    by reflexivity.
  rewrite Hs, andb_false_r, bind_ret, H2, bind_modify.
  unfold BaseHTTPRequestHandler.parse_request_words.
  cbn [length Nat.eqb Nat.leb andb negb nth]. rewrite bind_ret.
  rewrite !bind_modify.
  unfold BaseHTTPRequestHandler.parse_request_headers. rewrite Hf.
  rewrite bind_modify, Hs, andb_false_r.
  destruct (Str.lower (headers_get_default fields "Connection") =? "close")%string;
    [rewrite bind_modify|rewrite bind_ret];
    rewrite bind_get, andb_false_r; reflexivity.
Qed.

Lemma rev_string_involutive (s : string) : Str.rev_string (Str.rev_string s) = s.
Proof.
  induction s as [|c s IH]; [reflexivity|].
  cbn [Str.rev_string]. rewrite rev_string_app, IH. reflexivity.
Qed.

Lemma fs_key_no_slash (path : string) :
  Str.endswith path "/" = false ->
  SimpleHTTPRequestHandler.fs_key path = path.
Proof.
  unfold Str.endswith. rewrite <- (rev_string_involutive path).
  generalize (Str.rev_string path) as r. intros r.
  rewrite rev_string_involutive.
  unfold SimpleHTTPRequestHandler.fs_key, Str.rstrip.
  rewrite rev_string_involutive.
  destruct r as [|c r]; [reflexivity|].
  cbn [Str.rev_string String.prefix append Str.lstrip].
  destruct (Ascii.eqb_spec "/" c) as [<-|N].
  - now destruct r.
  - intros _. set (q := Str.rev_string (String c r)).
    destruct (String.eqb_spec q "") as [Q|Q]; [|reflexivity].
    exfalso. apply (f_equal Str.rev_string) in Q. unfold q in Q.
    rewrite rev_string_involutive in Q. discriminate.
Qed.

Lemma send_head_file_ok (env : Env) (path content : string) (mtime : Z)
    (h : handler) :
  request_version h <> "HTTP/0.9" ->
  Str.endswith path "/" = false ->
  SimpleHTTPRequestHandler.unopenable env path = false ->
  fs env path = Some (File (Some content) mtime) ->
  SimpleHTTPRequestHandler.not_modified env (headers h) mtime = false ->
  SimpleHTTPRequestHandler.send_head_file env COEPHandler.class path h
  = (Ok (Some content),
     flushed (response_lines env OK "OK"
              ++ [header_line "Content-type"
                    (SimpleHTTPRequestHandler.guess_type env path);
                  header_line "Content-Length" (Str.of_Z (Str.len content));
                  header_line "Last-Modified"
                    (date_time_string env (Some mtime))])%list h).
Proof.
  intros Hv Hs Hu Hf Hm. unfold SimpleHTTPRequestHandler.send_head_file.
  rewrite Hs, Hu, Hf, bind_get, Hm.
  erewrite bind_ok by (now apply send_response_run).
  erewrite bind_ok by (now apply send_header_run).
  erewrite bind_ok by (now apply send_header_run).
  erewrite bind_ok by (now apply send_header_run).
  rewrite !buffered_buffered. cbn [self_end_headers COEPHandler.class].
  erewrite bind_ok by (now apply end_headers_flushes).
  cbn [fst responses app]. reflexivity.
Qed.

Lemma send_head_file_not_modified (env : Env) (path content : string)
    (mtime : Z) (h : handler) :
  request_version h <> "HTTP/0.9" ->
  Str.endswith path "/" = false ->
  SimpleHTTPRequestHandler.unopenable env path = false ->
  fs env path = Some (File (Some content) mtime) ->
  SimpleHTTPRequestHandler.not_modified env (headers h) mtime = true ->
  SimpleHTTPRequestHandler.send_head_file env COEPHandler.class path h
  = (Ok None, flushed (response_lines env NOT_MODIFIED "Not Modified") h).
Proof.
  intros Hv Hs Hu Hf Hm. unfold SimpleHTTPRequestHandler.send_head_file.
  rewrite Hs, Hu, Hf, bind_get, Hm.
  erewrite bind_ok by (now apply send_response_run).
  cbn [self_end_headers COEPHandler.class].
  erewrite bind_ok by (now apply end_headers_flushes).
  reflexivity.
Qed.

Lemma send_head_file_not_found (env : Env) (path : string) (h : handler) :
  request_version h <> "HTTP/0.9" ->
  Str.endswith path "/" = true
  \/ (SimpleHTTPRequestHandler.unopenable env path = false
      /\ fs env path = None) ->
  SimpleHTTPRequestHandler.send_head_file env COEPHandler.class path h
  = (Ok None,
     snd (BaseHTTPRequestHandler.send_error env COEPHandler.class NOT_FOUND
            (Some "File not found") None h)).
Proof.
  intros Hv Hp. unfold SimpleHTTPRequestHandler.send_head_file.
  assert (E : BaseHTTPRequestHandler.send_error env COEPHandler.class NOT_FOUND
            (Some "File not found") None h = (Ok tt, snd (BaseHTTPRequestHandler.send_error env COEPHandler.class NOT_FOUND
            (Some "File not found") None h))).
  { rewrite send_error_run by easy. reflexivity. }
  destruct (Str.endswith path "/").
  - erewrite bind_ok by exact E. reflexivity.
  - destruct Hp as [Hp|[Hu Hp]]; [discriminate|]. rewrite Hu, Hp.
    erewrite bind_ok by exact E. reflexivity.
Qed.

Lemma handle_loop_closed (env : Env) (cls : HandlerClass)
    (rfile : list request) (h : handler) :
  close_connection h = true ->
  SimpleHTTPRequestHandler.handle_loop env cls rfile h = (Ok tt, h).
Proof.
  intro Hc. destruct rfile; cbn [SimpleHTTPRequestHandler.handle_loop];
    rewrite bind_get, Hc; reflexivity.
Qed.

Lemma requestline_not_empty (req : request) (w : string) (ws : list string) :
  Str.words (requestline req) = w :: ws ->
  (raw_requestline req =? "")%string = false.
Proof.
  intro H. destruct (String.eqb_spec (raw_requestline req) "") as [E|]; [|reflexivity].
  unfold requestline in H. rewrite E in H. discriminate.
Qed.

(** A request line of three words on a fresh connection: the method found
    for the command runs on the parsed attributes. *)
Lemma handle_one_request_parsed (env : Env) (req : request)
    (cmd p version base : string) (number : Z * Z)
    (fields : list (string * string)) :
  Str.len (raw_requestline req) <= 65536 ->
  Str.words (requestline req) = [cmd; p; version] ->
  BaseHTTPRequestHandler.version_number version = Some (base, number) ->
  BaseHTTPRequestHandler.pair_ge number (2, 0) = false ->
  request_headers req = Headers fields ->
  SimpleHTTPRequestHandler.handle_one_request env COEPHandler.class req
    (set_close_connection true (SimpleHTTPRequestHandler.init env))
  = match SimpleHTTPRequestHandler.do_method env COEPHandler.class cmd with
    | Some method => method
    | None =>
        BaseHTTPRequestHandler.send_error env COEPHandler.class NOT_IMPLEMENTED
          (Some ("Unsupported method (" ++ repr env cmd ++ ")")) None
    end (mkHandler (getcwd env) version (Some cmd) (request_path p) fields
           true None []).
Proof.
  intros Hl Hw Hn H2 Hf. unfold SimpleHTTPRequestHandler.handle_one_request.
  replace (65536 <? Str.len (raw_requestline req)) with false by lia.
  rewrite (requestline_not_empty req _ _ Hw).
  erewrite bind_ok by (eapply parse_request_ok; eassumption).
  cbn [negb]. rewrite bind_get. reflexivity.
Qed.

(** The methods [GET] and [HEAD] differ by the body only. *)
Lemma do_method_send_head (env : Env) (cmd : string) (h h' : handler) :
  cmd = "GET" \/ cmd = "HEAD" ->
  SimpleHTTPRequestHandler.send_head env COEPHandler.class h = (Ok None, h') ->
  match SimpleHTTPRequestHandler.do_method env COEPHandler.class cmd with
  | Some method => method
  | None =>
      BaseHTTPRequestHandler.send_error env COEPHandler.class NOT_IMPLEMENTED
        (Some ("Unsupported method (" ++ repr env cmd ++ ")")) None
  end h = (Ok tt, h').
Proof.
  intros [-> | ->] E.
  - change (SimpleHTTPRequestHandler.do_method env COEPHandler.class "GET")
      with (Some (SimpleHTTPRequestHandler.do_GET env COEPHandler.class)).
    cbv beta iota. unfold SimpleHTTPRequestHandler.do_GET.
    now rewrite (bind_ok _ _ _ _ _ E).
  - change (SimpleHTTPRequestHandler.do_method env COEPHandler.class "HEAD")
      with (Some (SimpleHTTPRequestHandler.do_HEAD env COEPHandler.class)).
    cbv beta iota. unfold SimpleHTTPRequestHandler.do_HEAD.
    now rewrite (bind_ok _ _ _ _ _ E).
Qed.

Lemma send_head_file_path (env : Env) (h : handler) (content : string)
    (mtime : Z) :
  let tp := SimpleHTTPRequestHandler.translate_path env (directory h) (path h) in
  Str.endswith tp "/" = false ->
  fs env tp = Some (File (Some content) mtime) ->
  SimpleHTTPRequestHandler.send_head env COEPHandler.class h
  = SimpleHTTPRequestHandler.send_head_file env COEPHandler.class tp h.
Proof.
  intros tp Hs Hf. unfold SimpleHTTPRequestHandler.send_head.
  rewrite bind_get. unfold self_path. fold tp.
  unfold SimpleHTTPRequestHandler.isdir.
  rewrite (fs_key_no_slash tp Hs), Hf.
  now destruct (SimpleHTTPRequestHandler.unopenable env tp).
Qed.

(** ** A connection that is to be closed *)

Lemma closing_ret {A} (a : A) : closing (ret a).
Proof. now intros h H. Qed.

Lemma closing_get : closing get.
Proof. now intros h H. Qed.

Lemma closing_raise {A} (e : exn) : closing (@raise A e).
Proof. now intros h H. Qed.

Lemma closing_bind {A B} (m : M A) (k : A -> M B) :
  closing m -> (forall a, closing (k a)) -> closing (bind m k).
Proof.
  intros Hm Hk h H. specialize (Hm h H). unfold bind.
  destruct (m h) as [[a|e] h1]; cbn [snd] in *; [now apply Hk|exact Hm].
Qed.

Lemma closing_modify (f : handler -> handler) :
  (forall h, close_connection (f h) = close_connection h) ->
  closing (modify f).
Proof. intros Hf h H. cbn. now rewrite Hf. Qed.

Lemma closing_close : closing (modify (set_close_connection true)).
Proof. now intros h H. Qed.

Ltac closing_step :=
  match goal with
  | |- closing (bind _ _) => apply closing_bind; [|intro]
  | |- closing (ret _) => apply closing_ret
  | |- closing get => apply closing_get
  | |- closing (raise _) => apply closing_raise
  | |- closing (modify (set_close_connection true)) => apply closing_close
  | |- closing (modify _) => apply closing_modify; reflexivity
  | H : closing ?m |- closing ?m => exact H
  | |- closing (if ?c then _ else _) => destruct c
  | |- closing (match ?x with _ => _ end) => destruct x
  | |- closing (let '(_, _) := ?x in _) => destruct x
  end.

Ltac closing_auto := repeat closing_step.

Lemma closing_send_response_only (code : HTTPStatus) (message : option string) :
  closing (BaseHTTPRequestHandler.send_response_only code message).
Proof. unfold BaseHTTPRequestHandler.send_response_only. closing_auto. Qed.

(** A header other than [Connection: keep-alive] leaves a connection that
    is to be closed so. *)
Lemma closing_send_header (keyword value : string) :
  (Str.lower keyword =? "connection")%string = false
  \/ (Str.lower value =? "keep-alive")%string = false ->
  closing (BaseHTTPRequestHandler.send_header keyword value).
Proof.
  intro Hk. unfold BaseHTTPRequestHandler.send_header.
  apply closing_bind; [apply closing_get|]. intro h.
  apply closing_bind; [closing_auto|]. intros _.
  destruct (Str.lower keyword =? "connection")%string; [|apply closing_ret].
  destruct Hk as [Hk|Hk]; [discriminate|]. rewrite Hk.
  closing_auto.
Qed.

Lemma closing_COEPHandler_end_headers : closing COEPHandler.end_headers.
Proof.
  intros h H. destruct (string_dec (request_version h) "HTTP/0.9") as [Hv|Hv].
  - now rewrite (end_headers_silent h Hv).
  - now rewrite (end_headers_writes h Hv).
Qed.

Section ClosingMethods.

Variable env : Env.
Variable cls : HandlerClass.
Hypothesis cls_closing : closing (self_end_headers cls).

(** The protocol version of the server is [HTTP/1.0]. *)
Lemma protocol_below_1_1 :
  BaseHTTPRequestHandler.str_ge BaseHTTPRequestHandler.protocol_version
    "HTTP/1.1" = false.
Proof. reflexivity. Qed.

Lemma closing_send_response (code : HTTPStatus) (message : option string) :
  closing (BaseHTTPRequestHandler.send_response env code message).
Proof.
  unfold BaseHTTPRequestHandler.send_response.
  pose proof closing_send_response_only.
  closing_auto; auto; apply closing_send_header; now left.
Qed.

Lemma closing_send_error (code : HTTPStatus) (message explain : option string) :
  closing (BaseHTTPRequestHandler.send_error env cls code message explain).
Proof.
  unfold BaseHTTPRequestHandler.send_error.
  pose proof closing_send_response.
  closing_auto; auto; apply closing_send_header; (now left) || (now right).
Qed.

Lemma closing_handle_expect_100 :
  closing (BaseHTTPRequestHandler.handle_expect_100 cls).
Proof.
  unfold BaseHTTPRequestHandler.handle_expect_100.
  pose proof closing_send_response_only. closing_auto; auto.
Qed.

Lemma closing_parse_request_headers (req : request) :
  closing (BaseHTTPRequestHandler.parse_request_headers env cls req).
Proof.
  unfold BaseHTTPRequestHandler.parse_request_headers.
  pose proof closing_send_error.
  destruct (request_headers req) as [fields| |]; [|closing_auto; auto..].
  apply closing_bind; [closing_auto|]. intros _.
  apply closing_bind.
  { destruct (_ =? "close")%string; [apply closing_close|].
    rewrite protocol_below_1_1, andb_false_r. apply closing_ret. }
  intros _. apply closing_bind; [apply closing_get|]. intro h.
  rewrite protocol_below_1_1, andb_false_r. apply closing_ret.
Qed.

Lemma closing_parse_request_words (req : request) (requestline : string)
    (words : list string) :
  closing (BaseHTTPRequestHandler.parse_request_words env cls req requestline
             words).
Proof.
  unfold BaseHTTPRequestHandler.parse_request_words.
  pose proof closing_send_error. pose proof closing_parse_request_headers.
  closing_auto; auto.
Qed.

Lemma closing_parse_request (req : request) :
  closing (BaseHTTPRequestHandler.parse_request env cls req).
Proof.
  unfold BaseHTTPRequestHandler.parse_request.
  rewrite protocol_below_1_1.
  pose proof closing_send_error. pose proof closing_parse_request_words.
  do 3 (apply closing_bind; [closing_auto|]; intros _).
  destruct (_ =? 0)%nat; [apply closing_ret|].
  destruct (3 <=? _)%nat; [|auto].
  destruct (BaseHTTPRequestHandler.version_number _) as [[base number]|];
    [|closing_auto; auto].
  rewrite andb_false_r. closing_auto; auto.
Qed.

End ClosingMethods.

Section ClosingSimple.

Variable env : Env.
Variable cls : HandlerClass.
Hypothesis cls_closing : closing (self_end_headers cls).

Let send_response_closing := closing_send_response env.
Let send_error_closing := closing_send_error env cls cls_closing.

Lemma closing_list_directory (path : string) :
  closing (SimpleHTTPRequestHandler.list_directory env cls path).
Proof.
  unfold SimpleHTTPRequestHandler.list_directory.
  closing_auto; auto; apply closing_send_header; now left.
Qed.

Lemma closing_send_head_file (path : string) :
  closing (SimpleHTTPRequestHandler.send_head_file env cls path).
Proof.
  unfold SimpleHTTPRequestHandler.send_head_file.
  closing_auto; auto; apply closing_send_header; now left.
Qed.

Lemma closing_send_head : closing (SimpleHTTPRequestHandler.send_head env cls).
Proof.
  unfold SimpleHTTPRequestHandler.send_head.
  pose proof closing_send_head_file. pose proof closing_list_directory.
  closing_auto; auto; apply closing_send_header; now left.
Qed.

Lemma closing_do_method (command : string) (method : M unit) :
  SimpleHTTPRequestHandler.do_method env cls command = Some method ->
  closing method.
Proof.
  unfold SimpleHTTPRequestHandler.do_method.
  pose proof closing_send_head.
  destruct (command =? "GET")%string;
    [|destruct (command =? "HEAD")%string]; intro E; inversion E; subst;
    unfold SimpleHTTPRequestHandler.do_GET, SimpleHTTPRequestHandler.do_HEAD,
      SimpleHTTPRequestHandler.copyfile;
    closing_auto; auto.
Qed.

Lemma closing_handle_one_request (req : request) :
  closing (SimpleHTTPRequestHandler.handle_one_request env cls req).
Proof.
  unfold SimpleHTTPRequestHandler.handle_one_request.
  pose proof (closing_parse_request env cls cls_closing).
  destruct (65536 <? Str.len (raw_requestline req)); [closing_auto; auto|].
  destruct (raw_requestline req =? "")%string; [closing_auto; auto|].
  apply closing_bind; [auto|]. intros [|]; cbv [negb]; [|apply closing_ret].
  apply closing_bind; [apply closing_get|]. intro h.
  destruct (SimpleHTTPRequestHandler.do_method env cls _) as [method|] eqn:E.
  - eapply closing_do_method. exact E.
  - auto.
Qed.

(** After the first request the loop of [handle] finds the connection
    closed: the requests that follow are not read. *)
Lemma handle_first_request_only (req : request) (rest : list request) :
  SimpleHTTPRequestHandler.handle env cls (req :: rest)
    (SimpleHTTPRequestHandler.init env)
  = SimpleHTTPRequestHandler.handle env cls [req]
      (SimpleHTTPRequestHandler.init env).
Proof.
  unfold SimpleHTTPRequestHandler.handle. rewrite !bind_modify.
  cbn [hd tl]. unfold bind.
  pose proof (closing_handle_one_request req
                (set_close_connection true (SimpleHTTPRequestHandler.init env))
                eq_refl) as C.
  destruct (SimpleHTTPRequestHandler.handle_one_request env cls req _)
    as [[[]|e] h1]; [|reflexivity].
  cbn [snd] in C. now rewrite !handle_loop_closed.
Qed.

End ClosingSimple.

(** ** What a handler has sent *)

Lemma triple_ret {A} (P : handler -> Prop) (a : A) (Q : A -> handler -> Prop)
    (E : handler -> Prop) :
  (forall h, P h -> Q a h) -> triple P (ret a) Q E.
Proof. intros H h Hp. now apply H. Qed.

Lemma triple_raise {A} (P : handler -> Prop) (e : exn)
    (Q : A -> handler -> Prop) (E : handler -> Prop) :
  (forall h, P h -> E h) -> triple P (raise e) Q E.
Proof. intros H h Hp. now apply H. Qed.

Lemma triple_get (P : handler -> Prop) (Q : handler -> handler -> Prop)
    (E : handler -> Prop) :
  (forall h, P h -> Q h h) -> triple P get Q E.
Proof. intros H h Hp. now apply H. Qed.

Lemma triple_modify (P : handler -> Prop) (f : handler -> handler)
    (Q : unit -> handler -> Prop) (E : handler -> Prop) :
  (forall h, P h -> Q tt (f h)) -> triple P (modify f) Q E.
Proof. intros H h Hp. now apply H. Qed.

Lemma triple_bind {A B} (P : handler -> Prop) (m : M A) (k : A -> M B)
    (R : A -> handler -> Prop) (Q : B -> handler -> Prop)
    (E : handler -> Prop) :
  triple P m R E -> (forall a, triple (R a) (k a) Q E) ->
  triple P (bind m k) Q E.
Proof.
  intros Hm Hk h Hp. specialize (Hm h Hp). unfold bind.
  destruct (m h) as [[a|e] h1]; [now apply Hk|exact Hm].
Qed.

Lemma triple_weaken {A} (P : handler -> Prop) (m : M A)
    (Q Q' : A -> handler -> Prop) (E E' : handler -> Prop) :
  triple P m Q E ->
  (forall a h, Q a h -> Q' a h) -> (forall h, E h -> E' h) ->
  triple P m Q' E'.
Proof.
  intros Hm HQ HE h Hp. specialize (Hm h Hp).
  destruct (m h) as [[a|e] h1]; auto.
Qed.

Lemma triple_pre {A} (P P' : handler -> Prop) (m : M A)
    (Q : A -> handler -> Prop) (E : handler -> Prop) :
  triple P m Q E -> (forall h, P' h -> P h) -> triple P' m Q E.
Proof. intros Hm HP h Hp. apply Hm. now apply HP. Qed.

Lemma keeps_ret {A} (P : handler -> Prop) (a : A) : keeps P (ret a).
Proof. now apply triple_ret. Qed.

Lemma keeps_get (P : handler -> Prop) : keeps P get.
Proof. now apply triple_get. Qed.

Lemma keeps_modify (P : handler -> Prop) (f : handler -> handler) :
  (forall h, P h -> P (f h)) -> keeps P (modify f).
Proof. intro H. now apply triple_modify. Qed.

Lemma keeps_bind {A B} (P : handler -> Prop) (m : M A) (k : A -> M B) :
  keeps P m -> (forall a, keeps P (k a)) -> keeps P (bind m k).
Proof. intros Hm Hk. eapply triple_bind; [exact Hm|exact Hk]. Qed.

(** First the headers, then the answer. *)
Lemma answers_after {A B} (v : string) (m : M A) (k : A -> M B) :
  keeps (quiet v) m -> (forall a, answers v (k a)) -> answers v (bind m k).
Proof.
  intros Hm Hk. eapply triple_bind; [|exact Hk].
  eapply triple_weaken; [exact Hm|auto|contradiction].
Qed.

(** First the answer, then what goes with it. *)
Lemma answers_then {A B} (v : string) (m : M A) (k : A -> M B) :
  answers v m -> (forall a, keeps (replied v) (k a)) -> answers v (bind m k).
Proof.
  intros Hm Hk. eapply triple_bind; [exact Hm|].
  intro a. eapply triple_weaken; [exact (Hk a)|auto|contradiction].
Qed.

(** An assignment to an attribute other than the request version and the
    output. *)
Lemma quiet_set (v : string) (f : handler -> handler) :
  (forall h, request_version (f h) = request_version h) ->
  (forall h, wfile (f h) = wfile h) ->
  keeps (quiet v) (modify f).
Proof.
  intros Hv Hw. apply keeps_modify. intros h [V W].
  split; [now rewrite Hv|now rewrite Hw].
Qed.

Lemma replied_set (v : string) (f : handler -> handler) :
  (forall h, request_version (f h) = request_version h) ->
  (forall h, wfile (f h) = wfile h) ->
  keeps (replied v) (modify f).
Proof.
  intros Hv Hw. apply keeps_modify. intros h [V W].
  split; [now rewrite Hv|now rewrite Hw].
Qed.

(** A message body after the answer. *)
Lemma replied_write_body (v b : string) :
  keeps (replied v) (modify (wfile_write (message_body b))).
Proof.
  apply keeps_modify. intros h [V W]. split; [exact V|].
  intro Hv. destruct (W Hv) as [d [bodies [E T]]].
  exists d, (bodies ++ [b])%list. split; [|exact T].
  cbn [wfile wfile_write]. rewrite E, map_app. reflexivity.
Qed.

Ltac keeps_step :=
  match goal with
  | |- keeps _ (bind _ _) => apply keeps_bind; [|intro]
  | |- keeps _ (ret _) => apply keeps_ret
  | |- keeps _ get => apply keeps_get
  | |- keeps (replied _) (modify (wfile_write (message_body _))) =>
      apply replied_write_body
  | |- keeps (quiet _) (modify _) => apply quiet_set; reflexivity
  | |- keeps (replied _) (modify _) => apply replied_set; reflexivity
  | H : keeps ?P ?m |- keeps ?P ?m => exact H
  | |- keeps _ (if ?c then _ else _) => destruct c
  | |- keeps _ (match ?x with _ => _ end) => destruct x
  | |- keeps _ (let '(_, _) := ?x in _) => destruct x
  end.

Ltac keeps_auto := repeat keeps_step.

Ltac answers_step :=
  match goal with
  | H : answers ?v ?m |- answers ?v ?m => exact H
  | |- answers _ (bind _ _) =>
      first [ apply answers_after; [solve [keeps_auto; auto]|intro]
            | apply answers_then; [|intro; solve [keeps_auto; auto]] ]
  | |- answers _ (raise _) => apply triple_raise; intros ? [_ ?]; assumption
  | |- answers _ (if ?c then _ else _) => destruct c
  | |- answers _ (match ?x with _ => _ end) => destruct x
  | |- answers _ (let '(_, _) := ?x in _) => destruct x
  end.

Ltac answers_auto := repeat answers_step.

Lemma quiet_send_response_only (v : string) (code : HTTPStatus)
    (message : option string) :
  keeps (quiet v) (BaseHTTPRequestHandler.send_response_only code message).
Proof. unfold BaseHTTPRequestHandler.send_response_only. keeps_auto. Qed.

Lemma quiet_send_header (v keyword value : string) :
  keeps (quiet v) (BaseHTTPRequestHandler.send_header keyword value).
Proof. unfold BaseHTTPRequestHandler.send_header. keeps_auto. Qed.

(** The method of the program gives the answer: under [HTTP/0.9] it writes
    nothing, and else one header block that ends with the isolation
    headers. *)
Lemma answers_COEPHandler_end_headers (v : string) :
  answers v COEPHandler.end_headers.
Proof.
  intros h [V W]. destruct (string_dec (request_version h) "HTTP/0.9") as [Hv|Hv].
  - rewrite (end_headers_silent h Hv). split; [exact V|].
    intro N. congruence.
  - rewrite (end_headers_writes h Hv). split; [exact V|]. intros _.
    cbn [wfile]. rewrite W. eexists _, []. split; [reflexivity|].
    apply join_carries.
Qed.

Section AnswersMethods.

Variable env : Env.
Variable cls : HandlerClass.
Hypothesis cls_answers : forall v, answers v (self_end_headers cls).

Lemma quiet_send_response (v : string) (code : HTTPStatus)
    (message : option string) :
  keeps (quiet v) (BaseHTTPRequestHandler.send_response env code message).
Proof.
  unfold BaseHTTPRequestHandler.send_response.
  pose proof (quiet_send_response_only v). pose proof (quiet_send_header v).
  keeps_auto; auto.
Qed.

Lemma answers_send_error (v : string) (code : HTTPStatus)
    (message explain : option string) :
  answers v (BaseHTTPRequestHandler.send_error env cls code message explain).
Proof.
  unfold BaseHTTPRequestHandler.send_error.
  pose proof (quiet_send_response v). pose proof (quiet_send_header v).
  pose proof (cls_answers v).
  answers_auto.
Qed.


Lemma triple_after_keeps {A B} (P : handler -> Prop) (m : M A) (k : A -> M B)
    (Q : B -> handler -> Prop) (E : handler -> Prop) :
  keeps P m -> (forall a, triple P (k a) Q E) -> triple P (bind m k) Q E.
Proof.
  intros Hm Hk. eapply triple_bind; [|exact Hk].
  eapply triple_weaken; [exact Hm|auto|contradiction].
Qed.

(** An error ends the parsing of a request: it is answered. *)
Lemma refused (v : string) (code : HTTPStatus) (message explain : option string) :
  triple (quiet v)
    (BaseHTTPRequestHandler.send_error env cls code message explain ;;
     ret false)
    (fun (ok : bool) h => if ok then quiet v h else replied v h)
    nothing_sent.
Proof.
  eapply triple_bind; [apply answers_send_error|].
  intro. now apply triple_ret.
Qed.

Lemma parse_request_headers_answers (v : string) (req : request) :
  triple (quiet v)
    (BaseHTTPRequestHandler.parse_request_headers env cls req)
    (fun (ok : bool) h => if ok then quiet v h else replied v h)
    nothing_sent.
Proof.
  unfold BaseHTTPRequestHandler.parse_request_headers.
  destruct (request_headers req) as [fields| |]; [|apply refused..].
  apply triple_after_keeps; [keeps_auto|]. intro.
  apply triple_after_keeps.
  { destruct (_ =? "close")%string; [keeps_auto|].
    rewrite protocol_below_1_1, andb_false_r. keeps_auto. }
  intro. apply triple_after_keeps; [keeps_auto|]. intro h.
  rewrite protocol_below_1_1, andb_false_r. now apply triple_ret.
Qed.

Lemma parse_request_words_answers (v : string) (req : request)
    (requestline : string) (words : list string) :
  triple (quiet v)
    (BaseHTTPRequestHandler.parse_request_words env cls req requestline words)
    (fun (ok : bool) h => if ok then quiet v h else replied v h)
    nothing_sent.
Proof.
  unfold BaseHTTPRequestHandler.parse_request_words.
  destruct (negb _); [apply refused|].
  destruct (_ && negb _).
  { apply triple_after_keeps; [keeps_auto|]. intro. apply refused. }
  apply triple_after_keeps; [keeps_auto|]. intro.
  apply triple_after_keeps; [keeps_auto|]. intro.
  apply triple_after_keeps; [keeps_auto|]. intro.
  apply parse_request_headers_answers.
Qed.

(** [parse_request] on a line that is there and not too long: the request
    version is the one read from the line; the request is accepted and
    nothing is written, or it is refused and, unless the line is blank,
    answered. *)
Lemma parse_request_answers (req : request) :
  (65536 <? Str.len (raw_requestline req)) = false ->
  (raw_requestline req =? "")%string = false ->
  triple nothing_sent
    (BaseHTTPRequestHandler.parse_request env cls req)
    (fun (ok : bool) h =>
       if ok then quiet (version_read req) h
       else request_version h = version_read req
            /\ (Str.words (requestline req) <> [] ->
                replied (version_read req) h))
    nothing_sent.
Proof.
  intros Hl He. unfold version_read. rewrite Hl, He.
  unfold BaseHTTPRequestHandler.parse_request.
  change (Str.rstrip _ (raw_requestline req)) with (requestline req).
  set (words := Str.words (requestline req)).
  eapply triple_bind with (R := fun _ => nothing_sent);
    [now apply triple_modify|intro].
  eapply triple_bind
    with (R := fun _ => quiet BaseHTTPRequestHandler.default_request_version);
    [apply triple_modify; intros h W; now split|intro].
  apply triple_after_keeps; [keeps_auto|]. intro.
  destruct (length words =? 0)%nat eqn:L0.
  { apply triple_ret. intros h [V W].
    replace (3 <=? length words)%nat with false
      by (apply Nat.eqb_eq in L0; now rewrite L0).
    split; [exact V|]. intro N. destruct words; [now contradiction N|discriminate]. }
  assert (F : forall v (ok : bool) h,
             (if ok then quiet v h else replied v h) ->
             if ok then quiet v h
             else request_version h = v /\ (words <> [] -> replied v h)).
  { intros v [|] h H; [exact H|]. split; [exact (proj1 H)|now intros _]. }
  destruct (3 <=? length words)%nat.
  - destruct (BaseHTTPRequestHandler.version_number (last words ""))
      as [[base number]|].
    + rewrite protocol_below_1_1, andb_false_r.
      apply triple_after_keeps; [keeps_auto|]. intro.
      destruct (BaseHTTPRequestHandler.pair_ge number (2, 0)).
      * eapply triple_weaken; [apply refused|apply F|auto].
      * eapply triple_bind with (R := fun _ => quiet (last words ""));
          [apply triple_modify; intros h [V W]; now split|intro].
        eapply triple_weaken;
          [apply parse_request_words_answers|apply F|auto].
    + eapply triple_weaken; [apply refused|apply F|auto].
  - eapply triple_weaken;
      [apply parse_request_words_answers|apply F|auto].
Qed.

End AnswersMethods.

Section AnswersSimple.

Variable env : Env.
Variable cls : HandlerClass.
Hypothesis cls_answers : forall v, answers v (self_end_headers cls).

Lemma answers_list_directory (v path : string) :
  answers v (SimpleHTTPRequestHandler.list_directory env cls path).
Proof.
  unfold SimpleHTTPRequestHandler.list_directory.
  pose proof (quiet_send_response env v). pose proof (quiet_send_header v).
  pose proof (cls_answers v). pose proof (answers_send_error env cls cls_answers v).
  answers_auto; auto.
Qed.

Lemma answers_send_head_file (v path : string) :
  answers v (SimpleHTTPRequestHandler.send_head_file env cls path).
Proof.
  unfold SimpleHTTPRequestHandler.send_head_file.
  pose proof (quiet_send_response env v). pose proof (quiet_send_header v).
  pose proof (cls_answers v). pose proof (answers_send_error env cls cls_answers v).
  answers_auto; auto.
Qed.

Lemma answers_send_head (v : string) :
  answers v (SimpleHTTPRequestHandler.send_head env cls).
Proof.
  unfold SimpleHTTPRequestHandler.send_head.
  pose proof (quiet_send_response env v). pose proof (quiet_send_header v).
  pose proof (cls_answers v). pose proof (answers_send_head_file v).
  pose proof (answers_list_directory v).
  answers_auto; auto.
Qed.

Lemma replied_copyfile (v content : string) :
  keeps (replied v) (SimpleHTTPRequestHandler.copyfile content).
Proof. unfold SimpleHTTPRequestHandler.copyfile. keeps_auto. Qed.

Lemma answers_do_method (v command : string) (method : M unit) :
  SimpleHTTPRequestHandler.do_method env cls command = Some method ->
  answers v method.
Proof.
  unfold SimpleHTTPRequestHandler.do_method.
  pose proof (answers_send_head v). pose proof (replied_copyfile v).
  destruct (command =? "GET")%string;
    [|destruct (command =? "HEAD")%string]; intro E; inversion E; subst;
    unfold SimpleHTTPRequestHandler.do_GET, SimpleHTTPRequestHandler.do_HEAD;
    answers_auto; auto.
Qed.

Lemma blank_line (req : request) :
  raw_requestline req = "" -> Str.words (requestline req) = [].
Proof. unfold requestline. now intros ->. Qed.

(** The first request of a connection: the handler has the request
    version read from the line and, unless the line is blank, has
    answered. *)
Lemma handle_one_request_answers (req : request) :
  triple (quiet "")
    (SimpleHTTPRequestHandler.handle_one_request env cls req)
    (fun _ h =>
       request_version h = version_read req
       /\ (Str.words (requestline req) <> [] ->
           replied (version_read req) h))
    nothing_sent.
Proof.
  unfold SimpleHTTPRequestHandler.handle_one_request.
  pose proof (parse_request_answers env cls cls_answers req) as P.
  unfold version_read in *.
  destruct (65536 <? Str.len (raw_requestline req)).
  { apply triple_after_keeps;
      [apply keeps_modify; intros h [V W]; now split|]. intro.
    apply triple_after_keeps; [keeps_auto|]. intro.
    eapply triple_weaken; [apply (answers_send_error env cls cls_answers)| |auto].
    intros ? h R. split; [exact (proj1 R)|now intros _]. }
  destruct (String.eqb_spec (raw_requestline req) "") as [B|B].
  { apply triple_modify. intros h [V W]. split; [exact V|].
    intro N. now rewrite (blank_line req B) in N. }
  specialize (P eq_refl eq_refl).
  set (v := if (3 <=? _)%nat then _ else _) in *.
  eapply triple_bind;
    [eapply triple_pre; [exact P|intros h [V W]; exact W]|].
  intros [|]; cbv [negb]; [|now apply triple_ret].
  apply triple_after_keeps; [keeps_auto|]. intro h.
  match goal with
  | |- triple _ ?m _ _ => assert (M : answers v m)
  end.
  { destruct (SimpleHTTPRequestHandler.do_method env cls _) as [method|] eqn:E.
    - eapply answers_do_method. exact E.
    - apply (answers_send_error env cls cls_answers). }
  eapply triple_weaken; [exact M| |auto].
  intros ? h' R. split; [exact (proj1 R)|intros _; exact R].
Qed.

End AnswersSimple.

Lemma served_In (events : list event) (rfile : list request) :
  In rfile (served events) -> In (connection rfile) events.
Proof.
  induction events as [|[rf| |] rest IH]; cbn [served]; try contradiction.
  intros [->|H]; [now left|right; now apply IH].
Qed.

(** The handlers of a run are the runs of [handle] on connections that
    arrived. *)
Lemma main_handlers (env : Env) (os : OS) (argv : list string)
    (events : list event) (t : list effect) (s : status) :
  main env os argv events = Some (t, s) ->
  Forall (fun h =>
            exists rfile,
              In (connection rfile) events
              /\ h = snd (SimpleHTTPRequestHandler.handle env COEPHandler.class
                            rfile (SimpleHTTPRequestHandler.init env)))
         (handlers t).
Proof.
  intro E. destruct (main_parsed _ _ _ _ _ _ E)
    as [[e [_ [-> _]]]|[[_ [-> _]]|[[args [_ E']]|[args [_ [-> _]]]]]];
    try constructor.
  destruct (socket_bind os (argparse.bind args) (argparse.port args))
    as [p|e] eqn:B.
  - rewrite (serve_listening_trace env os args events p B) in E'.
    injection E' as <- _.
    change (?a :: ?b :: ?c :: ?d :: ?l ++ ?r)%list
      with ([a; b; c; d] ++ l ++ r)%list.
    rewrite !handlers_app, loop_trace_handlers. cbn [handlers app].
    replace (handlers (if has_interrupt events then _ else _)) with (@nil handler)
      by now destruct (has_interrupt events).
    rewrite app_nil_r. apply Forall_forall. intros h H.
    apply in_map_iff in H as [rfile [<- H]].
    exists rfile. split; [now apply served_In|reflexivity].
  - rewrite (serve_bind_failure env os args events e B) in E'.
    injection E' as <- _. constructor.
Qed.

(** The run of [handle] on a connection. *)
Lemma handle_answers (env : Env) (rfile : list request) :
  isolated_response rfile
    (fst (SimpleHTTPRequestHandler.handle env COEPHandler.class rfile
            (SimpleHTTPRequestHandler.init env)))
    (snd (SimpleHTTPRequestHandler.handle env COEPHandler.class rfile
            (SimpleHTTPRequestHandler.init env))).
Proof.
  split.
  - destruct (sound_handle env COEPHandler.class sound_COEPHandler_end_headers
                rfile (SimpleHTTPRequestHandler.init env))
      as [r [h [E [[_ [new [W F]]] _]]]].
    rewrite E. cbn [snd]. rewrite W. exact F.
  - unfold SimpleHTTPRequestHandler.handle. rewrite bind_modify. unfold bind.
    set (h0 := set_close_connection true (SimpleHTTPRequestHandler.init env)).
    set (req := hd SimpleHTTPRequestHandler.end_of_input rfile).
    pose proof (handle_one_request_answers env COEPHandler.class
                  answers_COEPHandler_end_headers req h0
                  (conj eq_refl eq_refl)) as A.
    pose proof (closing_handle_one_request env COEPHandler.class
                  closing_COEPHandler_end_headers req h0 eq_refl) as C.
    destruct (SimpleHTTPRequestHandler.handle_one_request env _ req h0)
      as [[[]|e] h1]; cbn [fst snd] in *; [|exact A].
    rewrite (handle_loop_closed env COEPHandler.class _ h1 C). cbn [fst snd].
    destruct A as [V R]. split; [exact V|].
    intros N Hv. exact (proj2 (R N) Hv).
Qed.

(** C1 (as the code has it): the isolation headers of the responses.  In
    every run of the program, for every connection a handler has served:
    every header block the handler wrote, whatever the request and the
    status, ends with [Cross-Origin-Opener-Policy: same-origin],
    [Cross-Origin-Embedder-Policy: require-corp] and the blank line.  When
    the handler returns and the first line of the connection is not blank
    and is read under a version other than [HTTP/0.9] (a line of three
    words or more that ends with [HTTP/major.minor], [major] below 2, or a
    line of more than 65536 bytes), what it has sent is one such header
    block, followed by message bodies only.  When the handler raises it
    has sent nothing.  (A request read under [HTTP/0.9] is answered
    without a header block, and so without the two headers.) *)
Theorem header_blocks_carry_isolation_headers (env : Env) (os : OS)
    (argv : list string) (events : list event) (t : list effect) (s : status) :
  main env os argv events = Some (t, s) ->
  Forall (fun h =>
            exists (rfile : list request) (r : result unit),
              In (connection rfile) events
              /\ SimpleHTTPRequestHandler.handle env COEPHandler.class rfile
                   (SimpleHTTPRequestHandler.init env) = (r, h)
              /\ isolated_response rfile r h)
         (handlers t).
Proof.
  intro E. eapply Forall_impl; [|exact (main_handlers _ _ _ _ _ _ E)].
  intros h [rfile [I ->]].
  exists rfile,
    (fst (SimpleHTTPRequestHandler.handle env COEPHandler.class rfile
            (SimpleHTTPRequestHandler.init env))).
  split; [exact I|]. split; [now destruct (SimpleHTTPRequestHandler.handle _ _ _ _)|].
  apply handle_answers.
Qed.

Lemma header_blocks_carry_isolation_headers_witness :
  Forall (fun h =>
            exists (rfile : list request) (r : result unit),
              In (connection rfile)
                 [connection
                    [Sample.request_line "GET /does-not-exist.txt HTTP/1.1" []]]
              /\ SimpleHTTPRequestHandler.handle Sample.env COEPHandler.class
                   rfile (SimpleHTTPRequestHandler.init Sample.env) = (r, h)
              /\ isolated_response rfile r h)
    (handlers
       (fst (serve Sample.env Sample.os argparse.defaults
               [connection
                  [Sample.request_line "GET /does-not-exist.txt HTTP/1.1" []]]))).
Proof.
  apply (header_blocks_carry_isolation_headers Sample.env Sample.os []
           [connection
              [Sample.request_line "GET /does-not-exist.txt HTTP/1.1" []]]
           _ (snd (serve Sample.env Sample.os argparse.defaults
                     [connection
                        [Sample.request_line "GET /does-not-exist.txt HTTP/1.1"
                           []]]))).
  vm_compute. reflexivity.
Defined.

(** C1, against the claim as written: a request in the style of
    [HTTP/0.9], a request line without a version.  The file is served, and
    the missing file is reported, by the body alone: neither response
    carries either header. *)
Lemma simple_request_response_has_no_header :
  Sample.response (Sample.request_line "GET /sample.parquet" [])
  = [message_body "PAR1 sample PAR1"]
  /\ Sample.response (Sample.request_line "GET /does-not-exist.txt" [])
     = [message_body "<p>File not found</p>"]
  /\ Str.contains
       (wire (Sample.response (Sample.request_line "GET /does-not-exist.txt" [])))
       "Cross-Origin-Opener-Policy: same-origin" = false
  /\ Str.contains
       (wire (Sample.response (Sample.request_line "GET /does-not-exist.txt" [])))
       "Cross-Origin-Embedder-Policy: require-corp" = false.
Proof.
  repeat split; vm_compute; reflexivity.
Qed.

(** The run of [handle] on a request for a readable file. *)
Lemma handle_serves_file (env : Env) (req : request)
    (rest : list request) (cmd p version base : string) (number : Z * Z)
    (fields : list (string * string)) (content : string) (mtime : Z) :
  cmd = "GET" \/ cmd = "HEAD" ->
  Str.len (raw_requestline req) <= 65536 ->
  Str.words (requestline req) = [cmd; p; version] ->
  BaseHTTPRequestHandler.version_number version = Some (base, number) ->
  BaseHTTPRequestHandler.pair_ge number (2, 0) = false ->
  version <> "HTTP/0.9" ->
  request_headers req = Headers fields ->
  Str.endswith
    (SimpleHTTPRequestHandler.translate_path env (getcwd env) (request_path p))
    "/" = false ->
  SimpleHTTPRequestHandler.unopenable env
    (SimpleHTTPRequestHandler.translate_path env (getcwd env) (request_path p))
  = false ->
  fs env
    (SimpleHTTPRequestHandler.translate_path env (getcwd env) (request_path p))
  = Some (File (Some content) mtime) ->
  exists h : handler,
    SimpleHTTPRequestHandler.handle env COEPHandler.class (req :: rest)
      (SimpleHTTPRequestHandler.init env) = (Ok tt, h)
    /\ wfile h
       = if SimpleHTTPRequestHandler.not_modified env fields mtime then
           [header_block
              (Str.join
                 [status_line NOT_MODIFIED "Not Modified";
                  header_line "Server" (version_string env);
                  header_line "Date" (date_time_string env None);
                  COOP_line; COEP_line; Str.CRLF])]
         else
           header_block
             (Str.join
                [status_line OK "OK";
                 header_line "Server" (version_string env);
                 header_line "Date" (date_time_string env None);
                 header_line "Content-type"
                   (SimpleHTTPRequestHandler.guess_type env
                      (SimpleHTTPRequestHandler.translate_path env (getcwd env)
                         (request_path p)));
                 header_line "Content-Length" (Str.of_Z (Str.len content));
                 header_line "Last-Modified"
                   (date_time_string env (Some mtime));
                 COOP_line; COEP_line; Str.CRLF])
           :: (if (cmd =? "GET")%string && negb (content =? "")%string
               then [message_body content] else []).
Proof.
  intros Hc Hl Hw Hn H2 Hv Hh Hs Hu Hf.
  unfold SimpleHTTPRequestHandler.handle. rewrite bind_modify.
  cbn [hd tl]. unfold bind at 1.
  rewrite (handle_one_request_parsed env req cmd p version base number fields
             Hl Hw Hn H2 Hh).
  set (h1 := mkHandler (getcwd env) version (Some cmd) (request_path p) fields
               true None []).
  destruct (SimpleHTTPRequestHandler.not_modified env fields mtime) eqn:Hm.
  { assert (E : SimpleHTTPRequestHandler.send_head env COEPHandler.class h1
                = (Ok None,
                   flushed (response_lines env NOT_MODIFIED "Not Modified")
                           h1)).
    { rewrite (send_head_file_path env h1 content mtime Hs Hf).
      now apply (send_head_file_not_modified env _ content mtime). }
    rewrite (do_method_send_head env cmd h1 _ Hc E).
    eexists. split; [apply handle_loop_closed; reflexivity|reflexivity]. }
  assert (E : SimpleHTTPRequestHandler.send_head env COEPHandler.class h1
              = (Ok (Some content),
                 flushed (response_lines env OK "OK"
                          ++ [header_line "Content-type"
                                (SimpleHTTPRequestHandler.guess_type env
                                   (SimpleHTTPRequestHandler.translate_path env
                                      (getcwd env) (request_path p)));
                              header_line "Content-Length"
                                (Str.of_Z (Str.len content));
                              header_line "Last-Modified"
                                (date_time_string env (Some mtime))])%list h1)).
  { rewrite (send_head_file_path env h1 content mtime Hs Hf).
    now apply send_head_file_ok. }
  destruct Hc as [-> | ->].
  - change (SimpleHTTPRequestHandler.do_method env COEPHandler.class "GET")
      with (Some (SimpleHTTPRequestHandler.do_GET env COEPHandler.class)).
    cbv beta iota. unfold SimpleHTTPRequestHandler.do_GET at 1.
    erewrite (bind_ok (SimpleHTTPRequestHandler.send_head _ _)) by exact E.
    unfold SimpleHTTPRequestHandler.copyfile.
    destruct (content =? "")%string.
    + eexists. split; [apply handle_loop_closed; reflexivity|]. reflexivity.
    + unfold modify. eexists.
      split; [apply handle_loop_closed; reflexivity|]. reflexivity.
  - change (SimpleHTTPRequestHandler.do_method env COEPHandler.class "HEAD")
      with (Some (SimpleHTTPRequestHandler.do_HEAD env COEPHandler.class)).
    cbv beta iota. unfold SimpleHTTPRequestHandler.do_HEAD at 1.
    erewrite (bind_ok (SimpleHTTPRequestHandler.send_head _ _)) by exact E.
    unfold ret. eexists.
    split; [apply handle_loop_closed; reflexivity|]. reflexivity.
Qed.

(** C6 (as the code has it): a readable file of the served directory.
    The request is the first of its connection; its line is at most 65536
    bytes long and has three words: [GET] or [HEAD], a path, and a version
    [HTTP/major.minor] with [major] below 2, other than [HTTP/0.9]; its
    headers are read without error (no line of more than 65536 bytes, at
    most 100 headers).  The path is translated to a path that the system
    takes (no null character, encodable), that does not end with a slash
    and that names a file [open] can read.  Then the handler returns and
    the response is one header block: when the request is a conditional
    one that the file satisfies, the status line [304 Not Modified] with
    [Server], [Date] and the two isolation headers, and no body; else the
    status line [200 OK], the headers of the static handler, then the two
    isolation headers and the blank line, followed for [GET] by the
    content of the file, byte for byte (by nothing when the file is
    empty), and for [HEAD] by nothing. *)
Theorem existing_file_is_served (env : Env) (req : request)
    (rest : list request) (cmd p version base : string) (number : Z * Z)
    (fields : list (string * string)) (content : string) (mtime : Z) :
  cmd = "GET" \/ cmd = "HEAD" ->
  Str.len (raw_requestline req) <= 65536 ->
  Str.words (requestline req) = [cmd; p; version] ->
  BaseHTTPRequestHandler.version_number version = Some (base, number) ->
  BaseHTTPRequestHandler.pair_ge number (2, 0) = false ->
  version <> "HTTP/0.9" ->
  request_headers req = Headers fields ->
  Str.endswith
    (SimpleHTTPRequestHandler.translate_path env (getcwd env) (request_path p))
    "/" = false ->
  SimpleHTTPRequestHandler.unopenable env
    (SimpleHTTPRequestHandler.translate_path env (getcwd env) (request_path p))
  = false ->
  fs env
    (SimpleHTTPRequestHandler.translate_path env (getcwd env) (request_path p))
  = Some (File (Some content) mtime) ->
  exists h : handler,
    SimpleHTTPRequestHandler.handle env COEPHandler.class (req :: rest)
      (SimpleHTTPRequestHandler.init env) = (Ok tt, h)
    /\ wfile h
       = if SimpleHTTPRequestHandler.not_modified env fields mtime then
           [header_block
              (Str.join
                 [status_line NOT_MODIFIED "Not Modified";
                  header_line "Server" (version_string env);
                  header_line "Date" (date_time_string env None);
                  COOP_line; COEP_line; Str.CRLF])]
         else
           header_block
             (Str.join
                [status_line OK "OK";
                 header_line "Server" (version_string env);
                 header_line "Date" (date_time_string env None);
                 header_line "Content-type"
                   (SimpleHTTPRequestHandler.guess_type env
                      (SimpleHTTPRequestHandler.translate_path env (getcwd env)
                         (request_path p)));
                 header_line "Content-Length" (Str.of_Z (Str.len content));
                 header_line "Last-Modified"
                   (date_time_string env (Some mtime));
                 COOP_line; COEP_line; Str.CRLF])
           :: (if (cmd =? "GET")%string && negb (content =? "")%string
               then [message_body content] else []).
Proof.
  exact (handle_serves_file env req rest cmd p version base number fields
           content mtime).
Qed.

Lemma existing_file_is_served_witness :
  exists h : handler,
    SimpleHTTPRequestHandler.handle Sample.env COEPHandler.class
      [Sample.request_line "GET /sample.parquet HTTP/1.1" []]
      (SimpleHTTPRequestHandler.init Sample.env) = (Ok tt, h)
    /\ wfile h
       = [header_block
            (Str.join
               [status_line OK "OK";
                header_line "Server" "SimpleHTTP/0.6 Python/3.11.2";
                header_line "Date" "Thu, 01 Jan 2026 00:00:00 GMT";
                header_line "Content-type" "application/octet-stream";
                header_line "Content-Length" "16";
                header_line "Last-Modified" "Thu, 01 Jan 2026 00:00:00 GMT";
                COOP_line; COEP_line; Str.CRLF]);
          message_body "PAR1 sample PAR1"].
Proof.
  apply (existing_file_is_served Sample.env
           (Sample.request_line "GET /sample.parquet HTTP/1.1" []) []
           "GET" "/sample.parquet" "HTTP/1.1" "1.1" (1, 1) []
           "PAR1 sample PAR1" 1700000000);
    first [ left; reflexivity
          | reflexivity
          | vm_compute; discriminate
          | discriminate ].
Defined.

(** C6, against the claim as written: the file exists and is readable,
    but the request is conditional and the file is not newer than the
    time the client gives.  The status is 304, not 200, and the response
    has no body. *)
Lemma conditional_request_is_answered_304 :
  exists d : string,
    Sample.response
      (Sample.request_line "GET /sample.parquet HTTP/1.1"
         [("If-Modified-Since", "Thu, 01 Jan 2026 00:00:00 GMT")])
    = [header_block d]
    /\ Str.startswith d "HTTP/1.0 304 Not Modified" = true
    /\ Str.contains d "PAR1 sample PAR1" = false.
Proof.
  eexists. split; [vm_compute; reflexivity|]. split; vm_compute; reflexivity.
Qed.

Lemma send_head_missing (env : Env) (h : handler) :
  request_version h <> "HTTP/0.9" ->
  SimpleHTTPRequestHandler.unopenable env
    (SimpleHTTPRequestHandler.translate_path env (directory h) (path h))
  = false ->
  fs env (SimpleHTTPRequestHandler.fs_key
            (SimpleHTTPRequestHandler.translate_path env (directory h) (path h)))
  = None ->
  SimpleHTTPRequestHandler.send_head env COEPHandler.class h
  = (Ok None,
     snd (BaseHTTPRequestHandler.send_error env COEPHandler.class NOT_FOUND
            (Some "File not found") None h)).
Proof.
  intros Hv Hu Hf. unfold SimpleHTTPRequestHandler.send_head.
  rewrite bind_get. unfold self_path.
  set (tp := SimpleHTTPRequestHandler.translate_path env (directory h) (path h))
    in *.
  unfold SimpleHTTPRequestHandler.isdir. rewrite Hu, Hf.
  apply send_head_file_not_found; [exact Hv|].
  destruct (Str.endswith tp "/") eqn:Hs; [now left|right].
  split; [exact Hu|]. now rewrite <- (fs_key_no_slash tp Hs).
Qed.

(** C7 (as the code has it): a name the served directory does not hold.
    The request is the first of its connection; its line is at most 65536
    bytes long and has three words: [GET] or [HEAD], a path, and a version
    [HTTP/major.minor] with [major] below 2, other than [HTTP/0.9]; its
    headers are read without error (no line of more than 65536 bytes, at
    most 100 headers).  The path is translated to a path that the system
    takes (no null character, encodable) and that names nothing.  Then the
    handler returns without raising; the response is one header block with
    the status line [404 File not found], the headers of the error and the
    two isolation headers, followed, for [GET], by the page of the error.
    The error stays in this response: the serving loop goes on with the
    events that follow, as after any other connection. *)
Theorem missing_path_is_answered_404 (env : Env) (req : request)
    (rest : list request) (cmd p version base : string) (number : Z * Z)
    (fields : list (string * string)) :
  cmd = "GET" \/ cmd = "HEAD" ->
  Str.len (raw_requestline req) <= 65536 ->
  Str.words (requestline req) = [cmd; p; version] ->
  BaseHTTPRequestHandler.version_number version = Some (base, number) ->
  BaseHTTPRequestHandler.pair_ge number (2, 0) = false ->
  version <> "HTTP/0.9" ->
  request_headers req = Headers fields ->
  SimpleHTTPRequestHandler.unopenable env
    (SimpleHTTPRequestHandler.translate_path env (getcwd env) (request_path p))
  = false ->
  fs env
    (SimpleHTTPRequestHandler.fs_key
       (SimpleHTTPRequestHandler.translate_path env (getcwd env)
          (request_path p)))
  = None ->
  exists h : handler,
    SimpleHTTPRequestHandler.handle env COEPHandler.class (req :: rest)
      (SimpleHTTPRequestHandler.init env) = (Ok tt, h)
    /\ (let page := error_message env 404 "File not found"
                      "Nothing matches the given URI" in
        wfile h
        = header_block
            (Str.join
               [status_line NOT_FOUND "File not found";
                header_line "Server" (version_string env);
                header_line "Date" (date_time_string env None);
                header_line "Connection" "close";
                header_line "Content-Type" "text/html;charset=utf-8";
                header_line "Content-Length" (Str.of_Z (Str.len page));
                COOP_line; COEP_line; Str.CRLF])
          :: (if (cmd =? "GET")%string && negb (page =? "")%string
              then [message_body page] else []))
    /\ forall (n : nat) (events : list event),
         TCPServer.serve_forever env COEPHandler.class true n
           (connection (req :: rest) :: events)
         = (([accepted n; handler_start n; handled n h; handler_end n]
             ++ fst (TCPServer.serve_forever env COEPHandler.class true (S n)
                       events))%list,
            snd (TCPServer.serve_forever env COEPHandler.class true (S n)
                   events)).
Proof.
  intros Hc Hl Hw Hn H2 Hv Hh Hu Hf.
  set (h1 := mkHandler (getcwd env) version (Some cmd) (request_path p) fields
               true None []).
  assert (E : SimpleHTTPRequestHandler.send_head env COEPHandler.class h1
              = (Ok None,
                 snd (BaseHTTPRequestHandler.send_error env COEPHandler.class
                        NOT_FOUND (Some "File not found") None h1)))
    by now apply send_head_missing.
  rewrite send_error_run in E by easy. cbn [snd] in E.
  assert (R : exists h : handler,
             SimpleHTTPRequestHandler.handle env COEPHandler.class (req :: rest)
               (SimpleHTTPRequestHandler.init env) = (Ok tt, h)
             /\ (let page := error_message env 404 "File not found"
                      "Nothing matches the given URI" in
        wfile h
        = header_block
            (Str.join
               [status_line NOT_FOUND "File not found";
                header_line "Server" (version_string env);
                header_line "Date" (date_time_string env None);
                header_line "Connection" "close";
                header_line "Content-Type" "text/html;charset=utf-8";
                header_line "Content-Length" (Str.of_Z (Str.len page));
                COOP_line; COEP_line; Str.CRLF])
          :: (if (cmd =? "GET")%string && negb (page =? "")%string
              then [message_body page] else []))).
  { unfold SimpleHTTPRequestHandler.handle. rewrite bind_modify.
    cbn [hd tl]. unfold bind at 1.
    rewrite (handle_one_request_parsed env req cmd p version base number fields
               Hl Hw Hn H2 Hh).
    fold h1.
    destruct Hc as [-> | ->].
    - change (SimpleHTTPRequestHandler.do_method env COEPHandler.class "GET")
        with (Some (SimpleHTTPRequestHandler.do_GET env COEPHandler.class)).
      cbv beta iota. unfold SimpleHTTPRequestHandler.do_GET at 1.
      erewrite (bind_ok (SimpleHTTPRequestHandler.send_head _ _)) by exact E.
      unfold ret. cbv zeta.
      change (status_value NOT_FOUND) with 404.
      change (snd (responses NOT_FOUND)) with "Nothing matches the given URI".
      cbn [command h1 String.eqb Ascii.eqb Bool.eqb negb andb].
      destruct (negb (_ =? "")%string); eexists;
        (split; [apply handle_loop_closed; reflexivity|reflexivity]).
    - change (SimpleHTTPRequestHandler.do_method env COEPHandler.class "HEAD")
        with (Some (SimpleHTTPRequestHandler.do_HEAD env COEPHandler.class)).
      cbv beta iota. unfold SimpleHTTPRequestHandler.do_HEAD at 1.
      erewrite (bind_ok (SimpleHTTPRequestHandler.send_head _ _)) by exact E.
      unfold ret. cbv zeta.
      cbn [command h1 String.eqb Ascii.eqb Bool.eqb negb andb].
      eexists. split; [apply handle_loop_closed; reflexivity|reflexivity]. }
  destruct R as [h [R1 R2]]. exists h. split; [exact R1|]. split; [exact R2|].
  intros n events. cbn [TCPServer.serve_forever].
  unfold TCPServer.handle_request_noblock, TCPServer.finish_request.
  rewrite R1.
  now destruct (TCPServer.serve_forever env COEPHandler.class true (S n) events).
Qed.

Lemma missing_path_is_answered_404_witness :
  exists h : handler,
    SimpleHTTPRequestHandler.handle Sample.env COEPHandler.class
      [Sample.request_line "GET /does-not-exist.txt HTTP/1.1" []]
      (SimpleHTTPRequestHandler.init Sample.env) = (Ok tt, h)
    /\ (let page := "<p>File not found</p>" in
        wfile h
        = [header_block
             (Str.join
                [status_line NOT_FOUND "File not found";
                 header_line "Server" "SimpleHTTP/0.6 Python/3.11.2";
                 header_line "Date" "Thu, 01 Jan 2026 00:00:00 GMT";
                 header_line "Connection" "close";
                 header_line "Content-Type" "text/html;charset=utf-8";
                 header_line "Content-Length" "21";
                 COOP_line; COEP_line; Str.CRLF]);
           message_body page])
    /\ forall (n : nat) (events : list event),
         TCPServer.serve_forever Sample.env COEPHandler.class true n
           (connection
              [Sample.request_line "GET /does-not-exist.txt HTTP/1.1" []]
            :: events)
         = (([accepted n; handler_start n; handled n h; handler_end n]
             ++ fst (TCPServer.serve_forever Sample.env COEPHandler.class
                       true (S n) events))%list,
            snd (TCPServer.serve_forever Sample.env COEPHandler.class
                   true (S n) events)).
Proof.
  apply (missing_path_is_answered_404 Sample.env
           (Sample.request_line "GET /does-not-exist.txt HTTP/1.1" []) []
           "GET" "/does-not-exist.txt" "HTTP/1.1" "1.1" (1, 1) []);
    first [ left; reflexivity
          | reflexivity
          | vm_compute; discriminate
          | discriminate ].
Defined.

(** C7, against the claim as written: two requests for a path that does
    not exist.  The first is a [POST], a method the handler does not have:
    the status is 501, not 404.  The path of the second holds a null
    character: [open] raises [ValueError], which nothing in the handler
    catches, and the client gets no response at all, no status and no
    header. *)
Lemma missing_path_is_not_always_answered_404 :
  (exists (d : string) (page : string),
     Sample.response
       (Sample.request_line "POST /does-not-exist.txt HTTP/1.1" [])
     = [header_block d; message_body page]
     /\ Str.startswith d "HTTP/1.0 501 Unsupported method ('POST')" = true
     /\ Str.contains d "404" = false)
  /\ Sample.fs ("/srv/a" ++ String Ascii.zero "b") = None
  /\ SimpleHTTPRequestHandler.handle Sample.env COEPHandler.class
       [Sample.request_line ("GET /a" ++ String Ascii.zero "b HTTP/1.1") []]
       (SimpleHTTPRequestHandler.init Sample.env)
     = (Raise ValueError,
        mkHandler "/srv" "HTTP/1.1" (Some "GET")
          ("/a" ++ String Ascii.zero "b") [] true None []).
Proof.
  split; [|split; vm_compute; reflexivity].
  do 2 eexists. split; [vm_compute; reflexivity|].
  split; vm_compute; reflexivity.
Qed.

(** ** The path of a request *)

Lemma prefix_app_l (p s t : string) :
  String.prefix p s = true -> String.prefix p (s ++ t) = true.
Proof.
  revert s. induction p as [|c p IH]; intros s.
  - intros _. now destruct (s ++ t)%string.
  - destruct s as [|d s]; simpl; [easy|].
    destruct (ascii_dec c d); [apply IH|easy].
Qed.

Lemma plain_name_no_slash (w : string) :
  plain_name w = true -> Str.startswith w "/" = false.
Proof.
  unfold plain_name. intro H.
  destruct (Str.startswith w "/") eqn:E; [|reflexivity].
  assert (C : Str.contains w "/" = true).
  { destruct w; cbn [Str.contains]; unfold Str.startswith in E; now rewrite E. }
  rewrite C in H. now rewrite andb_false_r in H.
Qed.

(** Joining a plain name to a path only lengthens the path. *)
Lemma join_plain_name (a w : string) :
  plain_name w = true ->
  posixpath.join a w = (a ++ w)%string \/ posixpath.join a w = (a ++ "/" ++ w)%string.
Proof.
  intro H. unfold posixpath.join. rewrite (plain_name_no_slash w H).
  destruct ((a =? "")%string || Str.endswith a "/"); auto.
Qed.

Lemma fold_join_startswith (names : list string) (a d : string) :
  forallb plain_name names = true ->
  Str.startswith a d = true ->
  Str.startswith (fold_left posixpath.join names a) d = true.
Proof.
  revert a. induction names as [|w names IH]; intros a Hn Ha; [exact Ha|].
  cbn [forallb] in Hn. apply andb_prop in Hn as [Hw Hn].
  cbn [fold_left]. apply IH; [exact Hn|].
  unfold Str.startswith in *.
  destruct (join_plain_name a w Hw) as [-> | ->]; now apply prefix_app_l.
Qed.

(** The loop of [translate_path] joins to the directory the words that are
    names, and drops the others. *)
Lemma translate_words_names (directory : string) (words : list string) :
  SimpleHTTPRequestHandler.translate_words directory
    (filter SimpleHTTPRequestHandler.nonempty words)
  = fold_left posixpath.join (filter plain_name words) directory.
Proof.
  revert directory. induction words as [|w words IH]; intro directory;
    [reflexivity|].
  cbn [filter]. unfold SimpleHTTPRequestHandler.nonempty at 1, plain_name at 1.
  unfold posixpath.has_dirname in *.
  destruct (w =? "")%string; cbn [negb andb]; [apply IH|].
  cbn [SimpleHTTPRequestHandler.translate_words].
  unfold posixpath.has_dirname.
  destruct (Str.contains w "/"); cbn [negb andb orb]; [apply IH|].
  destruct (w =? ".")%string; cbn [negb andb orb]; [apply IH|].
  destruct (w =? "..")%string; cbn [negb andb orb]; [apply IH|].
  cbn [fold_left]. apply IH.
Qed.

Lemma filter_forallb {A} (f : A -> bool) (l : list A) :
  forallb f (filter f l) = true.
Proof.
  induction l as [|a l IH]; [reflexivity|]. cbn [filter].
  destruct (f a) eqn:E; [cbn [forallb]; now rewrite E|exact IH].
Qed.

Lemma join_index_no_slash (a name : string) :
  name = "index.html" \/ name = "index.htm" ->
  Str.endswith (posixpath.join a name) "/" = false.
Proof.
  assert (G : forall x, Str.endswith (x ++ "index.html") "/" = false
                        /\ Str.endswith (x ++ "index.htm") "/" = false).
  { intro x. unfold Str.endswith. rewrite !rev_string_app. now split. }
  intros [-> | ->]; unfold posixpath.join;
    change (Str.startswith _ "/") with false; cbv iota;
    (destruct ((a =? "")%string || Str.endswith a "/");
     [apply G|rewrite <- string_app_assoc; apply G]).
Qed.

(** A string without a slash, a slash: no slash at the end of what they
    end. *)
Lemma no_slash_at_the_end (w y : string) :
  Str.contains w "/" = false -> w <> "" ->
  String.prefix "/" (Str.rev_string w ++ y) = false.
Proof.
  revert y. induction w as [|c r IH]; intros y C N; [contradiction|].
  cbn [Str.contains] in C. apply orb_false_elim in C as [C1 C2].
  cbn [Str.rev_string]. rewrite string_app_assoc.
  destruct r as [|d r].
  - cbn [Str.rev_string append String.prefix].
    destruct (ascii_dec "/" c) as [<-|Hc]; [|reflexivity].
    vm_compute in C1. discriminate.
  - apply IH; [exact C2|discriminate].
Qed.

Lemma plain_name_endswith (x w : string) :
  plain_name w = true -> Str.endswith (x ++ w) "/" = false.
Proof.
  unfold plain_name. intro H.
  apply andb_prop in H as [H _]. apply andb_prop in H as [H _].
  apply andb_prop in H as [N C].
  unfold Str.endswith. rewrite rev_string_app. cbn [Str.rev_string append].
  apply no_slash_at_the_end.
  - now destruct (Str.contains w "/").
  - intros ->. discriminate.
Qed.

Lemma join_below (a w : string) :
  a <> "" -> Str.endswith a "/" = false -> plain_name w = true ->
  posixpath.join a w = (a ++ "/" ++ w)%string.
Proof.
  intros N E H. unfold posixpath.join.
  rewrite (plain_name_no_slash w H), E.
  destruct (String.eqb_spec a ""); [contradiction|reflexivity].
Qed.

Lemma inside_below (root a w : string) :
  inside root a = true -> inside root (a ++ "/" ++ w) = true.
Proof.
  unfold inside, Str.startswith. intro H. apply orb_true_iff. right.
  apply orb_prop in H as [H|H].
  - apply String.eqb_eq in H. subst a.
    rewrite <- string_app_assoc. apply prefix_app.
  - now apply prefix_app_l.
Qed.

Lemma inside_refl (root : string) : inside root root = true.
Proof. unfold inside. now rewrite String.eqb_refl. Qed.

(** Names joined to a directory give a path inside it. *)
Lemma fold_join_inside (root : string) (names : list string) (a : string) :
  forallb plain_name names = true ->
  a <> "" -> Str.endswith a "/" = false -> inside root a = true ->
  fold_left posixpath.join names a <> ""
  /\ Str.endswith (fold_left posixpath.join names a) "/" = false
  /\ inside root (fold_left posixpath.join names a) = true.
Proof.
  revert a. induction names as [|w names IH]; intros a Hn N E I; [auto|].
  cbn [forallb] in Hn. apply andb_prop in Hn as [Hw Hn].
  cbn [fold_left]. rewrite (join_below a w N E Hw).
  apply IH; [exact Hn| | |].
  - destruct a; [contradiction|discriminate].
  - rewrite <- string_app_assoc. now apply plain_name_endswith.
  - now apply inside_below.
Qed.

(** [translate_path] gives a path inside the directory, with one slash
    after it at most. *)
Lemma translate_path_inside (env : Env) (root p : string) :
  root <> "" -> Str.endswith root "/" = false ->
  exists a : string,
    (SimpleHTTPRequestHandler.translate_path env root p = a
     \/ SimpleHTTPRequestHandler.translate_path env root p = (a ++ "/")%string)
    /\ a <> "" /\ Str.endswith a "/" = false /\ inside root a = true.
Proof.
  intros N E. unfold SimpleHTTPRequestHandler.translate_path.
  set (words := Str.split "/" _).
  set (trailing := Str.endswith _ "/").
  rewrite translate_words_names.
  exists (fold_left posixpath.join (filter plain_name words) root).
  split; [destruct trailing; auto|].
  apply fold_join_inside; auto using filter_forallb, inside_refl.
Qed.

Lemma fs_key_slash (a : string) :
  a <> "" -> Str.endswith a "/" = false ->
  SimpleHTTPRequestHandler.fs_key (a ++ "/") = a.
Proof.
  intros N E. rewrite <- (fs_key_no_slash a E) at 2.
  unfold SimpleHTTPRequestHandler.fs_key, Str.rstrip.
  rewrite rev_string_app. cbn [Str.rev_string append Str.lstrip].
  change (Ascii.eqb "/" "/") with true. cbv iota.
  destruct a; [contradiction|]. reflexivity.
Qed.

Lemma bind_agree {A B} (m m' : M A) (k k' : A -> M B) (h : handler) :
  m h = m' h ->
  (forall a h1, m' h = (Ok a, h1) -> k a h1 = k' a h1) ->
  bind m k h = bind m' k' h.
Proof.
  intros Hm Hk. unfold bind. rewrite Hm.
  destruct (m' h) as [[a|e] h1]; [now apply Hk|reflexivity].
Qed.

(** What a method returns serves the directory it started with. *)
Lemma sound_directory {A} (m : M A) (h h1 : handler) (r : result A) :
  sound m -> m h = (r, h1) -> directory h1 = directory h.
Proof.
  intros S E. destruct (S h) as [r' [h' [E' [[D _] _]]]]. congruence.
Qed.

Section OutsideTheDirectory.

Variable env : Env.
Variable fs' : string -> option node.
Hypothesis root_not_empty : getcwd env <> "".
Hypothesis root_no_slash : Str.endswith (getcwd env) "/" = false.
Hypothesis agree :
  forall p : string, inside (getcwd env) p = true -> fs' p = fs env p.

Lemma isdir_agree (a : string) :
  inside (getcwd env) (SimpleHTTPRequestHandler.fs_key a) = true ->
  SimpleHTTPRequestHandler.isdir (with_fs env fs') a
  = SimpleHTTPRequestHandler.isdir env a.
Proof.
  intro I. unfold SimpleHTTPRequestHandler.isdir.
  change (SimpleHTTPRequestHandler.unopenable (with_fs env fs') a)
    with (SimpleHTTPRequestHandler.unopenable env a).
  cbn [fs with_fs]. now rewrite (agree _ I).
Qed.

Lemma isfile_agree (a : string) :
  inside (getcwd env) (SimpleHTTPRequestHandler.fs_key a) = true ->
  SimpleHTTPRequestHandler.isfile (with_fs env fs') a
  = SimpleHTTPRequestHandler.isfile env a.
Proof.
  intro I. unfold SimpleHTTPRequestHandler.isfile.
  change (SimpleHTTPRequestHandler.unopenable (with_fs env fs') a)
    with (SimpleHTTPRequestHandler.unopenable env a).
  cbn [fs with_fs]. now rewrite (agree _ I).
Qed.

Lemma send_head_file_agree (cls : HandlerClass) (a : string) (h : handler) :
  Str.endswith a "/" = true \/ inside (getcwd env) a = true ->
  SimpleHTTPRequestHandler.send_head_file (with_fs env fs') cls a h
  = SimpleHTTPRequestHandler.send_head_file env cls a h.
Proof.
  intro I. unfold SimpleHTTPRequestHandler.send_head_file.
  change (SimpleHTTPRequestHandler.unopenable (with_fs env fs') a)
    with (SimpleHTTPRequestHandler.unopenable env a).
  destruct (Str.endswith a "/"); [reflexivity|].
  destruct I as [I|I]; [discriminate|].
  destruct (SimpleHTTPRequestHandler.unopenable env a); [reflexivity|].
  cbn [fs with_fs]. rewrite (agree _ I). reflexivity.
Qed.

Lemma list_directory_agree (cls : HandlerClass) (a : string) (h : handler) :
  inside (getcwd env) (SimpleHTTPRequestHandler.fs_key a) = true ->
  SimpleHTTPRequestHandler.list_directory (with_fs env fs') cls a h
  = SimpleHTTPRequestHandler.list_directory env cls a h.
Proof.
  intro I. unfold SimpleHTTPRequestHandler.list_directory.
  change (SimpleHTTPRequestHandler.unopenable (with_fs env fs') a)
    with (SimpleHTTPRequestHandler.unopenable env a).
  destruct (SimpleHTTPRequestHandler.unopenable env a); [reflexivity|].
  cbn [fs with_fs]. rewrite (agree _ I). reflexivity.
Qed.

(** The index file of a path inside the directory is inside it. *)
Lemma index_inside (a tp name : string) :
  tp = a \/ tp = (a ++ "/")%string ->
  a <> "" -> Str.endswith a "/" = false -> inside (getcwd env) a = true ->
  name = "index.html" \/ name = "index.htm" ->
  inside (getcwd env) (posixpath.join tp name) = true
  /\ SimpleHTTPRequestHandler.fs_key (posixpath.join tp name)
     = posixpath.join tp name.
Proof.
  intros T N E I Hn.
  assert (J : posixpath.join tp name = (a ++ "/" ++ name)%string).
  { unfold posixpath.join.
    replace (Str.startswith name "/") with false
      by (destruct Hn as [-> | ->]; reflexivity).
    destruct T as [-> | ->].
    - rewrite E. destruct (String.eqb_spec a ""); [contradiction|reflexivity].
    - rewrite endswith_app, orb_true_r. apply string_app_assoc. }
  split.
  - rewrite J. now apply inside_below.
  - apply fs_key_no_slash. now apply join_index_no_slash.
Qed.

Lemma send_head_agree (cls : HandlerClass) (h : handler) :
  directory h = getcwd env ->
  SimpleHTTPRequestHandler.send_head (with_fs env fs') cls h
  = SimpleHTTPRequestHandler.send_head env cls h.
Proof.
  intro D. unfold SimpleHTTPRequestHandler.send_head. rewrite !bind_get.
  change (SimpleHTTPRequestHandler.translate_path (with_fs env fs'))
    with (SimpleHTTPRequestHandler.translate_path env).
  rewrite D.
  destruct (translate_path_inside env (getcwd env) (self_path h)
              root_not_empty root_no_slash) as [a [T [N [E I]]]].
  set (tp := SimpleHTTPRequestHandler.translate_path env (getcwd env)
               (self_path h)) in *.
  assert (K : SimpleHTTPRequestHandler.fs_key tp = a).
  { destruct T as [-> | ->];
      [now apply fs_key_no_slash|now apply fs_key_slash]. }
  rewrite isdir_agree by now rewrite K.
  destruct (index_inside a tp "index.html" T N E I (or_introl eq_refl))
    as [I1 K1].
  destruct (index_inside a tp "index.htm" T N E I (or_intror eq_refl))
    as [I2 K2].
  rewrite !isfile_agree by now rewrite ?K1, ?K2.
  destruct (SimpleHTTPRequestHandler.isdir env tp).
  - destruct (negb _); [reflexivity|].
    destruct (SimpleHTTPRequestHandler.isfile env _);
      [now apply send_head_file_agree; right|].
    destruct (SimpleHTTPRequestHandler.isfile env _);
      [now apply send_head_file_agree; right|].
    apply list_directory_agree. now rewrite K.
  - apply send_head_file_agree.
    destruct T as [T|T]; [right; now rewrite T|left].
    rewrite T. apply endswith_app.
Qed.

Lemma handle_one_request_agree (req : request) (h : handler) :
  directory h = getcwd env ->
  SimpleHTTPRequestHandler.handle_one_request (with_fs env fs')
    COEPHandler.class req h
  = SimpleHTTPRequestHandler.handle_one_request env COEPHandler.class req h.
Proof.
  intro D. unfold SimpleHTTPRequestHandler.handle_one_request.
  destruct (65536 <? Str.len (raw_requestline req)); [reflexivity|].
  destruct (raw_requestline req =? "")%string; [reflexivity|].
  apply bind_agree; [reflexivity|]. intros ok h1 P.
  destruct ok; [|reflexivity]. cbv [negb]. rewrite !bind_get.
  assert (D1 : directory h1 = getcwd env).
  { rewrite <- D.
    exact (sound_directory _ _ _ _
             (sound_parse_request env COEPHandler.class
                sound_COEPHandler_end_headers req) P). }
  unfold SimpleHTTPRequestHandler.do_method.
  destruct (_ =? "GET")%string;
    [|destruct (_ =? "HEAD")%string; [|reflexivity]];
    unfold SimpleHTTPRequestHandler.do_GET, SimpleHTTPRequestHandler.do_HEAD;
    (apply bind_agree; [now apply send_head_agree|reflexivity]).
Qed.

Lemma handle_loop_agree (rfile : list request) (h : handler) :
  directory h = getcwd env ->
  SimpleHTTPRequestHandler.handle_loop (with_fs env fs') COEPHandler.class
    rfile h
  = SimpleHTTPRequestHandler.handle_loop env COEPHandler.class rfile h.
Proof.
  revert h. induction rfile as [|req rest IH]; intros h D;
    cbn [SimpleHTTPRequestHandler.handle_loop]; rewrite !bind_get;
    (destruct (close_connection h); [reflexivity|]).
  - now apply handle_one_request_agree.
  - apply bind_agree; [now apply handle_one_request_agree|].
    intros a h1 E. apply IH. rewrite <- D.
    exact (sound_directory _ _ _ _
             (sound_handle_one_request env COEPHandler.class
                sound_COEPHandler_end_headers req) E).
Qed.

Lemma handle_agree (rfile : list request) :
  SimpleHTTPRequestHandler.handle (with_fs env fs') COEPHandler.class rfile
    (SimpleHTTPRequestHandler.init (with_fs env fs'))
  = SimpleHTTPRequestHandler.handle env COEPHandler.class rfile
      (SimpleHTTPRequestHandler.init env).
Proof.
  change (SimpleHTTPRequestHandler.init (with_fs env fs'))
    with (SimpleHTTPRequestHandler.init env).
  unfold SimpleHTTPRequestHandler.handle. rewrite !bind_modify.
  apply bind_agree; [now apply handle_one_request_agree|].
  intros a h1 E. apply handle_loop_agree.
  exact (sound_directory _ _ _ _
           (sound_handle_one_request env COEPHandler.class
              sound_COEPHandler_end_headers _) E).
Qed.

End OutsideTheDirectory.

(** C5 (as the code has it): nothing outside the served directory is
    looked at.  The served directory is not the root of the file system
    (its name is not empty and does not end with a slash).  Whatever the
    path of a request, the path the handler looks up is the served
    directory with names joined to it, one by one: the components of the
    path once unquoted and normalised by [posixpath.normpath] (which
    resolves a [..] against the component before it) that are not empty,
    not [.] or [..] and hold no slash; with at most one slash at the very
    end.  So the path stays inside the served directory, and the handler
    answers by what that path names there: whatever the files outside the
    directory are, and whether they are there at all, what the handler
    does on a connection, status, headers and body, is the same.  (A
    symbolic link is not modelled: a link inside the directory is served
    as the file it stands for.) *)
Theorem translated_path_stays_under_the_directory (env : Env)
    (fs' : string -> option node) (rfile : list request) (p : string) :
  getcwd env <> "" ->
  Str.endswith (getcwd env) "/" = false ->
  (forall q : string, inside (getcwd env) q = true -> fs' q = fs env q) ->
  SimpleHTTPRequestHandler.handle (with_fs env fs') COEPHandler.class rfile
    (SimpleHTTPRequestHandler.init (with_fs env fs'))
  = SimpleHTTPRequestHandler.handle env COEPHandler.class rfile
      (SimpleHTTPRequestHandler.init env)
  /\ (let names :=
        filter plain_name
          (Str.split "/"
             (posixpath.normpath
                (unquote env (Str.before "#" (Str.before "?" p))))) in
      exists slash : string,
        (slash = "" \/ slash = "/")
        /\ SimpleHTTPRequestHandler.translate_path env (getcwd env) p
           = (fold_left posixpath.join names (getcwd env) ++ slash)%string
        /\ inside (getcwd env)
             (SimpleHTTPRequestHandler.fs_key
                (SimpleHTTPRequestHandler.translate_path env (getcwd env) p))
           = true).
Proof.
  intros N E A. split; [now apply handle_agree|].
  cbv zeta. unfold SimpleHTTPRequestHandler.translate_path.
  set (words := Str.split "/" _).
  set (trailing := Str.endswith _ "/").
  rewrite translate_words_names.
  exists (if trailing then "/" else "").
  split; [destruct trailing; auto|].
  destruct (fold_join_inside (getcwd env) (filter plain_name words)
              (getcwd env) (filter_forallb _ _) N E (inside_refl _))
    as [N1 [E1 I1]].
  destruct trailing.
  - split; [reflexivity|]. now rewrite fs_key_slash.
  - rewrite string_app_nil_r. split; [reflexivity|].
    now rewrite fs_key_no_slash.
Qed.

Lemma translated_path_stays_under_the_directory_witness :
  SimpleHTTPRequestHandler.handle
    (with_fs Sample.env
       (fun q => if inside "/srv" q then Sample.fs q else None))
    COEPHandler.class
    [Sample.request_line "GET /../../etc/passwd HTTP/1.1" []]
    (SimpleHTTPRequestHandler.init
       (with_fs Sample.env
          (fun q => if inside "/srv" q then Sample.fs q else None)))
  = SimpleHTTPRequestHandler.handle Sample.env COEPHandler.class
      [Sample.request_line "GET /../../etc/passwd HTTP/1.1" []]
      (SimpleHTTPRequestHandler.init Sample.env)
  /\ exists slash : string,
       (slash = "" \/ slash = "/")
       /\ SimpleHTTPRequestHandler.translate_path Sample.env "/srv"
            "/../../etc/passwd"
          = (fold_left posixpath.join ["etc"; "passwd"] "/srv" ++ slash)%string
       /\ inside "/srv"
            (SimpleHTTPRequestHandler.fs_key
               (SimpleHTTPRequestHandler.translate_path Sample.env "/srv"
                  "/../../etc/passwd"))
          = true.
Proof.
  apply (translated_path_stays_under_the_directory Sample.env
           (fun q => if inside "/srv" q then Sample.fs q else None)
           [Sample.request_line "GET /../../etc/passwd HTTP/1.1" []]
           "/../../etc/passwd").
  - discriminate.
  - reflexivity.
  - intros q H. cbn [getcwd Sample.env] in H. now rewrite H.
Defined.

(** C5, against the claim as written: the served directory holds a file
    [etc/passwd] of its own.  The request for [/../../etc/passwd] is
    answered with status 200 and the content of that file (not the one of
    [/etc/passwd] outside the directory): no error status.  And a [..]
    inside the path is resolved, not refused: [/etc/../sample.parquet] is
    the file [sample.parquet] of the directory. *)
Lemma traversal_request_is_answered_200 :
  SimpleHTTPRequestHandler.translate_path Sample.env "/srv" "/../../etc/passwd"
  = "/srv/etc/passwd"
  /\ (exists d : string,
        Sample.response
          (Sample.request_line "GET /../../etc/passwd HTTP/1.1" [])
        = [header_block d; message_body "inside the root"]
        /\ Str.startswith d "HTTP/1.0 200 OK" = true)
  /\ SimpleHTTPRequestHandler.translate_path Sample.env "/srv"
       "/etc/../sample.parquet"
     = "/srv/sample.parquet"
  /\ exists d : string,
       Sample.response
         (Sample.request_line "GET /etc/../sample.parquet HTTP/1.1" [])
       = [header_block d; message_body "PAR1 sample PAR1"]
       /\ Str.startswith d "HTTP/1.0 200 OK" = true.
Proof.
  split; [vm_compute; reflexivity|].
  split; [eexists; split; vm_compute; reflexivity|].
  split; [vm_compute; reflexivity|].
  eexists. split; vm_compute; reflexivity.
Qed.

(** ** The file of a name *)

Lemma prefix_empty (s : string) : String.prefix "" s = true.
Proof. now destruct s. Qed.

(** A character that is not in a string is not its first. *)
Lemma contains_first (c d : ascii) (r : string) :
  Str.contains (String d r) (String c "") = false ->
  Ascii.eqb d c = false /\ Str.contains r (String c "") = false.
Proof.
  cbn [Str.contains]. intro H. apply orb_false_elim in H as [H1 H2].
  split; [|exact H2].
  destruct (Ascii.eqb_spec d c) as [->|]; [|reflexivity].
  cbn [String.prefix] in H1. destruct (ascii_dec c c) as [_|N]; [|now elim N].
  now rewrite prefix_empty in H1.
Qed.

Lemma before_absent (c : ascii) (s : string) :
  Str.contains s (String c "") = false -> Str.before c s = s.
Proof.
  induction s as [|d r IH]; [reflexivity|]. intro H.
  destruct (contains_first c d r H) as [E C].
  cbn [Str.before]. now rewrite E, IH.
Qed.

Lemma split_absent (c : ascii) (s : string) :
  Str.contains s (String c "") = false -> Str.split c s = [s].
Proof.
  induction s as [|d r IH]; [reflexivity|]. intro H.
  destruct (contains_first c d r H) as [E C].
  cbn [Str.split]. now rewrite E, IH.
Qed.

(** The path of a plain name is normal already. *)
Lemma normpath_plain_name (w : string) :
  plain_name w = true -> posixpath.normpath ("/" ++ w) = ("/" ++ w)%string.
Proof.
  intro H. pose proof (plain_name_no_slash w H) as S.
  unfold plain_name in H.
  apply andb_prop in H as [H N2]. apply andb_prop in H as [H N1].
  apply andb_prop in H as [N0 C].
  apply negb_true_iff in N0, C, N1, N2.
  unfold posixpath.normpath.
  change (("/" ++ w =? "")%string) with false. cbv iota.
  assert (S1 : Str.startswith ("/" ++ w) "/" = true).
  { unfold Str.startswith. cbn [append String.prefix].
    destruct (ascii_dec "/" "/") as [_|N]; [apply prefix_empty|now elim N]. }
  assert (S2 : Str.startswith ("/" ++ w) "//" = false).
  { unfold Str.startswith in *. cbn [append String.prefix].
    destruct (ascii_dec "/" "/") as [_|N]; [exact S|now elim N]. }
  rewrite S1, S2. cbn [andb Nat.eqb negb].
  cbn [append Str.split]. change (Ascii.eqb "/" "/") with true. cbv iota.
  rewrite (split_absent "/" w C).
  cbn [posixpath.normpath_loop String.eqb orb]. rewrite N0, N1, N2.
  cbn [orb negb rev app Str.join_with String.concat].
  reflexivity.
Qed.

(** The path of a plain name is translated to the file of that name in
    the directory. *)
Lemma translate_path_plain_name (env : Env) (root w : string) :
  root <> "" -> Str.endswith root "/" = false ->
  plain_name w = true ->
  Str.contains w "?" = false -> Str.contains w "#" = false ->
  unquote env ("/" ++ w) = ("/" ++ w)%string ->
  Str.endswith (Str.rstrip Str.isspace ("/" ++ w)) "/" = false ->
  request_path ("/" ++ w) = ("/" ++ w)%string
  /\ SimpleHTTPRequestHandler.translate_path env root ("/" ++ w)
     = (root ++ "/" ++ w)%string.
Proof.
  intros N E H Q F U T. split.
  - unfold request_path.
    replace (Str.startswith ("/" ++ w) "//") with false; [reflexivity|].
    symmetry. pose proof (plain_name_no_slash w H) as S.
    unfold Str.startswith in *. cbn [append String.prefix].
    destruct (ascii_dec "/" "/") as [_|X]; [exact S|now elim X].
  - unfold SimpleHTTPRequestHandler.translate_path.
    assert (B : Str.before "#" (Str.before "?" ("/" ++ w)) = ("/" ++ w)%string).
    { cbn [append Str.before]. change (Ascii.eqb "/" "?") with false.
      cbv iota. rewrite (before_absent "?" w Q).
      cbn [Str.before]. change (Ascii.eqb "/" "#") with false.
      cbv iota. now rewrite (before_absent "#" w F). }
    rewrite B, T, U, (normpath_plain_name w H), translate_words_names.
    cbn [append Str.split]. change (Ascii.eqb "/" "/") with true. cbv iota.
    assert (C : Str.contains w "/" = false).
    { unfold plain_name in H. destruct (Str.contains w "/"); [|reflexivity].
      now rewrite andb_false_r in H. }
    rewrite (split_absent "/" w C). cbn [filter].
    change (plain_name "") with false. cbv iota. rewrite H.
    cbn [fold_left]. now apply join_below.
Qed.

(** C9: the served root is the working directory of the process.
    Whatever the command line, the environment and what arrives: every
    handler of a run serves [os.getcwd()], and when the server listens
    there is one handler for each connection that arrives before the
    interrupt (and before the working directory is removed, after which
    [os.getcwd()] raises and a connection gets no handler), which does
    what [handle] does in the working directory.  What it serves under a
    name is the file of that name in the working directory: a [GET] or
    [HEAD] request of HTTP/1.x for [/name], where [name] is a plain name
    written without escapes, query or fragment, is answered with the file
    [name] of the working directory, when it is a file that can be read.
    No argument selects another directory, and nothing checks the
    directory at startup: with no connection yet, the run is the same in
    every environment, readable directory or not. *)
Theorem served_root_is_working_directory (env : Env) (os : OS)
    (argv : list string) (events : list event) (t : list effect) (s : status) :
  main env os argv events = Some (t, s) ->
  Forall (fun h => directory h = getcwd env) (handlers t)
  /\ (s = serving \/ s = killed SIGINT ->
      handlers t
      = map (fun rfile =>
               snd (SimpleHTTPRequestHandler.handle env COEPHandler.class
                      rfile (SimpleHTTPRequestHandler.init env)))
            (served events))
  /\ (forall (req : request) (rest : list request)
        (cmd w version base : string) (number : Z * Z)
        (fields : list (string * string)) (content : string) (mtime : Z),
        cmd = "GET" \/ cmd = "HEAD" ->
        Str.len (raw_requestline req) <= 65536 ->
        Str.words (requestline req) = [cmd; "/" ++ w; version] ->
        BaseHTTPRequestHandler.version_number version = Some (base, number) ->
        BaseHTTPRequestHandler.pair_ge number (2, 0) = false ->
        version <> "HTTP/0.9" ->
        request_headers req = Headers fields ->
        plain_name w = true ->
        Str.contains w "?" = false -> Str.contains w "#" = false ->
        unquote env ("/" ++ w) = "/" ++ w ->
        Str.endswith (Str.rstrip Str.isspace ("/" ++ w)) "/" = false ->
        getcwd env <> "" -> Str.endswith (getcwd env) "/" = false ->
        SimpleHTTPRequestHandler.unopenable env (getcwd env ++ "/" ++ w)
        = false ->
        fs env (getcwd env ++ "/" ++ w) = Some (File (Some content) mtime) ->
        exists h : handler,
          SimpleHTTPRequestHandler.handle env COEPHandler.class (req :: rest)
            (SimpleHTTPRequestHandler.init env) = (Ok tt, h)
          /\ wfile h
             = if SimpleHTTPRequestHandler.not_modified env fields mtime then
                 [header_block
                    (Str.join
                       [status_line NOT_MODIFIED "Not Modified";
                        header_line "Server" (version_string env);
                        header_line "Date" (date_time_string env None);
                        COOP_line; COEP_line; Str.CRLF])]
               else
                 header_block
                   (Str.join
                      [status_line OK "OK";
                       header_line "Server" (version_string env);
                       header_line "Date" (date_time_string env None);
                       header_line "Content-type"
                         (SimpleHTTPRequestHandler.guess_type env
                            (getcwd env ++ "/" ++ w));
                       header_line "Content-Length"
                         (Str.of_Z (Str.len content));
                       header_line "Last-Modified"
                         (date_time_string env (Some mtime));
                       COOP_line; COEP_line; Str.CRLF])
                 :: (if (cmd =? "GET")%string && negb (content =? "")%string
                     then [message_body content] else []))
  /\ forall env' : Env, main env' os argv [] = main env os argv [].
Proof.
  intro E. split; [|split; [|split]].
  - destruct (main_trace _ _ _ _ _ _ E) as [_ F].
    eapply Forall_impl; [|exact F]. now intros h [D _].
  - intro Hs. destruct (main_parsed _ _ _ _ _ _ E)
      as [[e [_ [_ ->]]]|[[_ [_ ->]]|[[args [_ E']]|[args [_ [_ ->]]]]]];
      try (destruct Hs; discriminate).
    destruct (socket_bind os (argparse.bind args) (argparse.port args))
      as [p|e] eqn:B.
    + rewrite (serve_listening_trace env os args events p B) in E'.
      injection E' as <- _.
      change (?a :: ?b :: ?c :: ?d :: ?l ++ ?r)%list
        with ([a; b; c; d] ++ l ++ r)%list.
      rewrite !handlers_app, loop_trace_handlers. cbn [handlers app].
      destruct (has_interrupt events); cbn [handlers]; now rewrite app_nil_r.
    + rewrite (serve_bind_failure env os args events e B) in E'.
      injection E' as _ <-. destruct Hs; discriminate.
  - intros req rest cmd w version base number fields content mtime
      Hc Hl Hw Hn H2 Hv Hh Hp Hq Hf Hu Ht N Es Ho Hfs.
    destruct (translate_path_plain_name env (getcwd env) w N Es Hp Hq Hf Hu Ht)
      as [R T].
    assert (Hsl : Str.endswith (getcwd env ++ "/" ++ w) "/" = false).
    { rewrite <- string_app_assoc. now apply plain_name_endswith. }
    pose proof (handle_serves_file env req rest cmd ("/" ++ w) version base
                  number fields content mtime Hc Hl Hw Hn H2 Hv Hh) as S.
    rewrite R, T in S. exact (S Hsl Ho Hfs).
  - intro env'. apply main_startup_env.
Qed.

Lemma served_root_is_working_directory_witness :
  Forall (fun h => directory h = "/srv")
    (handlers
       (fst (serve Sample.env Sample.os (argparse.mkNamespace 9000 "127.0.0.1")
               [connection [Sample.request_line "GET / HTTP/1.0" []]]))).
Proof.
  apply (served_root_is_working_directory Sample.env Sample.os
           ["--port"; "9000"]
           [connection [Sample.request_line "GET / HTTP/1.0" []]]
           _ (snd (serve Sample.env Sample.os
                     (argparse.mkNamespace 9000 "127.0.0.1")
                     [connection [Sample.request_line "GET / HTTP/1.0" []]]))).
  vm_compute. reflexivity.
Defined.

(** * Further properties of the program *)

(** ** The serving loop, event by event *)

(** X1: the listening socket is open exactly while the server serves.
    At the end of every run of the program, the process still holds its
    socket if and only if it is waiting for connections: on every exit, by
    a usage error, a failed bind or the interrupt, the socket was never
    created or has been closed. *)
Theorem socket_is_open_only_while_serving (env : Env) (os : OS)
    (argv : list string) (events : list event) (t : list effect) (s : status) :
  main env os argv events = Some (t, s) ->
  socket_open t = match s with serving => true | _ => false end.
Proof.
  intro E. destruct (main_parsed _ _ _ _ _ _ E)
    as [[e [_ [-> ->]]]|[[_ [-> ->]]|[[args [_ E']]|[args [_ [-> ->]]]]]];
    try reflexivity.
  destruct (socket_bind os (argparse.bind args) (argparse.port args))
    as [p|e] eqn:B.
  - rewrite (serve_listening_trace env os args events p B) in E'.
    injection E' as <- <-. unfold socket_open.
    change (?a :: ?b :: ?c :: ?d :: ?l ++ ?r)%list
      with ([a; b; c; d] ++ l ++ r)%list.
    rewrite !socket_open_from_app.
    rewrite (proj2 (loop_trace_quiet env true 0 events _)).
    now destruct (has_interrupt events).
  - rewrite (serve_bind_failure env os args events e B) in E'.
    now injection E' as <- <-.
Qed.

Lemma socket_is_open_only_while_serving_witness :
  socket_open
    (fst (serve Sample.env Sample.os argparse.defaults
            [connection [Sample.request_line "GET / HTTP/1.0" []]; interrupt]))
  = false.
Proof.
  apply (socket_is_open_only_while_serving Sample.env Sample.os []
           [connection [Sample.request_line "GET / HTTP/1.0" []]; interrupt]
           _ (snd (serve Sample.env Sample.os argparse.defaults
                     [connection [Sample.request_line "GET / HTTP/1.0" []];
                      interrupt]))).
  vm_compute. reflexivity.
Defined.

(** X2: a run that ends with status 2 or status 0 has touched no socket.
    These are the exits of the argument parser (usage error, [--help]):
    when the process ends with one of them, no socket was created, bound
    or closed, and no connection was accepted. *)
Theorem parser_exits_touch_no_socket (env : Env) (os : OS)
    (argv : list string) (events : list event) (t : list effect) (s : status) :
  main env os argv events = Some (t, s) ->
  s = exited 2 \/ s = exited 0 ->
  existsb is_socket_operation t = false /\ handlers t = [].
Proof.
  intros E Hs. destruct (main_parsed _ _ _ _ _ _ E)
    as [[e [_ [-> _]]]|[[_ [-> _]]|[[args [_ E']]|[args [_ [_ ->]]]]]];
    try (split; reflexivity); [|destruct Hs; discriminate].
  exfalso.
  destruct (socket_bind os (argparse.bind args) (argparse.port args))
    as [p|e] eqn:B.
  - rewrite (serve_listening_trace env os args events p B) in E'.
    injection E' as _ <-.
    destruct (has_interrupt events); destruct Hs; discriminate.
  - rewrite (serve_bind_failure env os args events e B) in E'.
    injection E' as _ <-. destruct Hs; discriminate.
Qed.

Lemma parser_exits_touch_no_socket_witness :
  existsb is_socket_operation [stderr (usage_error (argparse.invalid_int_value "x"))]
  = false
  /\ handlers [stderr (usage_error (argparse.invalid_int_value "x"))] = [].
Proof.
  apply (parser_exits_touch_no_socket Sample.env Sample.os ["-p"; "x"]
           [connection []] _ (exited 2)).
  - vm_compute. reflexivity.
  - left. reflexivity.
Defined.

(** X3: the line [Serving at http://bind:port] is printed once, and only
    by a server that listens.  When the arguments are accepted, the lines
    on the standard output are that one line, with the address and the
    port as they were given, if [bind] succeeded, and there is none if it
    failed; the line comes after the socket listens and before the first
    connection is accepted. *)
Theorem serving_line_is_printed_once (env : Env) (os : OS)
    (argv : list string) (events : list event) (args : argparse.Namespace)
    (t : list effect) (s : status) :
  argparse.parse_args argv = Some (argparse.parsed args) ->
  main env os argv events = Some (t, s) ->
  match socket_bind os (argparse.bind args) (argparse.port args) with
  | Ok _ =>
      filter is_stdout t
      = [stdout (serving_at (argparse.bind args) (argparse.port args))]
      /\ exists t', t = (socket_create
                         :: socket_bind_call (argparse.bind args)
                                             (argparse.port args)
                         :: socket_listen
                         :: stdout (serving_at (argparse.bind args)
                                               (argparse.port args))
                         :: t')
  | Raise _ => filter is_stdout t = []
  end.
Proof.
  intros P E. unfold main in E. rewrite P in E. injection E as E.
  destruct (socket_bind os (argparse.bind args) (argparse.port args))
    as [p|e] eqn:B.
  - rewrite (serve_listening_trace env os args events p B) in E.
    injection E as <- _. split; [|eexists; reflexivity].
    cbn [app filter is_stdout]. rewrite filter_app.
    rewrite (proj1 (loop_trace_quiet env true 0 events false)).
    now destruct (has_interrupt events).
  - rewrite (serve_bind_failure env os args events e B) in E.
    now injection E as <- _.
Qed.

Lemma serving_line_is_printed_once_witness :
  filter is_stdout
    (fst (serve Sample.env Sample.os (argparse.mkNamespace 0 "localhost")
            [connection [Sample.request_line "GET / HTTP/1.0" []]]))
  = [stdout (serving_at "localhost" 0)].
Proof.
  apply (serving_line_is_printed_once Sample.env Sample.os
           ["-b"; "localhost"; "-p"; "0"]
           [connection [Sample.request_line "GET / HTTP/1.0" []]]
           (argparse.mkNamespace 0 "localhost")
           _ (snd (serve Sample.env Sample.os
                     (argparse.mkNamespace 0 "localhost")
                     [connection [Sample.request_line "GET / HTTP/1.0" []]])));
    vm_compute; reflexivity.
Defined.

(** X4: who is served, and with what.  A server that listens creates one
    handler for each connection that arrives before the first interrupt
    (and before the working directory is removed, if it is), in the order
    of arrival, and none for a connection that arrives after it.  What a
    handler does is a function of the environment and of the requests of
    its own connection: no connection changes the response to another. *)
Theorem handlers_follow_the_connections (env : Env) (os : OS)
    (argv : list string) (events : list event) (args : argparse.Namespace)
    (p : Z) (t : list effect) (s : status) :
  argparse.parse_args argv = Some (argparse.parsed args) ->
  socket_bind os (argparse.bind args) (argparse.port args) = Ok p ->
  main env os argv events = Some (t, s) ->
  handlers t
  = map (fun rfile =>
           snd (SimpleHTTPRequestHandler.handle env COEPHandler.class rfile
                  (SimpleHTTPRequestHandler.init env)))
        (served events).
Proof.
  intros P B E. unfold main in E. rewrite P in E. injection E as E.
  rewrite (serve_listening_trace env os args events p B) in E.
  injection E as <- _.
  change (?a :: ?b :: ?c :: ?d :: ?l ++ ?r)%list
    with ([a; b; c; d] ++ l ++ r)%list.
  rewrite !handlers_app, loop_trace_handlers. cbn [handlers app].
  destruct (has_interrupt events); cbn [handlers]; now rewrite app_nil_r.
Qed.

Lemma handlers_follow_the_connections_witness :
  handlers
    (fst (serve Sample.env Sample.os argparse.defaults
            [connection [Sample.request_line "GET /sample.parquet HTTP/1.0" []];
             interrupt;
             connection [Sample.request_line "GET /etc/passwd HTTP/1.0" []]]))
  = map (fun rfile =>
           snd (SimpleHTTPRequestHandler.handle Sample.env COEPHandler.class
                  rfile (SimpleHTTPRequestHandler.init Sample.env)))
        [[Sample.request_line "GET /sample.parquet HTTP/1.0" []]].
Proof.
  apply (handlers_follow_the_connections Sample.env Sample.os []
           [connection [Sample.request_line "GET /sample.parquet HTTP/1.0" []];
            interrupt;
            connection [Sample.request_line "GET /etc/passwd HTTP/1.0" []]]
           argparse.defaults 8080
           _ (snd (serve Sample.env Sample.os argparse.defaults
                     [connection
                        [Sample.request_line "GET /sample.parquet HTTP/1.0" []];
                      interrupt;
                      connection
                        [Sample.request_line "GET /etc/passwd HTTP/1.0" []]])));
    vm_compute; reflexivity.
Defined.

(** ** One request on each connection *)

(** X5: one request on each connection.  The protocol version of the
    handler is [HTTP/1.0], so no request makes the connection persistent:
    the first request of a connection leaves it marked to be closed, and
    whatever else the client sends on it is not read.  A connection with
    further requests is handled exactly as the connection with its first
    request alone: the same is written, and the same is returned or
    raised.  (The first request may get no response at all: when its line
    is blank, or when the handler raises.) *)
Theorem one_request_per_connection (env : Env) (req : request)
    (rest : list request) :
  SimpleHTTPRequestHandler.handle env COEPHandler.class (req :: rest)
    (SimpleHTTPRequestHandler.init env)
  = SimpleHTTPRequestHandler.handle env COEPHandler.class [req]
      (SimpleHTTPRequestHandler.init env)
  /\ close_connection
       (snd (SimpleHTTPRequestHandler.handle env COEPHandler.class (req :: rest)
               (SimpleHTTPRequestHandler.init env))) = true.
Proof.
  split.
  - apply handle_first_request_only. exact closing_COEPHandler_end_headers.
  - rewrite (handle_first_request_only env COEPHandler.class
               closing_COEPHandler_end_headers).
    unfold SimpleHTTPRequestHandler.handle. rewrite bind_modify.
    cbn [hd tl]. unfold bind.
    pose proof (closing_handle_one_request env COEPHandler.class
                  closing_COEPHandler_end_headers req
                  (set_close_connection true (SimpleHTTPRequestHandler.init env))
                  eq_refl) as C.
    destruct (SimpleHTTPRequestHandler.handle_one_request env _ req _)
      as [[[]|e] h1]; cbn [snd] in *; [|exact C].
    now rewrite handle_loop_closed.
Qed.

(** ** More of the command line *)

Lemma parse_args_bind (flag v : string) :
  flag = "--bind" \/ flag = "-b" ->
  argparse.parse_optional v = argparse.A ->
  argparse.parse_args [flag; v]
  = Some (argparse.parsed (argparse.mkNamespace 8080 v)).
Proof.
  intros F HA. pose proof (parse_optional_separator v HA) as Hs.
  unfold argparse.parse_args.
  destruct F as [-> | ->]; cbn -[argparse.parse_optional];
    rewrite Hs; cbn -[argparse.parse_optional]; rewrite HA;
    cbn; rewrite Hs; reflexivity.
Qed.

(** X6: the bind address is not checked when the arguments are parsed.
    Any word is accepted as the value of [--bind]/[-b].  When it is not an
    address of the host, the start fails only in [bind], after the socket
    was created and [bind] was called with the word and the default port:
    with [socket.gaierror] for a name that is not resolved, with
    [OSError 99] for an address that is not local, with [TypeError] for a
    string that is no host name; the socket is closed, the traceback is
    printed and the process exits with status 1. *)
Theorem bind_address_is_checked_by_bind_only (env : Env) (os : OS)
    (flag v : string) (events : list event) :
  flag = "--bind" \/ flag = "-b" ->
  argparse.parse_optional v = argparse.A ->
  resolves os v = false ->
  exists e : exn,
    main env os [flag; v] events
    = Some ([socket_create; socket_bind_call v 8080; socket_close;
             stderr (traceback e)], exited 1)
    /\ e = match lookup os v with
           | no_address errno strerror => gaierror errno strerror
           | not_encodable message => TypeError message
           | _ => OSError 99 "Cannot assign requested address"
           end.
Proof.
  intros F HA R. unfold main. rewrite (parse_args_bind flag v F HA).
  eexists. split; [|reflexivity].
  rewrite (serve_bind_failure env os _ events
             match lookup os v with
             | no_address errno strerror => gaierror errno strerror
             | not_encodable message => TypeError message
             | _ => OSError 99 "Cannot assign requested address"
             end); [reflexivity|].
  cbn [argparse.bind argparse.port]. unfold resolves in R.
  unfold socket_bind. now destruct (lookup os v).
Qed.

Lemma bind_address_is_checked_by_bind_only_witness :
  exists e : exn,
    main Sample.env
      (mkOS (fun host => if (host =? "127.0.0.1")%string then local
                         else if (host =? "203.0.113.7")%string then not_local
                         else no_address (-2) "Name or service not known")
            (fun _ _ => false) false 40000)
      ["--bind"; "203.0.113.7"] []
    = Some ([socket_create; socket_bind_call "203.0.113.7" 8080; socket_close;
             stderr (traceback e)], exited 1)
    /\ e = OSError 99 "Cannot assign requested address".
Proof.
  apply (bind_address_is_checked_by_bind_only Sample.env
           (mkOS (fun host => if (host =? "127.0.0.1")%string then local
                              else if (host =? "203.0.113.7")%string
                                   then not_local
                              else no_address (-2) "Name or service not known")
                 (fun _ _ => false) false 40000)
           "--bind" "203.0.113.7" []);
    [left; reflexivity | reflexivity | reflexivity].
Defined.

(** A value attached to [-p]: one option with its explicit argument. *)
Lemma parse_optional_attached (c : ascii) (v : string) :
  Ascii.eqb c "=" = false ->
  argparse.parse_optional ("-p" ++ String c v)
  = argparse.O (Some argparse.store_port) "-p" (Some (String c v)).
Proof.
  intro Hc. unfold argparse.parse_optional.
  cbn -[Str.contains String.prefix]. rewrite Hc.
  cbn -[Str.contains String.prefix].
  destruct (Str.contains _ "="); reflexivity.
Qed.

(** X7: the port attached to the short option, [-pVALUE].  What follows
    [-p] in the same word (when it does not start with an equals sign) is
    the value of the port, whatever it looks like: it is converted by
    [int], an integer becomes the port and anything else is a usage
    error.  The one exception is the value [--], which the parser drops:
    [-p--] is accepted and leaves the empty list as the port. *)
Theorem port_attached_to_the_short_option (v : string) :
  v <> "" ->
  Str.startswith v "=" = false ->
  argparse.parse_args ["-p" ++ v]
  = Some (if (v =? "--")%string
          then argparse.parsed_list
                 (argparse.port_list (argparse.value "127.0.0.1"))
          else match Py.int v with
               | Some n => argparse.parsed (argparse.mkNamespace n "127.0.0.1")
               | None => argparse.error_exit (argparse.invalid_int_value v)
               end).
Proof.
  intros Hv He. destruct v as [|c v]; [contradiction|].
  assert (Hc : Ascii.eqb c "=" = false).
  { destruct (Ascii.eqb_spec c "=") as [->|]; [|reflexivity].
    unfold Str.startswith in He. simpl in He. now destruct v. }
  unfold argparse.parse_args. cbn [argparse.classify].
  change (("-p" ++ String c v =? "--")%string) with false. cbv iota.
  rewrite (parse_optional_attached c v Hc).
  cbn [find snd argparse.parse_loop]. rewrite explicit_loop_store_port.
  cbn [argparse.needs_next last argparse.take_actions argparse.take_action].
  destruct (String c v =? "--")%string; [reflexivity|].
  destruct (Py.int (String c v)); reflexivity.
Qed.

Lemma port_attached_to_the_short_option_witness :
  argparse.parse_args ["-p9000"]
  = Some (argparse.parsed (argparse.mkNamespace 9000 "127.0.0.1")).
Proof.
  apply (port_attached_to_the_short_option "9000");
    [discriminate | reflexivity].
Defined.

Lemma parse_loop_positional (ns : argparse.Attributes)
    (extras argv : list string) :
  Forall (fun s => argparse.parse_optional s = argparse.A) argv ->
  argparse.parse_loop ns extras
    (map (fun s => (s, argparse.parse_optional s)) argv)
  = match (extras ++ argv)%list with
    | [] => argparse.go_on ns
    | l => argparse.exit_error (argparse.unrecognized_arguments l)
    end.
Proof.
  intro H. revert extras.
  induction H as [|s argv Hs _ IH]; intro extras.
  - cbn [map argparse.parse_loop]. rewrite app_nil_r. now destruct extras.
  - cbn [map argparse.parse_loop]. rewrite Hs, IH, <- app_assoc. reflexivity.
Qed.

Lemma positional_no_separator (argv : list string) :
  Forall (fun s => argparse.parse_optional s = argparse.A) argv ->
  argparse.classify argv = map (fun s => (s, argparse.parse_optional s)) argv
  /\ find (fun sk : string * argparse.kind =>
             match snd sk with argparse.ambiguous => true | _ => false end)
          (map (fun s => (s, argparse.parse_optional s)) argv) = None.
Proof.
  induction 1 as [|s argv Hs _ [IH1 IH2]]; [now split|].
  cbn [argparse.classify map find snd].
  now rewrite (parse_optional_separator s Hs), Hs, IH1, IH2.
Qed.

(** X8: the program takes no positional argument.  A command line that
    holds words only, no option, is refused: all the words are reported as
    unrecognized arguments and the process exits with status 2, before any
    socket operation. *)
Theorem positional_arguments_are_rejected (env : Env) (os : OS)
    (s : string) (argv : list string) (events : list event) :
  Forall (fun s => argparse.parse_optional s = argparse.A) (s :: argv) ->
  main env os (s :: argv) events
  = Some ([stderr (usage_error (argparse.unrecognized_arguments (s :: argv)))],
          exited 2).
Proof.
  intro H. unfold main, argparse.parse_args.
  destruct (positional_no_separator _ H) as [-> ->].
  now rewrite (parse_loop_positional _ [] _ H).
Qed.

Lemma positional_arguments_are_rejected_witness :
  main Sample.env Sample.os ["8080"; "-1"] []
  = Some ([stderr (usage_error (argparse.unrecognized_arguments ["8080"; "-1"]))],
          exited 2).
Proof.
  apply (positional_arguments_are_rejected Sample.env Sample.os "8080" ["-1"] []).
  repeat constructor.
Defined.


Lemma parse_args_two_options (f1 v1 f2 v2 : string) (a1 a2 : argparse.action) :
  argparse.parse_optional f1 = argparse.O (Some a1) f1 None ->
  argparse.parse_optional f2 = argparse.O (Some a2) f2 None ->
  a1 <> argparse.help -> a2 <> argparse.help ->
  argparse.parse_optional v1 = argparse.A ->
  argparse.parse_optional v2 = argparse.A ->
  argparse.parse_args [f1; v1; f2; v2]
  = Some match argparse.take_action
                 (argparse.mkAttributes (argparse.value 8080)
                                        (argparse.value "127.0.0.1")) a1 v1 with
         | argparse.go_on ns =>
             match argparse.take_action ns a2 v2 with
             | argparse.go_on ns' => argparse.namespace ns'
             | argparse.exit_help => argparse.help_exit
             | argparse.exit_error e => argparse.error_exit e
             end
         | argparse.exit_help => argparse.help_exit
         | argparse.exit_error e => argparse.error_exit e
         end.
Proof.
  intros F1 F2 N1 N2 A1 A2.
  assert (S1 : (f1 =? "--")%string = false).
  { destruct (String.eqb_spec f1 "--") as [->|]; [|reflexivity].
    vm_compute in F1. discriminate. }
  assert (S2 : (f2 =? "--")%string = false).
  { destruct (String.eqb_spec f2 "--") as [->|]; [|reflexivity].
    vm_compute in F2. discriminate. }
  unfold argparse.parse_args. cbn [argparse.classify].
  rewrite S1, S2, (parse_optional_separator v1 A1),
    (parse_optional_separator v2 A2), F1, F2, A1, A2.
  cbn [find snd argparse.parse_loop argparse.port argparse.bind
       argparse.defaults].
  destruct a1; [contradiction| |];
    cbn [argparse.take_actions];
    (destruct (argparse.take_action _ _ v1) as [ns| |e];
     [|reflexivity..]);
    (destruct a2; [contradiction| |]);
    cbn [argparse.take_actions argparse.parse_loop];
    destruct (argparse.take_action ns _ v2); reflexivity.
Qed.

(** X9: the port option given twice, in four words: the option, its
    value, the option again, its value, where the values are words the
    parser takes for arguments.  The values are converted from left to
    right, so both must be integers (the first that is not is the usage
    error), and the last one is the port. *)
Theorem last_port_value_wins (f1 v1 f2 v2 : string) :
  f1 = "--port" \/ f1 = "-p" ->
  f2 = "--port" \/ f2 = "-p" ->
  argparse.parse_optional v1 = argparse.A ->
  argparse.parse_optional v2 = argparse.A ->
  argparse.parse_args [f1; v1; f2; v2]
  = Some match Py.int v1, Py.int v2 with
         | None, _ => argparse.error_exit (argparse.invalid_int_value v1)
         | Some _, None => argparse.error_exit (argparse.invalid_int_value v2)
         | Some _, Some n =>
             argparse.parsed (argparse.mkNamespace n "127.0.0.1")
         end.
Proof.
  intros F1 F2 A1 A2.
  rewrite (parse_args_two_options f1 v1 f2 v2 argparse.store_port
             argparse.store_port);
    try assumption; try discriminate;
    try (destruct F1 as [-> | ->]; reflexivity);
    try (destruct F2 as [-> | ->]; reflexivity).
  unfold argparse.take_action.
  rewrite (parse_optional_separator v1 A1), (parse_optional_separator v2 A2).
  destruct (Py.int v1); [|reflexivity]. now destruct (Py.int v2).
Qed.

Lemma last_port_value_wins_witness :
  argparse.parse_args ["--port"; "8000"; "-p"; "9000"]
  = Some (argparse.parsed (argparse.mkNamespace 9000 "127.0.0.1")).
Proof.
  apply (last_port_value_wins "--port" "8000" "-p" "9000");
    first [left; reflexivity | right; reflexivity | reflexivity].
Defined.

(** X10: the two options may come in either order.  In four words, the
    port option with its value and the bind option with its value (the
    values being words the parser takes for arguments) give the same
    result whichever comes first: the namespace with both values, or the
    usage error for a port that is not an integer. *)
Theorem options_in_either_order (fp v fb b : string) :
  fp = "--port" \/ fp = "-p" ->
  fb = "--bind" \/ fb = "-b" ->
  argparse.parse_optional v = argparse.A ->
  argparse.parse_optional b = argparse.A ->
  argparse.parse_args [fp; v; fb; b] = argparse.parse_args [fb; b; fp; v]
  /\ argparse.parse_args [fp; v; fb; b]
     = Some match Py.int v with
            | Some n => argparse.parsed (argparse.mkNamespace n b)
            | None => argparse.error_exit (argparse.invalid_int_value v)
            end.
Proof.
  intros Fp Fb Av Ab.
  rewrite (parse_args_two_options fp v fb b argparse.store_port
             argparse.store_bind);
    try assumption; try discriminate;
    try (destruct Fp as [-> | ->]; reflexivity);
    try (destruct Fb as [-> | ->]; reflexivity).
  rewrite (parse_args_two_options fb b fp v argparse.store_bind
             argparse.store_port);
    try assumption; try discriminate;
    try (destruct Fp as [-> | ->]; reflexivity);
    try (destruct Fb as [-> | ->]; reflexivity).
  unfold argparse.take_action.
  rewrite (parse_optional_separator v Av), (parse_optional_separator b Ab).
  cbn [argparse.port_attr argparse.bind_attr].
  destruct (Py.int v); split; reflexivity.
Qed.

Lemma options_in_either_order_witness :
  argparse.parse_args ["-p"; "9000"; "-b"; "0.0.0.0"]
  = argparse.parse_args ["-b"; "0.0.0.0"; "-p"; "9000"]
  /\ argparse.parse_args ["-p"; "9000"; "-b"; "0.0.0.0"]
     = Some (argparse.parsed (argparse.mkNamespace 9000 "0.0.0.0")).
Proof.
  apply (options_in_either_order "-p" "9000" "-b" "0.0.0.0");
    first [right; reflexivity | reflexivity].
Defined.

Lemma socket_bind_privileged_port (os : OS) (host : string) (port : Z) :
  resolves os host = true ->
  0 < port < 1024 ->
  privileged os = false ->
  socket_bind os host port = Raise (OSError 13 "Permission denied").
Proof.
  intros R P Pr. unfold resolves in R. unfold socket_bind. rewrite Pr.
  destruct (lookup os host); try discriminate.
  replace ((port <? -2147483648) || (2147483647 <? port)) with false by lia.
  replace ((port <? 0) || (65535 <? port)) with false by lia.
  replace (port =? 0) with false by lia.
  replace (port <? 1024) with true by lia. reflexivity.
Qed.

(** X11: a privileged port without the privilege.  When the port is
    below 1024 and the process may not bind such ports, [bind] raises
    [PermissionError]: the socket is closed, the traceback is printed and
    the process exits with status 1, without ever listening. *)
Theorem privileged_port_fails_startup (env : Env) (os : OS)
    (argv : list string) (events : list event) (args : argparse.Namespace) :
  argparse.parse_args argv = Some (argparse.parsed args) ->
  resolves os (argparse.bind args) = true ->
  0 < argparse.port args < 1024 ->
  privileged os = false ->
  main env os argv events
  = Some ([socket_create;
           socket_bind_call (argparse.bind args) (argparse.port args);
           socket_close;
           stderr (traceback (OSError 13 "Permission denied"))],
          exited 1).
Proof.
  intros P R Rg Pr. unfold main. rewrite P.
  now rewrite (serve_bind_failure env os args events _
                 (socket_bind_privileged_port os _ _ R Rg Pr)).
Qed.

Lemma privileged_port_fails_startup_witness :
  main Sample.env Sample.os ["--port=80"] []
  = Some ([socket_create; socket_bind_call "127.0.0.1" 80; socket_close;
           stderr (traceback (OSError 13 "Permission denied"))],
          exited 1).
Proof.
  apply (privileged_port_fails_startup Sample.env Sample.os ["--port=80"] []
           (argparse.mkNamespace 80 "127.0.0.1"));
    [reflexivity | reflexivity | cbn; lia | reflexivity].
Defined.

(** ** More responses *)

(** The run of [handle] on a connection whose first request line has three
    words: the method of the command, then the end of the connection. *)
Lemma handle_parsed (env : Env) (req : request) (rest : list request)
    (cmd p version base : string) (number : Z * Z)
    (fields : list (string * string)) (m : M unit) (h : handler) :
  Str.len (raw_requestline req) <= 65536 ->
  Str.words (requestline req) = [cmd; p; version] ->
  BaseHTTPRequestHandler.version_number version = Some (base, number) ->
  BaseHTTPRequestHandler.pair_ge number (2, 0) = false ->
  request_headers req = Headers fields ->
  match SimpleHTTPRequestHandler.do_method env COEPHandler.class cmd with
  | Some method => method
  | None =>
      BaseHTTPRequestHandler.send_error env COEPHandler.class NOT_IMPLEMENTED
        (Some ("Unsupported method (" ++ repr env cmd ++ ")")) None
  end = m ->
  m (mkHandler (getcwd env) version (Some cmd) (request_path p) fields
       true None []) = (Ok tt, h) ->
  close_connection h = true ->
  SimpleHTTPRequestHandler.handle env COEPHandler.class (req :: rest)
    (SimpleHTTPRequestHandler.init env) = (Ok tt, h).
Proof.
  intros Hl Hw Hn H2 Hh Hm Hr Hc.
  unfold SimpleHTTPRequestHandler.handle. rewrite bind_modify.
  cbn [hd tl]. unfold bind at 1.
  rewrite (handle_one_request_parsed env req cmd p version base number fields
             Hl Hw Hn H2 Hh), Hm, Hr.
  now apply handle_loop_closed.
Qed.

(** X12: a method the handler does not have.  The request is the first of
    its connection; its line is at most 65536 bytes long and has three
    words: a command that is neither [GET] nor [HEAD], a path, and a
    version [HTTP/major.minor] with [major] below 2, other than
    [HTTP/0.9]; its headers are read without error (no line of more than
    65536 bytes, at most 100 headers).  Then, whatever the path, the
    response is one header block of status 501 that names the method and
    ends with the two isolation headers, followed by the page of the
    error. *)
Theorem unsupported_method_is_answered_501 (env : Env) (req : request)
    (rest : list request) (cmd p version base : string) (number : Z * Z)
    (fields : list (string * string)) :
  cmd <> "GET" -> cmd <> "HEAD" ->
  Str.len (raw_requestline req) <= 65536 ->
  Str.words (requestline req) = [cmd; p; version] ->
  BaseHTTPRequestHandler.version_number version = Some (base, number) ->
  BaseHTTPRequestHandler.pair_ge number (2, 0) = false ->
  version <> "HTTP/0.9" ->
  request_headers req = Headers fields ->
  exists h : handler,
    SimpleHTTPRequestHandler.handle env COEPHandler.class (req :: rest)
      (SimpleHTTPRequestHandler.init env) = (Ok tt, h)
    /\ (let message := "Unsupported method (" ++ repr env cmd ++ ")" in
        let page := error_message env 501 message
                      "Server does not support this operation" in
        wfile h
        = header_block
            (Str.join
               [status_line NOT_IMPLEMENTED message;
                header_line "Server" (version_string env);
                header_line "Date" (date_time_string env None);
                header_line "Connection" "close";
                header_line "Content-Type" "text/html;charset=utf-8";
                header_line "Content-Length" (Str.of_Z (Str.len page));
                COOP_line; COEP_line; Str.CRLF])
          :: (if (page =? "")%string then [] else [message_body page])).
Proof.
  intros Hg Hd Hl Hw Hn H2 Hv Hh.
  eexists. split.
  - eapply (handle_parsed env req rest cmd p version base number fields);
      try eassumption.
    + unfold SimpleHTTPRequestHandler.do_method.
      apply String.eqb_neq in Hg, Hd. rewrite Hg, Hd. reflexivity.
    + rewrite send_error_run by easy. reflexivity.
    + cbv zeta. destruct (negb _ && negb _); reflexivity.
  - cbv zeta. cbn [command].
    apply String.eqb_neq in Hd. rewrite Hd. cbn [negb andb].
    change (status_value NOT_IMPLEMENTED) with 501.
    change (snd (responses NOT_IMPLEMENTED))
      with "Server does not support this operation".
    destruct (_ =? "")%string; reflexivity.
Qed.

Lemma unsupported_method_is_answered_501_witness :
  exists h : handler,
    SimpleHTTPRequestHandler.handle Sample.env COEPHandler.class
      [Sample.request_line "DELETE /sample.parquet HTTP/1.1" []]
      (SimpleHTTPRequestHandler.init Sample.env) = (Ok tt, h)
    /\ (let message := "Unsupported method ('DELETE')" in
        let page := "<p>Unsupported method ('DELETE')</p>" in
        wfile h
        = [header_block
             (Str.join
                [status_line NOT_IMPLEMENTED message;
                 header_line "Server" "SimpleHTTP/0.6 Python/3.11.2";
                 header_line "Date" "Thu, 01 Jan 2026 00:00:00 GMT";
                 header_line "Connection" "close";
                 header_line "Content-Type" "text/html;charset=utf-8";
                 header_line "Content-Length" "36";
                 COOP_line; COEP_line; Str.CRLF]);
           message_body page]).
Proof.
  apply (unsupported_method_is_answered_501 Sample.env
           (Sample.request_line "DELETE /sample.parquet HTTP/1.1" []) []
           "DELETE" "/sample.parquet" "HTTP/1.1" "1.1" (1, 1) []);
    first [ reflexivity
          | vm_compute; discriminate
          | discriminate ].
Defined.

(** X13: a conditional request for a file that has not changed.  The
    request is as for a file that is served with status 200 (a [GET] or
    [HEAD] of HTTP/1.x, a line of three words and at most 65536 bytes,
    headers read without error, a path translated to a readable file); it
    carries [If-Modified-Since] and no [If-None-Match]; the date of the
    header is one [parsedate_to_datetime] reads, with no zone or with the
    offset 0 (with another offset the header is ignored); and the file is
    not newer than that date.  Then the response is the header block of
    status 304 alone: status line, [Server], [Date], the two isolation
    headers, and no body, for [GET] as for [HEAD]. *)
Theorem unmodified_file_is_answered_304 (env : Env) (req : request)
    (rest : list request) (cmd p version base : string) (number : Z * Z)
    (fields : list (string * string)) (content : string) (mtime : Z)
    (ims : Z) (tz : option Z) :
  cmd = "GET" \/ cmd = "HEAD" ->
  Str.len (raw_requestline req) <= 65536 ->
  Str.words (requestline req) = [cmd; p; version] ->
  BaseHTTPRequestHandler.version_number version = Some (base, number) ->
  BaseHTTPRequestHandler.pair_ge number (2, 0) = false ->
  version <> "HTTP/0.9" ->
  request_headers req = Headers fields ->
  Str.endswith
    (SimpleHTTPRequestHandler.translate_path env (getcwd env) (request_path p))
    "/" = false ->
  SimpleHTTPRequestHandler.unopenable env
    (SimpleHTTPRequestHandler.translate_path env (getcwd env) (request_path p))
  = false ->
  fs env
    (SimpleHTTPRequestHandler.translate_path env (getcwd env) (request_path p))
  = Some (File (Some content) mtime) ->
  headers_mem fields "If-Modified-Since" = true ->
  headers_mem fields "If-None-Match" = false ->
  parsedate_to_datetime env (headers_get_default fields "If-Modified-Since")
  = Some (ims, tz) ->
  tz = None \/ tz = Some 0 ->
  mtime <= ims ->
  exists h : handler,
    SimpleHTTPRequestHandler.handle env COEPHandler.class (req :: rest)
      (SimpleHTTPRequestHandler.init env) = (Ok tt, h)
    /\ wfile h
       = [header_block
            (Str.join
               [status_line NOT_MODIFIED "Not Modified";
                header_line "Server" (version_string env);
                header_line "Date" (date_time_string env None);
                COOP_line; COEP_line; Str.CRLF])].
Proof.
  intros Hc Hl Hw Hn H2 Hv Hh Hs Hu Hf M1 M2 Hd Hz Ht.
  assert (Hm : SimpleHTTPRequestHandler.not_modified env fields mtime = true).
  { unfold SimpleHTTPRequestHandler.not_modified. rewrite M1, M2, Hd.
    cbn [andb negb].
    destruct Hz as [-> | ->]; [|cbn [Z.eqb andb]]; now apply Z.leb_le. }
  destruct (handle_serves_file env req rest cmd p version base number fields
              content mtime Hc Hl Hw Hn H2 Hv Hh Hs Hu Hf) as [h [E W]].
  exists h. split; [exact E|]. now rewrite Hm in W.
Qed.

Lemma unmodified_file_is_answered_304_witness :
  exists h : handler,
    SimpleHTTPRequestHandler.handle Sample.env COEPHandler.class
      [Sample.request_line "GET /sample.parquet HTTP/1.1"
         [("If-Modified-Since", "Thu, 01 Jan 2026 00:00:00 GMT")]]
      (SimpleHTTPRequestHandler.init Sample.env) = (Ok tt, h)
    /\ wfile h
       = [header_block
            (Str.join
               [status_line NOT_MODIFIED "Not Modified";
                header_line "Server" "SimpleHTTP/0.6 Python/3.11.2";
                header_line "Date" "Thu, 01 Jan 2026 00:00:00 GMT";
                COOP_line; COEP_line; Str.CRLF])].
Proof.
  apply (unmodified_file_is_answered_304 Sample.env
           (Sample.request_line "GET /sample.parquet HTTP/1.1"
              [("If-Modified-Since", "Thu, 01 Jan 2026 00:00:00 GMT")]) []
           "GET" "/sample.parquet" "HTTP/1.1" "1.1" (1, 1)
           [("If-Modified-Since", "Thu, 01 Jan 2026 00:00:00 GMT")]
           "PAR1 sample PAR1" 1700000000 1767225600 (Some 0));
    first [ left; reflexivity
          | right; reflexivity
          | reflexivity
          | vm_compute; discriminate
          | discriminate ].
Defined.



(** ** Responses without a header block *)

Lemma send_response_only_silent (code : HTTPStatus) (message : option string)
    (h : handler) :
  request_version h = "HTTP/0.9" ->
  BaseHTTPRequestHandler.send_response_only code message h = (Ok tt, h).
Proof.
  intro Hv. unfold BaseHTTPRequestHandler.send_response_only.
  rewrite bind_get, Hv. reflexivity.
Qed.

Lemma send_header_silent (keyword value : string) (h : handler) :
  (Str.lower keyword =? "connection")%string = false ->
  request_version h = "HTTP/0.9" ->
  BaseHTTPRequestHandler.send_header keyword value h = (Ok tt, h).
Proof.
  intros Hk Hv. rewrite send_header_buffers by exact Hk. now rewrite Hv.
Qed.

Lemma send_response_silent (env : Env) (code : HTTPStatus)
    (message : option string) (h : handler) :
  request_version h = "HTTP/0.9" ->
  BaseHTTPRequestHandler.send_response env code message h = (Ok tt, h).
Proof.
  intro Hv. unfold BaseHTTPRequestHandler.send_response.
  erewrite bind_ok by (now apply send_response_only_silent).
  erewrite bind_ok by (now apply send_header_silent).
  now apply send_header_silent.
Qed.

(** Under [HTTP/0.9], [send_error] writes the page and nothing else. *)
Lemma send_error_silent (env : Env) (code : HTTPStatus) (message : string)
    (h : handler) :
  request_version h = "HTTP/0.9" ->
  (200 <=? status_value code)
  && negb (status_value code =? status_value NO_CONTENT)
  && negb (status_value code =? status_value RESET_CONTENT)
  && negb (status_value code =? status_value NOT_MODIFIED) = true ->
  BaseHTTPRequestHandler.send_error env COEPHandler.class code (Some message)
    None h
  = (Ok tt,
     let b := error_message env (status_value code) message
                (snd (responses code)) in
     if negb (match command h with
              | Some c => (c =? "HEAD")%string
              | None => false
              end)
        && negb (b =? "")%string
     then wfile_write (message_body b) (set_close_connection true h)
     else set_close_connection true h).
Proof.
  intros Hv Hb. unfold BaseHTTPRequestHandler.send_error.
  destruct (responses code) as [shortmsg longmsg]. cbn [snd].
  erewrite bind_ok by (now apply send_response_silent).
  erewrite bind_ok by (apply send_header_connection_close).
  rewrite Hb, Hv. cbn [String.eqb Ascii.eqb Bool.eqb].
  set (b := error_message env (status_value code) message longmsg).
  set (h0 := set_close_connection true h).
  assert (V0 : request_version h0 = "HTTP/0.9") by exact Hv.
  rewrite !bind_ok with (h' := h0) (a := Some b).
  2:{ erewrite bind_ok by (now apply send_header_silent).
      erewrite bind_ok by (now apply send_header_silent).
      reflexivity. }
  cbn [self_end_headers COEPHandler.class].
  erewrite bind_ok by (now apply end_headers_silent).
  rewrite bind_get. cbn [command h0 set_close_connection].
  destruct (negb _ && negb (b =? "")%string); reflexivity.
Qed.

(** [parse_request] on a request line of three words or more whose last
    word is not a version: the page of error 400 is written while the
    request version is still [HTTP/0.9]. *)
Lemma parse_request_bad_version (env : Env) (req : request)
    (ws : list string) (h : handler) :
  Str.words (requestline req) = ws ->
  (3 <= length ws)%nat ->
  BaseHTTPRequestHandler.version_number (last ws "") = None ->
  BaseHTTPRequestHandler.parse_request env COEPHandler.class req h
  = (Ok false,
     let page :=
       error_message env 400
         ("Bad request version (" ++ repr env (last ws "") ++ ")")
         "Bad request syntax or unsupported method" in
     let h0 := set_close_connection true
                 (set_request_version "HTTP/0.9" (set_command None h)) in
     if (page =? "")%string then h0 else wfile_write (message_body page) h0).
Proof.
  intros Hw H3 Hn. unfold BaseHTTPRequestHandler.parse_request.
  rewrite !bind_modify.
  change (Str.rstrip _ (raw_requestline req)) with (requestline req).
  rewrite Hw.
  replace (length ws =? 0)%nat with false
    by (symmetry; apply Nat.eqb_neq; lia).
  replace (3 <=? length ws)%nat with true
    by (symmetry; apply Nat.leb_le; lia).
  rewrite Hn.
  erewrite bind_ok by (now apply send_error_silent).
  unfold ret. cbv zeta.
  cbn [command set_close_connection set_request_version set_command
       negb andb].
  change (status_value BAD_REQUEST) with 400.
  change (snd (responses BAD_REQUEST))
    with "Bad request syntax or unsupported method".
  destruct (_ =? "")%string; reflexivity.
Qed.

(** X15: a request line whose last word is not a version.  The line is
    the first of its connection, is at most 65536 bytes long (a longer
    line is answered with status 414 and a header block) and has three
    words or more, the last of which is not of the form
    [HTTP/major.minor].  Then the error 400 is sent while the request
    version is still [HTTP/0.9]: the whole response is the page of the
    error, with no status line and no header, the isolation headers
    included. *)
Theorem malformed_version_is_answered_without_headers (env : Env)
    (req : request) (rest : list request) (ws : list string) :
  Str.len (raw_requestline req) <= 65536 ->
  Str.words (requestline req) = ws ->
  (3 <= length ws)%nat ->
  BaseHTTPRequestHandler.version_number (last ws "") = None ->
  exists h : handler,
    SimpleHTTPRequestHandler.handle env COEPHandler.class (req :: rest)
      (SimpleHTTPRequestHandler.init env) = (Ok tt, h)
    /\ (let page :=
          error_message env 400
            ("Bad request version (" ++ repr env (last ws "") ++ ")")
            "Bad request syntax or unsupported method" in
        wfile h = if (page =? "")%string then [] else [message_body page]).
Proof.
  intros Hl Hw H3 Hn.
  assert (Hne : (raw_requestline req =? "")%string = false).
  { destruct ws as [|w ws]; [cbn in H3; lia|].
    exact (requestline_not_empty req w ws Hw). }
  unfold SimpleHTTPRequestHandler.handle. rewrite bind_modify.
  cbn [hd tl]. unfold bind at 1.
  unfold SimpleHTTPRequestHandler.handle_one_request.
  replace (65536 <? Str.len (raw_requestline req)) with false by lia.
  rewrite Hne.
  erewrite bind_ok by (apply (parse_request_bad_version env req ws _ Hw H3 Hn)).
  cbn [negb]. unfold ret at 1. cbv zeta. clear Hne.
  match goal with
  | |- context [if ?c then _ else _] => destruct c
  end; eexists;
    (split; [apply handle_loop_closed; reflexivity|reflexivity]).
Qed.

Lemma malformed_version_is_answered_without_headers_witness :
  exists h : handler,
    SimpleHTTPRequestHandler.handle Sample.env COEPHandler.class
      [Sample.request_line "GET /sample.parquet HTTP/1.1 extra" []]
      (SimpleHTTPRequestHandler.init Sample.env) = (Ok tt, h)
    /\ (let page := "<p>Bad request version ('extra')</p>" in
        wfile h = [message_body page]).
Proof.
  apply (malformed_version_is_answered_without_headers Sample.env
           (Sample.request_line "GET /sample.parquet HTTP/1.1 extra" []) []
           ["GET"; "/sample.parquet"; "HTTP/1.1"; "extra"]);
    first [ reflexivity
          | vm_compute; discriminate
          | cbn; lia ].
Defined.

(** [parse_request] on a request line of two words, the first of them
    [GET]: a request of [HTTP/0.9]. *)
Lemma parse_request_simple (env : Env) (cls : HandlerClass) (req : request)
    (p : string) (fields : list (string * string)) (h : handler) :
  Str.words (requestline req) = ["GET"; p] ->
  request_headers req = Headers fields ->
  BaseHTTPRequestHandler.parse_request env cls req h
  = (Ok true,
     mkHandler (directory h) "HTTP/0.9" (Some "GET") (request_path p) fields
       true (_headers_buffer h) (wfile h)).
Proof.
  intros Hw Hf. unfold BaseHTTPRequestHandler.parse_request.
  rewrite !bind_modify.
  change (Str.rstrip _ (raw_requestline req)) with (requestline req).
  rewrite Hw. cbn [length Nat.eqb Nat.leb].
  unfold BaseHTTPRequestHandler.parse_request_words.
  cbn [length Nat.eqb Nat.leb andb negb nth String.eqb Ascii.eqb Bool.eqb].
  rewrite !bind_modify.
  unfold BaseHTTPRequestHandler.parse_request_headers. rewrite Hf.
  rewrite bind_modify, protocol_below_1_1, andb_false_r.
  destruct (Str.lower (headers_get_default fields "Connection") =? "close")%string;
    [rewrite bind_modify|rewrite bind_ret];
    rewrite bind_get, andb_false_r; reflexivity.
Qed.

(** X16: a request of [HTTP/0.9].  The line is the first of its
    connection, is at most 65536 bytes long and has two words, [GET] and a
    path; what follows it is read as headers without error.  The path is
    translated to a path that the system takes, that does not end with a
    slash and that names a file [open] can read.  Then the whole response
    is the content of the file: there is no status line and no header, the
    isolation headers included; and it is empty when the file is empty or
    when the request is a conditional one that the file satisfies. *)
Theorem simple_request_is_answered_by_the_body_alone (env : Env)
    (req : request) (rest : list request) (p : string)
    (fields : list (string * string)) (content : string) (mtime : Z) :
  Str.len (raw_requestline req) <= 65536 ->
  Str.words (requestline req) = ["GET"; p] ->
  request_headers req = Headers fields ->
  Str.endswith
    (SimpleHTTPRequestHandler.translate_path env (getcwd env) (request_path p))
    "/" = false ->
  SimpleHTTPRequestHandler.unopenable env
    (SimpleHTTPRequestHandler.translate_path env (getcwd env) (request_path p))
  = false ->
  fs env
    (SimpleHTTPRequestHandler.translate_path env (getcwd env) (request_path p))
  = Some (File (Some content) mtime) ->
  exists h : handler,
    SimpleHTTPRequestHandler.handle env COEPHandler.class (req :: rest)
      (SimpleHTTPRequestHandler.init env) = (Ok tt, h)
    /\ wfile h
       = if SimpleHTTPRequestHandler.not_modified env fields mtime
            || (content =? "")%string
         then [] else [message_body content].
Proof.
  intros Hl Hw Hh Hs Hu Hf.
  set (h1 := mkHandler (getcwd env) "HTTP/0.9" (Some "GET") (request_path p)
               fields true None []).
  assert (E : SimpleHTTPRequestHandler.send_head env COEPHandler.class h1
              = (Ok (if SimpleHTTPRequestHandler.not_modified env fields mtime
                     then None else Some content), h1)).
  { rewrite (send_head_file_path env h1 content mtime Hs Hf).
    unfold SimpleHTTPRequestHandler.send_head_file.
    fold (SimpleHTTPRequestHandler.translate_path env (getcwd env)
            (request_path p)).
    cbn [directory path h1]. rewrite Hs, Hu, Hf, bind_get.
    cbn [headers h1].
    destruct (SimpleHTTPRequestHandler.not_modified env fields mtime).
    - erewrite bind_ok by (now apply send_response_silent).
      cbn [self_end_headers COEPHandler.class].
      erewrite bind_ok by (now apply end_headers_silent).
      reflexivity.
    - erewrite bind_ok by (now apply send_response_silent).
      erewrite bind_ok by (now apply send_header_silent).
      erewrite bind_ok by (now apply send_header_silent).
      erewrite bind_ok by (now apply send_header_silent).
      cbn [self_end_headers COEPHandler.class].
      erewrite bind_ok by (now apply end_headers_silent).
      reflexivity. }
  unfold SimpleHTTPRequestHandler.handle. rewrite bind_modify.
  cbn [hd tl]. unfold bind at 1.
  unfold SimpleHTTPRequestHandler.handle_one_request.
  replace (65536 <? Str.len (raw_requestline req)) with false by lia.
  rewrite (requestline_not_empty req _ _ Hw).
  erewrite bind_ok by (apply (parse_request_simple env _ req p fields _ Hw Hh)).
  cbn [negb]. rewrite bind_get.
  cbn [command SimpleHTTPRequestHandler.init set_close_connection directory
       _headers_buffer wfile].
  change (SimpleHTTPRequestHandler.do_method env COEPHandler.class "GET")
    with (Some (SimpleHTTPRequestHandler.do_GET env COEPHandler.class)).
  cbv beta iota. fold h1. unfold SimpleHTTPRequestHandler.do_GET.
  erewrite bind_ok by exact E.
  unfold SimpleHTTPRequestHandler.copyfile.
  destruct (SimpleHTTPRequestHandler.not_modified env fields mtime);
    cbn [orb]; [|destruct (content =? "")%string]; unfold ret, modify;
    eexists; (split; [apply handle_loop_closed; reflexivity|reflexivity]).
Qed.

Lemma simple_request_is_answered_by_the_body_alone_witness :
  exists h : handler,
    SimpleHTTPRequestHandler.handle Sample.env COEPHandler.class
      [Sample.request_line "GET /etc/passwd" []]
      (SimpleHTTPRequestHandler.init Sample.env) = (Ok tt, h)
    /\ wfile h = [message_body "inside the root"].
Proof.
  apply (simple_request_is_answered_by_the_body_alone Sample.env
           (Sample.request_line "GET /etc/passwd" []) []
           "/etc/passwd" [] "inside the root" 1700000000);
    first [ reflexivity | vm_compute; discriminate ].
Defined.

(** ** A handler that raises *)

(** X21: a path that is no path for the system.  The request is a [GET]
    or [HEAD] with a line of three words, at most 65536 bytes long, whose
    version is [HTTP/major.minor] with [major] below 2, and its headers
    are read without error; its path is translated to a path that does
    not end with a slash and that holds a null character (or cannot be
    encoded).  Then [open] raises [ValueError], which the handler does not
    catch: nothing is written on the connection, no status and no header.
    The server reports the exception on the standard error stream, closes
    the connection and goes on with the events that follow. *)
Theorem unopenable_path_gets_no_response (env : Env) (req : request)
    (rest : list request) (cmd p version base : string) (number : Z * Z)
    (fields : list (string * string)) :
  cmd = "GET" \/ cmd = "HEAD" ->
  Str.len (raw_requestline req) <= 65536 ->
  Str.words (requestline req) = [cmd; p; version] ->
  BaseHTTPRequestHandler.version_number version = Some (base, number) ->
  BaseHTTPRequestHandler.pair_ge number (2, 0) = false ->
  request_headers req = Headers fields ->
  Str.endswith
    (SimpleHTTPRequestHandler.translate_path env (getcwd env) (request_path p))
    "/" = false ->
  SimpleHTTPRequestHandler.unopenable env
    (SimpleHTTPRequestHandler.translate_path env (getcwd env) (request_path p))
  = true ->
  let h := mkHandler (getcwd env) version (Some cmd) (request_path p) fields
             true None [] in
  SimpleHTTPRequestHandler.handle env COEPHandler.class (req :: rest)
    (SimpleHTTPRequestHandler.init env) = (Raise ValueError, h)
  /\ forall (n : nat) (events : list event),
       TCPServer.serve_forever env COEPHandler.class true n
         (connection (req :: rest) :: events)
       = (([accepted n; handler_start n; handled n h;
            stderr (handler_traceback ValueError); handler_end n]
           ++ fst (TCPServer.serve_forever env COEPHandler.class true (S n)
                     events))%list,
          snd (TCPServer.serve_forever env COEPHandler.class true (S n)
                 events)).
Proof.
  intros Hc Hl Hw Hn H2 Hh Hs Hu h.
  assert (E : SimpleHTTPRequestHandler.send_head env COEPHandler.class h
              = (Raise ValueError, h)).
  { unfold SimpleHTTPRequestHandler.send_head. rewrite bind_get.
    unfold self_path. cbn [directory path h].
    unfold SimpleHTTPRequestHandler.isdir. rewrite Hu.
    unfold SimpleHTTPRequestHandler.send_head_file. now rewrite Hs, Hu. }
  assert (R : SimpleHTTPRequestHandler.handle env COEPHandler.class
                (req :: rest) (SimpleHTTPRequestHandler.init env)
              = (Raise ValueError, h)).
  { unfold SimpleHTTPRequestHandler.handle. rewrite bind_modify.
    cbn [hd tl]. unfold bind at 1.
    rewrite (handle_one_request_parsed env req cmd p version base number
               fields Hl Hw Hn H2 Hh).
    fold h.
    destruct Hc as [-> | ->].
    - change (SimpleHTTPRequestHandler.do_method env COEPHandler.class "GET")
        with (Some (SimpleHTTPRequestHandler.do_GET env COEPHandler.class)).
      cbv beta iota. unfold SimpleHTTPRequestHandler.do_GET.
      now rewrite (bind_raise _ _ _ _ _ E).
    - change (SimpleHTTPRequestHandler.do_method env COEPHandler.class "HEAD")
        with (Some (SimpleHTTPRequestHandler.do_HEAD env COEPHandler.class)).
      cbv beta iota. unfold SimpleHTTPRequestHandler.do_HEAD.
      now rewrite (bind_raise _ _ _ _ _ E). }
  split; [exact R|].
  intros n events. cbn [TCPServer.serve_forever].
  unfold TCPServer.handle_request_noblock, TCPServer.finish_request.
  rewrite R. cbn [is_Exception].
  now destruct (TCPServer.serve_forever env COEPHandler.class true (S n) events).
Qed.

Lemma unopenable_path_gets_no_response_witness :
  let h := mkHandler "/srv" "HTTP/1.1" (Some "GET")
             ("/a" ++ String Ascii.zero "b") [] true None [] in
  SimpleHTTPRequestHandler.handle Sample.env COEPHandler.class
    [Sample.request_line ("GET /a" ++ String Ascii.zero "b HTTP/1.1") []]
    (SimpleHTTPRequestHandler.init Sample.env) = (Raise ValueError, h)
  /\ forall (n : nat) (events : list event),
       TCPServer.serve_forever Sample.env COEPHandler.class true n
         (connection
            [Sample.request_line ("GET /a" ++ String Ascii.zero "b HTTP/1.1")
               []]
          :: events)
       = (([accepted n; handler_start n; handled n h;
            stderr (handler_traceback ValueError); handler_end n]
           ++ fst (TCPServer.serve_forever Sample.env COEPHandler.class true
                     (S n) events))%list,
          snd (TCPServer.serve_forever Sample.env COEPHandler.class true
                 (S n) events)).
Proof.
  apply (unopenable_path_gets_no_response Sample.env
           (Sample.request_line ("GET /a" ++ String Ascii.zero "b HTTP/1.1") [])
           [] "GET" ("/a" ++ String Ascii.zero "b") "HTTP/1.1" "1.1" (1, 1) []);
    first [ left; reflexivity
          | reflexivity
          | vm_compute; discriminate ].
Defined.

(** ** Directories *)






(** ** Help *)

Lemma no_separator_no_ambiguity (argv : list string) :
  Forall (fun s => s <> "--" /\ argparse.parse_optional s <> argparse.ambiguous)
         argv ->
  argparse.classify argv = map (fun s => (s, argparse.parse_optional s)) argv
  /\ find (fun sk : string * argparse.kind =>
             match snd sk with argparse.ambiguous => true | _ => false end)
          (map (fun s => (s, argparse.parse_optional s)) argv) = None.
Proof.
  induction 1 as [|s argv [Hs Ha] _ [IH1 IH2]]; [now split|].
  cbn [argparse.classify map find snd]. rewrite IH1, IH2.
  apply String.eqb_neq in Hs. rewrite Hs.
  split; [reflexivity|]. now destruct (argparse.parse_optional s).
Qed.

(** X19: [-h] or [--help] as the first argument.  Whatever follows it on
    the command line (no word of it being [--] or an ambiguous
    abbreviation), the program prints the help on the standard output and
    exits with status 0: the arguments after it are not converted, and no
    socket is created. *)
Theorem help_first_exits_with_status_0 (env : Env) (os : OS)
    (flag : string) (rest : list string) (events : list event) :
  flag = "-h" \/ flag = "--help" ->
  Forall (fun s => s <> "--" /\ argparse.parse_optional s <> argparse.ambiguous)
         rest ->
  main env os (flag :: rest) events = Some ([stdout help_text], exited 0).
Proof.
  intros F H. unfold main, argparse.parse_args.
  destruct (no_separator_no_ambiguity rest H) as [E1 E2].
  assert (P : argparse.parse_optional flag
              = argparse.O (Some argparse.help) flag None)
    by (destruct F as [-> | ->]; reflexivity).
  assert (S : (flag =? "--")%string = false)
    by (destruct F as [-> | ->]; reflexivity).
  cbn [argparse.classify]. rewrite S, E1, P. cbn [find snd]. rewrite E2.
  cbn [argparse.parse_loop].
  destruct rest as [|s rest]; [reflexivity|].
  cbn [map]. now destruct (argparse.parse_optional s).
Qed.

Lemma help_first_exits_with_status_0_witness :
  main Sample.env Sample.os_port_taken ["--help"; "--port"; "http"; "x"] []
  = Some ([stdout help_text], exited 0).
Proof.
  apply (help_first_exits_with_status_0 Sample.env Sample.os_port_taken
           "--help" ["--port"; "http"; "x"] []); [now right|].
  repeat constructor; discriminate.
Defined.

(** ** Integers and their decimal writing *)

Lemma digit_is_no_space (c : ascii) :
  Py.is_digit c = true -> Py.int_space c = false.
Proof.
  destruct c as [[] [] [] [] [] [] [] []]; vm_compute; congruence.
Qed.

Lemma all_digits_app (a b : string) :
  argparse.all_digits (a ++ b)
  = argparse.all_digits a && argparse.all_digits b.
Proof.
  induction a as [|c a IH]; [reflexivity|].
  cbn [append argparse.all_digits]. now rewrite IH, andb_assoc.
Qed.

Lemma all_digits_rev (s : string) :
  argparse.all_digits (Str.rev_string s) = argparse.all_digits s.
Proof.
  induction s as [|c s IH]; [reflexivity|].
  cbn [Str.rev_string argparse.all_digits].
  rewrite all_digits_app, IH. cbn [argparse.all_digits].
  rewrite andb_true_r. apply andb_comm.
Qed.

Lemma lstrip_all_digits (s : string) :
  argparse.all_digits s = true -> Str.lstrip Py.int_space s = s.
Proof.
  destruct s as [|c s]; [reflexivity|]. cbn [argparse.all_digits Str.lstrip].
  intro H. apply andb_prop in H as [H _].
  now rewrite (digit_is_no_space c H).
Qed.

Lemma rstrip_all_digits (s : string) :
  argparse.all_digits s = true -> Str.rstrip Py.int_space s = s.
Proof.
  intro H. unfold Str.rstrip.
  rewrite lstrip_all_digits by now rewrite all_digits_rev.
  apply rev_string_involutive.
Qed.

Lemma all_digits_string_of_uint (d : Decimal.uint) :
  argparse.all_digits (NilEmpty.string_of_uint d) = true.
Proof. induction d; cbn; auto. Qed.

Lemma length_string_of_uint (d : Decimal.uint) :
  String.length (NilEmpty.string_of_uint d) = Decimal.nb_digits d.
Proof. induction d; cbn; auto. Qed.

(** The digits of [d] read after a value [acc] that is not zero. *)
Lemma int_digits_acc (d : Decimal.uint) (acc : positive) (count : nat) :
  Py.int_digits (Z.pos acc) count true (NilEmpty.string_of_uint d)
  = Some (Z.pos (Pos.of_uint_acc d acc), (count + Decimal.nb_digits d)%nat).
Proof.
  revert acc count.
  induction d as [|d IH|d IH|d IH|d IH|d IH|d IH|d IH|d IH|d IH|d IH];
    intros acc count;
    [cbn; now rewrite Nat.add_0_r|..];
    cbn [NilEmpty.string_of_uint Py.int_digits Pos.of_uint_acc
         Decimal.nb_digits];
    match goal with
    | |- context [Py.is_digit ?c] =>
        change (Py.is_digit c) with true; cbv iota;
        change (Py.digit_value c) with (Py.digit_value c)
    end;
    rewrite <- Nat.add_succ_comm, <- IH; f_equal; vm_compute Py.digit_value;
    lia.
Qed.

(** The digits of [d] read from the start. *)
Lemma int_digits_of_uint (d : Decimal.uint) (count : nat) (prev : bool) :
  prev = true \/ d <> Decimal.Nil ->
  Py.int_digits 0 count prev (NilEmpty.string_of_uint d)
  = Some (Z.of_N (Pos.of_uint d), (count + Decimal.nb_digits d)%nat).
Proof.
  revert count prev.
  induction d as [|d IH|d IH|d IH|d IH|d IH|d IH|d IH|d IH|d IH|d IH];
    intros count prev H.
  - destruct H as [-> | H]; [|contradiction]. cbn. now rewrite Nat.add_0_r.
  - cbn [NilEmpty.string_of_uint Py.int_digits Pos.of_uint Decimal.nb_digits].
    change (Py.is_digit "0") with true. cbv iota.
    change (10 * 0 + Py.digit_value "0") with 0.
    rewrite <- Nat.add_succ_comm. apply IH. now left.
  - cbn [NilEmpty.string_of_uint Py.int_digits Pos.of_uint Decimal.nb_digits].
    change (Py.is_digit "1") with true. cbv iota.
    change (10 * 0 + Py.digit_value "1") with (Z.pos 1).
    rewrite <- Nat.add_succ_comm. apply int_digits_acc.
  - cbn [NilEmpty.string_of_uint Py.int_digits Pos.of_uint Decimal.nb_digits].
    change (Py.is_digit "2") with true. cbv iota.
    change (10 * 0 + Py.digit_value "2") with (Z.pos 2).
    rewrite <- Nat.add_succ_comm. apply int_digits_acc.
  - cbn [NilEmpty.string_of_uint Py.int_digits Pos.of_uint Decimal.nb_digits].
    change (Py.is_digit "3") with true. cbv iota.
    change (10 * 0 + Py.digit_value "3") with (Z.pos 3).
    rewrite <- Nat.add_succ_comm. apply int_digits_acc.
  - cbn [NilEmpty.string_of_uint Py.int_digits Pos.of_uint Decimal.nb_digits].
    change (Py.is_digit "4") with true. cbv iota.
    change (10 * 0 + Py.digit_value "4") with (Z.pos 4).
    rewrite <- Nat.add_succ_comm. apply int_digits_acc.
  - cbn [NilEmpty.string_of_uint Py.int_digits Pos.of_uint Decimal.nb_digits].
    change (Py.is_digit "5") with true. cbv iota.
    change (10 * 0 + Py.digit_value "5") with (Z.pos 5).
    rewrite <- Nat.add_succ_comm. apply int_digits_acc.
  - cbn [NilEmpty.string_of_uint Py.int_digits Pos.of_uint Decimal.nb_digits].
    change (Py.is_digit "6") with true. cbv iota.
    change (10 * 0 + Py.digit_value "6") with (Z.pos 6).
    rewrite <- Nat.add_succ_comm. apply int_digits_acc.
  - cbn [NilEmpty.string_of_uint Py.int_digits Pos.of_uint Decimal.nb_digits].
    change (Py.is_digit "7") with true. cbv iota.
    change (10 * 0 + Py.digit_value "7") with (Z.pos 7).
    rewrite <- Nat.add_succ_comm. apply int_digits_acc.
  - cbn [NilEmpty.string_of_uint Py.int_digits Pos.of_uint Decimal.nb_digits].
    change (Py.is_digit "8") with true. cbv iota.
    change (10 * 0 + Py.digit_value "8") with (Z.pos 8).
    rewrite <- Nat.add_succ_comm. apply int_digits_acc.
  - cbn [NilEmpty.string_of_uint Py.int_digits Pos.of_uint Decimal.nb_digits].
    change (Py.is_digit "9") with true. cbv iota.
    change (10 * 0 + Py.digit_value "9") with (Z.pos 9).
    rewrite <- Nat.add_succ_comm. apply int_digits_acc.
Qed.

(** The decimal writing of a positive number. *)
Lemma of_Z_pos (p : positive) :
  Str.of_Z (Z.pos p) = NilEmpty.string_of_uint (Pos.to_uint p)
  /\ Str.of_Z (Z.neg p) = String "-" (NilEmpty.string_of_uint (Pos.to_uint p))
  /\ Pos.to_uint p <> Decimal.Nil.
Proof.
  pose proof (DecimalPos.Unsigned.to_uint_nonnil p) as N.
  unfold Str.of_Z. cbn [Z.to_int NilZero.string_of_int].
  unfold NilZero.string_of_uint.
  destruct (Pos.to_uint p); [contradiction|..]; repeat split; discriminate.
Qed.

Lemma int_of_digits (d : Decimal.uint) :
  d <> Decimal.Nil ->
  (Decimal.nb_digits d <= Py.int_max_str_digits)%nat ->
  Py.int (NilEmpty.string_of_uint d) = Some (Z.of_N (Pos.of_uint d))
  /\ Py.int (String "-" (NilEmpty.string_of_uint d))
     = Some (- Z.of_N (Pos.of_uint d)).
Proof.
  intros N L. pose proof (all_digits_string_of_uint d) as A.
  apply Nat.leb_le in L.
  split; unfold Py.int.
  - rewrite (lstrip_all_digits _ A), (rstrip_all_digits _ A).
    assert (E : match NilEmpty.string_of_uint d with
                | String "+" r => (1, r)
                | String "-" r => (-1, r)
                | _ => (1, NilEmpty.string_of_uint d)
                end = (1, NilEmpty.string_of_uint d))
      by (destruct d; reflexivity).
    rewrite E, int_digits_of_uint by now right.
    cbn [Nat.add]. rewrite L. f_equal; try lia.
  - assert (S : Str.rstrip Py.int_space
                  (Str.lstrip Py.int_space
                     (String "-" (NilEmpty.string_of_uint d)))
                = String "-" (NilEmpty.string_of_uint d)).
    { change (Str.lstrip Py.int_space (String "-" ?s)) with (String "-" s).
      unfold Str.rstrip. cbn [Str.rev_string].
      assert (R : Str.lstrip Py.int_space
                    (Str.rev_string (NilEmpty.string_of_uint d) ++ "-")
                  = Str.rev_string (NilEmpty.string_of_uint d) ++ "-").
      { pose proof (all_digits_rev (NilEmpty.string_of_uint d)) as AR.
        rewrite A in AR.
        destruct (Str.rev_string (NilEmpty.string_of_uint d)) as [|c r] eqn:Er.
        - reflexivity.
        - cbn [argparse.all_digits] in AR. apply andb_prop in AR as [AR _].
          cbn [append Str.lstrip]. now rewrite (digit_is_no_space c AR). }
      rewrite R, rev_string_app, rev_string_involutive. reflexivity. }
    rewrite S, int_digits_of_uint by now right.
    cbn [Nat.add]. rewrite L. f_equal; try lia.
Qed.

Lemma int_of_Z (n : Z) :
  (String.length (Str.of_Z (Z.abs n)) <= 4300)%nat ->
  Py.int (Str.of_Z n) = Some n.
Proof.
  destruct n as [|p|p]; [reflexivity|..]; cbn [Z.abs];
    destruct (of_Z_pos p) as [E1 [E2 N]]; rewrite ?E1, ?E2;
    rewrite length_string_of_uint; intro L;
    destruct (int_of_digits _ N L) as [I1 I2];
    rewrite ?I1, ?I2, DecimalPos.Unsigned.of_to; reflexivity.
Qed.

Lemma parse_optional_of_Z (n : Z) :
  0 <= n -> argparse.parse_optional (Str.of_Z n) = argparse.A.
Proof.
  destruct n as [|p|p]; [reflexivity| |lia]. intros _.
  destruct (of_Z_pos p) as [-> [_ N]].
  destruct (Pos.to_uint p); [contradiction|..]; reflexivity.
Qed.

(** X20: a number written in decimal is read back.  [int] applied to the
    decimal writing of an integer gives that integer, as long as the
    writing has no more than 4300 digits, the limit of the interpreter;
    so for every such number that is not negative, the port option
    followed by its decimal writing sets the port to that number. *)
Theorem port_written_in_decimal_is_read_back (n : Z) :
  (String.length (Str.of_Z (Z.abs n)) <= 4300)%nat ->
  Py.int (Str.of_Z n) = Some n
  /\ (0 <= n ->
      forall flag : string,
        flag = "--port" \/ flag = "-p" ->
        argparse.parse_args [flag; Str.of_Z n]
        = Some (argparse.parsed (argparse.mkNamespace n "127.0.0.1"))).
Proof.
  intro L. split; [now apply int_of_Z|].
  intros H flag F.
  rewrite (parse_args_port flag _ F (parse_optional_of_Z n H)).
  now rewrite (int_of_Z n L).
Qed.

Lemma port_written_in_decimal_is_read_back_witness :
  Py.int "65535" = Some 65535
  /\ (0 <= 65535 ->
      forall flag : string,
        flag = "--port" \/ flag = "-p" ->
        argparse.parse_args [flag; "65535"]
        = Some (argparse.parsed (argparse.mkNamespace 65535 "127.0.0.1"))).
Proof.
  apply (port_written_in_decimal_is_read_back 65535).
  apply Nat.leb_le. reflexivity.
Defined.
